(** * perotf_batch_parser: the experiment-sheet parser of nomad-perotf

    A shallow embedding of [src/nomad_perotf/parsers/perotf_batch_parser.py].
    The parser reads a spreadsheet with a two-level header into a pandas
    DataFrame and turns it into batch, substrate, sample and process records
    that refer to each other through reference strings.

    Conventions of the embedding:
    - a Python object that can sit in a cell or come out of [get_value] is a
      [value]: [None], an [int], a [float] (an IEEE binary64, NaN included)
      or a [str]; cells of other types (dates, booleans) are not covered;
    - text is a [string] of bytes, the UTF-8 encoding of the [str]; [strip]
      removes the blanks of Unicode that [str.strip()] removes; [lower]
      changes the letters A-Z only, which agrees with [str.lower()] on the
      tests the parser makes with it (a prefix test against 'solvent',
      'solute', 'y', 'n', '0' or '1': no other character has one of these
      letters or digits as its lower case);
    - a raised exception is the [Raise] case of [result], and calls are
      sequenced in the order Python evaluates them;
    - the pieces of the Python runtime and of NOMAD that the parser only calls
      (float parsing and printing, the entry hash) form the [Runtime] class;
    - the record classes of the schema packages store their keyword
      arguments; an argument that is not given is [None] or the empty list;
    - a table is what [pd.read_excel(file, header=[0, 1])] returns: columns
      named by the two header cells, each of one dtype, and rows that carry
      their label; within a top-level group the second names are distinct,
      as pandas makes them. The operations of pandas the parser uses
      ([iterrows], [drop_duplicates], [equals], [isna], selection by name)
      are defined on that representation as the library documents them.
      The theorems about whole tables are stated for a table that is
      [well_typed], as every DataFrame is: each row has one cell per column,
      an [int] in an int64 column and a [float] in a float64 column. *)

From Stdlib Require Import ZArith List String Ascii Bool Arith Lia.
From Stdlib Require Import DecimalString DecimalZ DecimalPos OrdersEx Sorted.
From Stdlib Require Import PrimFloat SpecFloat FloatOps FloatAxioms.
Import ListNotations.
Local Open Scope string_scope.
Local Open Scope list_scope.

(** String concatenation, as [+] on [str] and the pieces of an f-string. *)
Infix "+++" := String.append (right associativity, at level 60).

(** ** Exceptions and results *)

Inductive exn : Set :=
| ValueError | TypeError | AttributeError | KeyError | IndexError | OverflowError.

Inductive result (A : Type) : Type :=
| Ok (a : A)
| Raise (e : exn).
Arguments Ok {A} a.
Arguments Raise {A} e.

Definition bind {A B : Type} (c : result A) (k : A -> result B) : result B :=
  match c with
  | Ok a => k a
  | Raise e => Raise e
  end.

Notation "x <- c ;; k" := (bind c (fun x => k))
  (at level 61, c at next level, right associativity).
Notation "' p <- c ;; k" := (bind c (fun x => let p := x in k))
  (at level 61, p pattern, c at next level, right associativity).

Definition is_ok {A : Type} (r : result A) : bool :=
  match r with Ok _ => true | Raise _ => false end.

(** [[f(x) for x in l]] where [f] may raise: left to right, first exception wins. *)
Fixpoint mapM {A B : Type} (f : A -> result B) (l : list A) : result (list B) :=
  match l with
  | [] => Ok []
  | x :: l' => y <- f x ;; ys <- mapM f l' ;; Ok (y :: ys)
  end.

(** [[f(x) for x in l if c(x)]]: the condition is evaluated before the element. *)
Fixpoint filter_mapM {A B : Type} (c : A -> result bool) (f : A -> result B)
    (l : list A) : result (list B) :=
  match l with
  | [] => Ok []
  | x :: l' =>
      b <- c x ;;
      if b then y <- f x ;; ys <- filter_mapM c f l' ;; Ok (y :: ys)
      else filter_mapM c f l'
  end.

(** ** Text *)

Definition lower_ascii (c : ascii) : ascii :=
  let n := nat_of_ascii c in
  if ((65 <=? n) && (n <=? 90))%nat then ascii_of_nat (n + 32) else c.

(** [s.lower()] *)
Fixpoint lower (s : string) : string :=
  match s with
  | EmptyString => EmptyString
  | String c s' => String (lower_ascii c) (lower s')
  end.

(** The text whose bytes have the codes [l]. *)
Definition bytes (l : list nat) : string :=
  fold_right (fun n s => String (ascii_of_nat n) s) EmptyString l.

(** The blanks [str.strip()] removes are the characters for which
    [str.isspace()] holds, here in UTF-8: the tab, line feed, vertical tab,
    form feed and carriage return, the four separators U+001C-U+001F and the
    space; U+0085 and U+00A0; U+1680; U+2000-U+200A; U+2028, U+2029, U+202F,
    U+205F and U+3000. *)
Definition blank_codes : list (list nat) :=
  [[9]; [10]; [11]; [12]; [13]; [28]; [29]; [30]; [31]; [32];
   [194; 133]; [194; 160];
   [225; 154; 128];
   [226; 128; 128]; [226; 128; 129]; [226; 128; 130]; [226; 128; 131];
   [226; 128; 132]; [226; 128; 133]; [226; 128; 134]; [226; 128; 135];
   [226; 128; 136]; [226; 128; 137]; [226; 128; 138];
   [226; 128; 168]; [226; 128; 169]; [226; 128; 175];
   [226; 129; 159];
   [227; 128; 128]].

Definition blanks : list string := map bytes blank_codes.

(** The number of bytes of the blank of [bl] that [s] starts with, 0 when it
    starts with none. *)
Definition blank_length (bl : list string) (s : string) : nat :=
  match find (fun b => String.prefix b s) bl with
  | Some b => String.length b
  | None => 0
  end.

(** [s] without the blanks of [bl] it starts with; [skip] counts the bytes
    of a blank that are still to be dropped. *)
Fixpoint lstrip_with (bl : list string) (skip : nat) (s : string) : string :=
  match s with
  | EmptyString => EmptyString
  | String _ s' =>
      match skip with
      | S k => lstrip_with bl k s'
      | O =>
          match blank_length bl s with
          | O => s
          | S k => lstrip_with bl k s'
          end
      end
  end.

Fixpoint string_rev (s : string) : string :=
  match s with
  | EmptyString => EmptyString
  | String c s' => string_rev s' +++ String c EmptyString
  end.

(** [s.lstrip()] and [s.rstrip()]; the latter strips the reversed text of
    the reversed blanks. *)
Definition lstrip (s : string) : string := lstrip_with blanks 0 s.

Definition rstrip (s : string) : string :=
  string_rev (lstrip_with (map string_rev blanks) 0 (string_rev s)).

(** [s.strip()] *)
Definition strip (s : string) : string := rstrip (lstrip s).

(** [s.startswith(p)] *)
Definition startswith (s p : string) : bool := String.prefix p s.

(** [sub in s] *)
Fixpoint contains (sub s : string) : bool :=
  String.prefix sub s ||
  match s with
  | EmptyString => false
  | String _ s' => contains sub s'
  end.

(** [s.split(sep)] for a separator of one character. *)
Fixpoint str_split (sep : ascii) (s : string) : list string :=
  match s with
  | EmptyString => [EmptyString]
  | String c s' =>
      if Ascii.eqb c sep then EmptyString :: str_split sep s'
      else match str_split sep s' with
           | [] => [String c EmptyString]
           | w :: ws => String c w :: ws
           end
  end.

(** [sep.join(l)] *)
Definition join (sep : string) (l : list string) : string := String.concat sep l.

(** [str(n)] of an [int]. *)
Definition str_of_Z (z : Z) : string := NilZero.string_of_int (Z.to_int z).
Definition str_of_nat (n : nat) : string := str_of_Z (Z.of_nat n).

(** Order of [str] values (by code point, which is the byte order of UTF-8). *)
Definition str_leb (a b : string) : bool :=
  match String.compare a b with Gt => false | _ => true end.

Fixpoint insert_sorted (x : string) (l : list string) : list string :=
  match l with
  | [] => [x]
  | y :: l' => if str_leb x y then x :: l else y :: insert_sorted x l'
  end.

(** [sorted(set(l))] *)
Definition sorted_set (l : list string) : list string :=
  fold_right insert_sorted [] (nodup string_dec l).

(** ** Floats *)

(** [float(z)] of an [int]: the nearest binary64, ties to even; an [int] too
    large for a binary64 raises OverflowError. *)
Definition float_of_Z (z : Z) : result float :=
  let f := SF2Prim (binary_normalize prec emax z 0 false) in
  if is_infinity f then Raise OverflowError else Ok f.

(** The cast of an int64 column to float64 (numpy never raises there). *)
Definition cast_float (z : Z) : float :=
  SF2Prim (binary_normalize prec emax z 0 false).

Definition f60 : float := 60%float.
Definition f1000 : float := 1000%float.
(** [1 / 1000], the true division of two ints. *)
Definition milli : float := (1 / f1000)%float.

(** ** The runtime the parser calls into *)

Class Runtime : Type := {
  (** [float(s)] of a [str]; [None] when Python raises ValueError *)
  float_of_str : string -> option float;
  (** [str(x)] of a [float] *)
  repr_float : float -> string;
  (** [nomad.utils.hash(upload_id, file_name)] *)
  hash : string -> string -> string
}.

(** ** Python objects *)

Inductive value : Type :=
| VNone
| VInt (z : Z)
| VFloat (f : float)
| VStr (s : string).

(** [pd.isna(v)] *)
Definition isna (v : value) : bool :=
  match v with
  | VNone => true
  | VFloat f => is_nan f
  | _ => false
  end.

(** [bool(v)] *)
Definition truthy (v : value) : bool :=
  match v with
  | VNone => false
  | VInt z => negb (Z.eqb z 0)
  | VFloat f => negb (PrimFloat.eqb f 0%float)
  | VStr s => negb (String.eqb s "")
  end.

Section WithRuntime.
Context {RT : Runtime}.

(** [str(v)] *)
Definition py_str (v : value) : string :=
  match v with
  | VNone => "None"
  | VInt z => str_of_Z z
  | VFloat f => repr_float f
  | VStr s => s
  end.

(** [float(v)] *)
Definition py_float (v : value) : result float :=
  match v with
  | VNone => Raise TypeError
  | VInt z => float_of_Z z
  | VFloat f => Ok f
  | VStr s => match float_of_str s with Some f => Ok f | None => Raise ValueError end
  end.

(** [a + b] for a [str] on the left. *)
Definition str_add (a : string) (b : value) : result string :=
  match b with
  | VStr s => Ok (a +++ s)
  | _ => Raise TypeError
  end.

(** [v.lower().startswith(p)] *)
Definition lower_startswith (v : value) (p : string) : result bool :=
  match v with
  | VStr s => Ok (startswith (lower s) p)
  | _ => Raise AttributeError
  end.

(** ** Series: one row of a table, or a part of it *)

Inductive dtype : Set := int64 | float64 | object.

Definition dtype_eqb (a b : dtype) : bool :=
  match a, b with
  | int64, int64 | float64, float64 | object, object => true
  | _, _ => false
  end.

Record Series : Type := {
  s_dtype : dtype;
  s_index : list string;
  s_values : list value
}.

Fixpoint lookup (keys : list string) (vals : list value) (key : string) : option value :=
  match keys, vals with
  | k :: keys', v :: vals' => if String.eqb k key then Some v else lookup keys' vals' key
  | _, _ => None
  end.

(** [data.get(key)]; [None] stands for an absent key. *)
Definition series_get (data : Series) (key : string) : option value :=
  lookup (s_index data) (s_values data) key.

(** [data[key]] *)
Definition series_getitem (data : Series) (key : string) : result value :=
  match series_get data key with
  | Some v => Ok v
  | None => Raise KeyError
  end.

(** ** The helpers of the parser *)

Definition get_entry_id_from_file_name (file_name upload_id : string) : string :=
  hash upload_id file_name.

Definition get_reference (upload_id file_name : string) : string :=
  let entry_id := get_entry_id_from_file_name file_name upload_id in
  "../uploads/" +++ upload_id +++ "/archive/" +++ entry_id +++ "#data".

Definition convert_quantity (v : value) (factor : float) : value :=
  match py_float v with
  | Ok f => VFloat (f * factor)%float
  | Raise _ => VNone
  end.

Definition get_value (data : Series) (key : string) (default : value)
    (number : bool) : result value :=
  match series_get data key with
  | None => Ok default
  | Some v =>
      if isna v then Ok default
      else if number then f <- py_float v ;; Ok (VFloat f)
      else Ok (VStr (strip (py_str v)))
  end.

End WithRuntime.

(** ** The record classes the parser fills

    One module per class of [baseclasses], [nomad] and
    [nomad_perotf.schema_packages.perotf_package]; the fields are the keyword
    arguments the parser passes or assigns. *)

Module CompositeSystemReference.
Record t : Type := { reference : string; lab_id : value }.
End CompositeSystemReference.

Module LayerProperties.
Record t : Type := { layer_type : value; layer_material_name : value }.
End LayerProperties.

Module PubChemPureSubstanceSectionCustom.
Record t : Type := { name : value; load_data : bool }.
End PubChemPureSubstanceSectionCustom.
Definition PubChem : Type := PubChemPureSubstanceSectionCustom.t.

Module SolutionChemical.
Record t : Type := {
    chemical_2 : PubChem;
    chemical_volume : value;
    concentration_mol : value
  }.
End SolutionChemical.

Module Solution.
Record t : Type := {
    solvent : list SolutionChemical.t;
    solute : list SolutionChemical.t
  }.
End Solution.

Module PrecursorSolution.
Record t : Type := { solution_details : Solution.t; solution_volume : value }.
End PrecursorSolution.

Module Annealing.
Record t : Type := { temperature : value; time : value; atmosphere : value }.
End Annealing.

Module SpinCoatingRecipeSteps.
Record t : Type := { speed : value; time : value; acceleration : value }.
End SpinCoatingRecipeSteps.

Module AntiSolventQuenching.
Record t : Type := {
    anti_solvent_volume : value;
    anti_solvent_dropping_time : value;
    anti_solvent_dropping_height : value;
    anti_solvent_dropping_flow_rate : value;
    anti_solvent_2 : PubChem
  }.
End AntiSolventQuenching.

Module VacuumQuenching.
Record t : Type := { start_time : value; duration : value; pressure : value }.
End VacuumQuenching.

Module GasQuenchingWithNozzle.
Record t : Type := {
    starting_delay : value;
    flow_rate : value;
    height : value;
    duration : value;
    pressure : value;
    velocity : value;
    nozzle_shape : value;
    nozzle_size : value;
    gas : value
  }.
End GasQuenchingWithNozzle.

(** What the [quenching] attribute of a spin coating can hold. *)
Inductive quenching_section : Type :=
| QAntiSolvent (q : AntiSolventQuenching.t)
| QVacuum (q : VacuumQuenching.t)
| QGas (q : GasQuenchingWithNozzle.t).

Module peroTF_SpinCoating.
Record t : Type := {
    name : string;
    location : value;
    positon_in_experimental_plan : nat;
    description : value;
    samples : list CompositeSystemReference.t;
    layer : list LayerProperties.t;
    solution : list PrecursorSolution.t;
    annealing : Annealing.t;
    recipe_steps : list SpinCoatingRecipeSteps.t;
    quenching : option quenching_section
  }.
(** [archive.quenching = q] *)
Definition set_quenching (a : t) (q : quenching_section) : t :=
    {| name := name a; location := location a;
       positon_in_experimental_plan := positon_in_experimental_plan a;
       description := description a; samples := samples a; layer := layer a;
       solution := solution a; annealing := annealing a;
       recipe_steps := recipe_steps a; quenching := Some q |}.
End peroTF_SpinCoating.

Module PrintHeadProperties.
Record t : Type := {
    number_of_active_print_nozzles : value;
    print_nozzle_drop_frequency : value;
    print_nozzle_drop_volume : value;
    print_head_temperature : value;
    print_head_name : value
  }.
End PrintHeadProperties.

Module InkjetPrintingProperties.
Record t : Type := {
    print_head_properties : PrintHeadProperties.t;
    cartridge_pressure : value;
    substrate_temperature : value;
    drop_density : value;
    printed_area : value
  }.
End InkjetPrintingProperties.

Module PrintHeadPath.
Record t : Type := { quality_factor : value }.
End PrintHeadPath.

Module Atmosphere.
Record t : Type := { relative_humidity : value }.
End Atmosphere.

Module peroTF_InkjetPrinting.
Record t : Type := {
    name : string;
    location : value;
    positon_in_experimental_plan : nat;
    description : value;
    samples : list CompositeSystemReference.t;
    solution : list PrecursorSolution.t;
    layer : list LayerProperties.t;
    properties : InkjetPrintingProperties.t;
    print_head_path : PrintHeadPath.t;
    atmosphere : Atmosphere.t;
    annealing : Annealing.t
  }.
End peroTF_InkjetPrinting.

Module SolutionCleaning.
Record t : Type := { time : value; temperature : value; solvent_2 : PubChem }.
End SolutionCleaning.

Module UVCleaning.
Record t : Type := { time : value }.
End UVCleaning.

Module PlasmaCleaning.
Record t : Type := { time : value; power : value; plasma_type : value }.
End PlasmaCleaning.

Module peroTF_Cleaning.
Record t : Type := {
    name : string;
    positon_in_experimental_plan : nat;
    location : value;
    description : value;
    samples : list CompositeSystemReference.t;
    cleaning : list SolutionCleaning.t;
    cleaning_uv : list UVCleaning.t;
    cleaning_plasma : list PlasmaCleaning.t
  }.
End peroTF_Cleaning.

Module peroTF_Substrate.
Record t : Type := {
    name : string;
    solar_cell_area : value;
    substrate : value;
    conducting_material : list value
  }.
End peroTF_Substrate.

Module InorganicEvaporation.
Record t : Type := { thickness : value; start_rate : value; chemical_2 : option PubChem }.
End InorganicEvaporation.

Module OrganicEvaporation.
Record t : Type := {
    temparature : option (list value);
    thickness : value;
    start_rate : value;
    chemical_2 : option PubChem
  }.
End OrganicEvaporation.

(** The object the local variable [evaporation] of [map_evaporation] holds. *)
Inductive evaporation_section : Type :=
| EInorganic (e : InorganicEvaporation.t)
| EOrganic (e : OrganicEvaporation.t).

Module peroTF_Evaporation.
Record t : Type := {
    name : string;
    location : value;
    positon_in_experimental_plan : nat;
    description : value;
    samples : list CompositeSystemReference.t;
    layer : list LayerProperties.t;
    inorganic_evaporation : list evaporation_section;
    organic_evaporation : list evaporation_section
  }.
End peroTF_Evaporation.

Module SputteringProcess.
Record t : Type := {
    thickness : value;
    gas_flow_rate : value;
    rotation_rate : value;
    power : value;
    temperature : value;
    deposition_time : value;
    burn_in_time : value;
    pressure : value;
    target_2 : PubChem;
    gas_2 : PubChem
  }.
End SputteringProcess.

Module peroTF_Sputtering.
Record t : Type := {
    name : string;
    positon_in_experimental_plan : nat;
    location : value;
    description : value;
    samples : list CompositeSystemReference.t;
    layer : list LayerProperties.t;
    processes : list SputteringProcess.t
  }.
End peroTF_Sputtering.

Module DipCoatingProperties.
Record t : Type := { time : value }.
End DipCoatingProperties.

Module peroTF_DipCoating.
Record t : Type := {
    name : string;
    location : value;
    positon_in_experimental_plan : nat;
    description : value;
    samples : list CompositeSystemReference.t;
    solution : list PrecursorSolution.t;
    layer : list LayerProperties.t;
    properties : DipCoatingProperties.t;
    annealing : Annealing.t
  }.
End peroTF_DipCoating.

Module ALDMaterial.
Record t : Type := {
    material : PubChem;
    pulse_duration : value;
    manifold_temperature : value;
    bottle_temperature : value
  }.
End ALDMaterial.

Module ALDPropertiesIris.
Record t : Type := {
    source : value;
    thickness : value;
    temperature : value;
    rate : value;
    time : value;
    number_of_cycles : value;
    material : ALDMaterial.t;
    oxidizer_reducer : ALDMaterial.t
  }.
End ALDPropertiesIris.

Module peroTF_ALD.
Record t : Type := {
    name : string;
    location : value;
    positon_in_experimental_plan : nat;
    description : value;
    samples : list CompositeSystemReference.t;
    layer : list LayerProperties.t;
    properties : ALDPropertiesIris.t
  }.
End peroTF_ALD.

Module peroTF_Process.
Record t : Type := {
    name : value;
    positon_in_experimental_plan : nat;
    description : value;
    samples : list CompositeSystemReference.t
  }.
End peroTF_Process.

Module peroTF_Sample.
Record t : Type := {
    name : value;
    lab_id : value;
    substrate : string;
    description : value
  }.
End peroTF_Sample.

Module peroTF_Batch.
Record t : Type := {
    name : string;
    lab_id : string;
    entities : list CompositeSystemReference.t
  }.
End peroTF_Batch.

(** Any record the parser hands to [create_archive]. *)
Inductive entry : Type :=
| EBatch (a : peroTF_Batch.t)
| ESample (a : peroTF_Sample.t)
| ESubstrate (a : peroTF_Substrate.t)
| ECleaning (a : peroTF_Cleaning.t)
| EGeneric (a : peroTF_Process.t)
| EEvaporation (a : peroTF_Evaporation.t)
| ESpinCoating (a : peroTF_SpinCoating.t)
| EInkjetPrinting (a : peroTF_InkjetPrinting.t)
| EDipCoating (a : peroTF_DipCoating.t)
| ESputtering (a : peroTF_Sputtering.t)
| EALD (a : peroTF_ALD.t).

(** ** The mapping functions *)

Section Mappers.
Context {RT : Runtime}.

(** [PubChemPureSubstanceSectionCustom(name=n, load_data=False)] *)
Definition pubchem (n : value) : PubChem :=
  {| PubChemPureSubstanceSectionCustom.name := n;
     PubChemPureSubstanceSectionCustom.load_data := false |}.

(** The comprehension every process mapper has:
    [[CompositeSystemReference(reference=get_reference(upload_id,
       f'{lab_id}.archive.json'), lab_id=lab_id) for lab_id in lab_ids]] *)
Definition sample_refs (upload_id : string) (lab_ids : list value)
    : list CompositeSystemReference.t :=
  map (fun lab_id =>
         {| CompositeSystemReference.reference :=
              get_reference upload_id (py_str lab_id +++ ".archive.json");
            CompositeSystemReference.lab_id := lab_id |})
      lab_ids.

Definition map_basic_sample (data : Series) (substrate_name upload_id : string)
    : result (value * entry) :=
  name <- series_getitem data "Nomad ID" ;;
  lab_id <- series_getitem data "Nomad ID" ;;
  let substrate := get_reference upload_id substrate_name in
  description <- get_value data "Variation" VNone false ;;
  let archive :=
    {| peroTF_Sample.name := name;
       peroTF_Sample.lab_id := lab_id;
       peroTF_Sample.substrate := substrate;
       peroTF_Sample.description := description |} in
  key <- series_getitem data "Nomad ID" ;;
  Ok (key, ESample archive).

Definition map_batch (batch_ids : list value) (batch_id upload_id : string)
    : string * entry :=
  let archive :=
    {| peroTF_Batch.name := batch_id;
       peroTF_Batch.lab_id := batch_id;
       peroTF_Batch.entities := sample_refs upload_id batch_ids |} in
  (batch_id, EBatch archive).

(** [' '.join(col.split(' ')[:2])] *)
Definition two_words (col : string) : string :=
  join " " (firstn 2 (str_split " "%char col)).

(** The names gathered by the first loop of [map_solutions]. *)
Definition columns_starting (word : string) (data : Series) : list string :=
  map two_words (filter (fun col => startswith (lower col) word) (s_index data)).

(** [not get_value(data, k1, None, False) and not get_value(data, k2, None)],
    negated: whether the loop body goes on to append. *)
Definition has_name_or_number (data : Series) (k1 k2 : string) : result bool :=
  n <- get_value data k1 VNone false ;;
  if truthy n then Ok true
  else v <- get_value data k2 VNone true ;; Ok (truthy v).

Definition map_solutions (data : Series) : result Solution.t :=
  let solvents := columns_starting "solvent" data in
  let solutes := columns_starting "solute" data in
  final_solvents <-
    filter_mapM
      (fun solvent =>
         has_name_or_number data (solvent +++ " name") (solvent +++ " volume [uL]"))
      (fun solvent =>
         n <- get_value data (solvent +++ " name") VNone false ;;
         v <- get_value data (solvent +++ " volume [uL]") VNone true ;;
         Ok {| SolutionChemical.chemical_2 := pubchem n;
               SolutionChemical.chemical_volume := convert_quantity v milli;
               SolutionChemical.concentration_mol := VNone |})
      (sorted_set solvents) ;;
  final_solutes <-
    filter_mapM
      (fun solute =>
         has_name_or_number data (solute +++ " type")
           (solute +++ " Concentration [mM]"))
      (fun solute =>
         n <- get_value data (solute +++ " type") VNone false ;;
         v <- get_value data (solute +++ " Concentration [mM]") VNone true ;;
         Ok {| SolutionChemical.chemical_2 := pubchem n;
               SolutionChemical.chemical_volume := VNone;
               SolutionChemical.concentration_mol := convert_quantity v milli |})
      (sorted_set solutes) ;;
  Ok {| Solution.solvent := final_solvents; Solution.solute := final_solutes |}.

(** [[LayerProperties(layer_type=..., layer_material_name=...)]] *)
Definition map_layer (data : Series) : result (list LayerProperties.t) :=
  t <- get_value data "Layer type" VNone false ;;
  m <- get_value data "Material name" VNone false ;;
  Ok [ {| LayerProperties.layer_type := t;
          LayerProperties.layer_material_name := m |} ].

(** [[PrecursorSolution(solution_details=map_solutions(data),
       solution_volume=convert_quantity(get_value(data, 'Solution volume [um]',
       None), 1 / 1000))]] *)
Definition map_precursor (data : Series) : result (list PrecursorSolution.t) :=
  d <- map_solutions data ;;
  v <- get_value data "Solution volume [um]" VNone true ;;
  Ok [ {| PrecursorSolution.solution_details := d;
          PrecursorSolution.solution_volume := convert_quantity v milli |} ].

(** [Annealing(temperature=..., time=convert_quantity(..., 60), atmosphere=...)] *)
Definition map_annealing (data : Series) : result Annealing.t :=
  temp <- get_value data "Annealing temperature [°C]" VNone true ;;
  t <- get_value data "Annealing time [min]" VNone true ;;
  atm <- get_value data "Annealing athmosphere" VNone false ;;
  Ok {| Annealing.temperature := temp;
        Annealing.time := convert_quantity t f60;
        Annealing.atmosphere := atm |}.

(** The suffixes [['', '1 ', '2 ', '3 ', '4 ']] of the recipe step columns. *)
Definition recipe_suffixes : list string := [""; "1 "; "2 "; "3 "; "4 "].

Definition rotation_time_key (step : string) : string :=
  "Rotation time " +++ step +++ "[s]".

Definition map_recipe_steps (data : Series) : result (list SpinCoatingRecipeSteps.t) :=
  filter_mapM
    (fun step =>
       v <- get_value data (rotation_time_key step) VNone true ;; Ok (truthy v))
    (fun step =>
       sp <- get_value data ("Rotation speed " +++ step +++ "[rpm]") VNone true ;;
       t <- get_value data (rotation_time_key step) VNone true ;;
       acc <- get_value data ("Acceleration " +++ step +++ "[rpm/s]") VNone true ;;
       Ok {| SpinCoatingRecipeSteps.speed := sp;
             SpinCoatingRecipeSteps.time := t;
             SpinCoatingRecipeSteps.acceleration := acc |})
    recipe_suffixes.

(** The three [if] statements that follow the constructor call in
    [map_spin_coating], one function each. *)
Definition attach_anti_solvent (data : Series) (archive : peroTF_SpinCoating.t)
    : result peroTF_SpinCoating.t :=
  c <- get_value data "Anti solvent name" VNone false ;;
  if truthy c then
    vol <- get_value data "Anti solvent volume [ml]" VNone true ;;
    t <- get_value data "Anti solvent dropping time [s]" VNone true ;;
    h <- get_value data "Anti solvent dropping heigt [mm]" VNone true ;;
    r <- get_value data "Anti solvent dropping speed [ul/s]" VNone true ;;
    n <- get_value data "Anti solvent name" VNone false ;;
    Ok (peroTF_SpinCoating.set_quenching archive
          (QAntiSolvent
             {| AntiSolventQuenching.anti_solvent_volume := vol;
                AntiSolventQuenching.anti_solvent_dropping_time := t;
                AntiSolventQuenching.anti_solvent_dropping_height := h;
                AntiSolventQuenching.anti_solvent_dropping_flow_rate := r;
                AntiSolventQuenching.anti_solvent_2 := pubchem n |}))
  else Ok archive.

Definition attach_vacuum (data : Series) (archive : peroTF_SpinCoating.t)
    : result peroTF_SpinCoating.t :=
  c <- get_value data "Vacuum quenching duration [s]" VNone false ;;
  if truthy c then
    st <- get_value data "Vacuum quenching start time [s]" VNone true ;;
    d <- get_value data "Vacuum quenching duration [s]" VNone true ;;
    p <- get_value data "Vacuum quenching pressure [bar]" VNone true ;;
    Ok (peroTF_SpinCoating.set_quenching archive
          (QVacuum
             {| VacuumQuenching.start_time := st;
                VacuumQuenching.duration := d;
                VacuumQuenching.pressure := p |}))
  else Ok archive.

Definition attach_gas (data : Series) (archive : peroTF_SpinCoating.t)
    : result peroTF_SpinCoating.t :=
  c <- get_value data "Gas" VNone false ;;
  if truthy c then
    sd <- get_value data "Gas quenching start time [s]" VNone true ;;
    fr <- get_value data "Gas quenching flow rate [ml/s]" VNone true ;;
    h <- get_value data "Gas quenching height [mm]" VNone true ;;
    d <- get_value data "Gas quenching duration [s]" VNone true ;;
    p <- get_value data "Gas quenching pressure [bar]" VNone true ;;
    v <- get_value data "Gas quenching velocity [m/s]" VNone true ;;
    sh <- get_value data "Nozzle shape" VNone false ;;
    sz <- get_value data "Nozzle size [mm²]" VNone false ;;
    g <- get_value data "Gas" VNone false ;;
    Ok (peroTF_SpinCoating.set_quenching archive
          (QGas
             {| GasQuenchingWithNozzle.starting_delay := sd;
                GasQuenchingWithNozzle.flow_rate := fr;
                GasQuenchingWithNozzle.height := h;
                GasQuenchingWithNozzle.duration := d;
                GasQuenchingWithNozzle.pressure := p;
                GasQuenchingWithNozzle.velocity := v;
                GasQuenchingWithNozzle.nozzle_shape := sh;
                GasQuenchingWithNozzle.nozzle_size := sz;
                GasQuenchingWithNozzle.gas := g |}))
  else Ok archive.

(** The constructor call of [map_spin_coating]: the record before the three
    [if] statements, with no quenching yet. *)
Definition new_spin_coating (i : nat) (lab_ids : list value) (data : Series)
    (upload_id : string) : result peroTF_SpinCoating.t :=
  m <- get_value data "Material name" (VStr "") false ;;
  name <- str_add "spin coating " m ;;
  location <- get_value data "Tool/GB name" (VStr "") false ;;
  description <- get_value data "Notes" (VStr "") false ;;
  let samples := sample_refs upload_id lab_ids in
  layer <- map_layer data ;;
  solution <- map_precursor data ;;
  annealing <- map_annealing data ;;
  recipe_steps <- map_recipe_steps data ;;
  Ok {| peroTF_SpinCoating.name := name;
        peroTF_SpinCoating.location := location;
        peroTF_SpinCoating.positon_in_experimental_plan := i;
        peroTF_SpinCoating.description := description;
        peroTF_SpinCoating.samples := samples;
        peroTF_SpinCoating.layer := layer;
        peroTF_SpinCoating.solution := solution;
        peroTF_SpinCoating.annealing := annealing;
        peroTF_SpinCoating.recipe_steps := recipe_steps;
        peroTF_SpinCoating.quenching := None |}.

(** [f'{i}_{j}_<kind>'] *)
Definition process_key (i j : nat) (kind : string) : string :=
  str_of_nat i +++ "_" +++ str_of_nat j +++ "_" +++ kind.

Definition map_spin_coating (i j : nat) (lab_ids : list value) (data : Series)
    (upload_id : string) : result (string * peroTF_SpinCoating.t) :=
  archive <- new_spin_coating i lab_ids data upload_id ;;
  archive <- attach_anti_solvent data archive ;;
  archive <- attach_vacuum data archive ;;
  archive <- attach_gas data archive ;;
  material <- get_value data "Material name" (VStr "") false ;;
  Ok (process_key i j "spin_coating_" +++ py_str material, archive).

Definition map_inkjet_printing (i j : nat) (lab_ids : list value) (data : Series)
    (upload_id : string) : result (string * peroTF_InkjetPrinting.t) :=
  m <- get_value data "Material name" (VStr "") false ;;
  name <- str_add "inkjet printing " m ;;
  location <- get_value data "Tool/GB name" (VStr "") false ;;
  description <- get_value data "Notes" VNone false ;;
  let samples := sample_refs upload_id lab_ids in
  solution <- map_precursor data ;;
  layer <- map_layer data ;;
  nozzles <- get_value data "Number of active nozzles" VNone true ;;
  freq <- get_value data "Droplet per second [1/s]" VNone true ;;
  vol <- get_value data "Droplet volume [pl]" VNone true ;;
  ntemp <- get_value data "Nozzle temperature [°C]" VNone true ;;
  head <- get_value data "Printhead name" VNone false ;;
  cart <- get_value data "Ink reservoir pressure [bar]" VNone true ;;
  ttemp <- get_value data "Table temperature [°C]" VNone true ;;
  dens <- get_value data "Droplet density [dpi]" VNone true ;;
  area <- get_value data "Printed area [mm²]" VNone true ;;
  qf <- get_value data "Quality factor" VNone false ;;
  hum <- get_value data "rel. humidity [%]" VNone true ;;
  annealing <- map_annealing data ;;
  let archive :=
    {| peroTF_InkjetPrinting.name := name;
       peroTF_InkjetPrinting.location := location;
       peroTF_InkjetPrinting.positon_in_experimental_plan := i;
       peroTF_InkjetPrinting.description := description;
       peroTF_InkjetPrinting.samples := samples;
       peroTF_InkjetPrinting.solution := solution;
       peroTF_InkjetPrinting.layer := layer;
       peroTF_InkjetPrinting.properties :=
         {| InkjetPrintingProperties.print_head_properties :=
              {| PrintHeadProperties.number_of_active_print_nozzles := nozzles;
                 PrintHeadProperties.print_nozzle_drop_frequency := freq;
                 PrintHeadProperties.print_nozzle_drop_volume := vol;
                 PrintHeadProperties.print_head_temperature := ntemp;
                 PrintHeadProperties.print_head_name := head |};
            InkjetPrintingProperties.cartridge_pressure := cart;
            InkjetPrintingProperties.substrate_temperature := ttemp;
            InkjetPrintingProperties.drop_density := dens;
            InkjetPrintingProperties.printed_area := area |};
       peroTF_InkjetPrinting.print_head_path :=
         {| PrintHeadPath.quality_factor := qf |};
       peroTF_InkjetPrinting.atmosphere :=
         {| Atmosphere.relative_humidity := hum |};
       peroTF_InkjetPrinting.annealing := annealing |} in
  material <- get_value data "Material name" (VStr "") false ;;
  Ok (process_key i j "inkjet_printing_" +++ py_str material, archive).

(** [range(10)] *)
Definition range10 : list nat := seq 0 10.

Definition map_cleaning (i j : nat) (lab_ids : list value) (data : Series)
    (upload_id : string) : result (string * peroTF_Cleaning.t) :=
  location <- get_value data "Tool/GB name" (VStr "") false ;;
  description <- get_value data "Notes" (VStr "") false ;;
  let samples := sample_refs upload_id lab_ids in
  cleaning <-
    filter_mapM
      (fun k =>
         v <- get_value data ("Solvent " +++ str_of_nat k) VNone false ;;
         Ok (truthy v))
      (fun k =>
         t <- get_value data ("Time " +++ str_of_nat k +++ " [s]") VNone true ;;
         temp <- get_value data ("Temperature " +++ str_of_nat k +++ " [°C]")
                   VNone true ;;
         n <- get_value data ("Solvent " +++ str_of_nat k) VNone false ;;
         Ok {| SolutionCleaning.time := t;
               SolutionCleaning.temperature := temp;
               SolutionCleaning.solvent_2 := pubchem n |})
      range10 ;;
  uv <- get_value data "UV-Ozone Time [s]" VNone true ;;
  ptime <- get_value data "Gas-Plasma Time [s]" VNone true ;;
  ppower <- get_value data "Gas-Plasma Power [W]" VNone true ;;
  pgas <- get_value data "Gas-Plasma Gas" VNone false ;;
  let archive :=
    {| peroTF_Cleaning.name := "Cleaning";
       peroTF_Cleaning.positon_in_experimental_plan := i;
       peroTF_Cleaning.location := location;
       peroTF_Cleaning.description := description;
       peroTF_Cleaning.samples := samples;
       peroTF_Cleaning.cleaning := cleaning;
       peroTF_Cleaning.cleaning_uv := [ {| UVCleaning.time := uv |} ];
       peroTF_Cleaning.cleaning_plasma :=
         [ {| PlasmaCleaning.time := ptime;
              PlasmaCleaning.power := ppower;
              PlasmaCleaning.plasma_type := pgas |} ] |} in
  Ok (process_key i j "cleaning", archive).

Definition map_substrate (data : Series) : result peroTF_Substrate.t :=
  dim <- get_value data "Sample dimension" (VStr "") false ;;
  n1 <- str_add "Substrate " dim ;;
  mat <- get_value data "Substrate material" (VStr "") false ;;
  n2 <- str_add (n1 +++ " ") mat ;;
  lay <- get_value data "Substrate conductive layer" (VStr "") false ;;
  name <- str_add (n2 +++ " ") lay ;;
  area <- get_value data "Sample area [cm^2]" (VStr "") true ;;
  substrate <- get_value data "Substrate material" (VStr "") false ;;
  cond <- get_value data "Substrate conductive layer" (VStr "") false ;;
  Ok {| peroTF_Substrate.name := name;
        peroTF_Substrate.solar_cell_area := area;
        peroTF_Substrate.substrate := substrate;
        peroTF_Substrate.conducting_material := [cond] |}.

(** [get_value(data, 'Organic', '', False).lower().startswith(a) or
     get_value(data, 'Organic', '', False).lower().startswith(b)] *)
Definition organic_starts (data : Series) (a b : string) : result bool :=
  o <- get_value data "Organic" (VStr "") false ;;
  x <- lower_startswith o a ;;
  if x then Ok true
  else o' <- get_value data "Organic" (VStr "") false ;; lower_startswith o' b.

(** [evaporation.thickness = t], [evaporation.start_rate = r] and
    [evaporation.chemical_2 = c]; on [None] each is an AttributeError. *)
Definition set_thickness (ev : option evaporation_section) (t : value)
    : result (option evaporation_section) :=
  match ev with
  | None => Raise AttributeError
  | Some (EInorganic e) =>
      Ok (Some (EInorganic
        {| InorganicEvaporation.thickness := t;
           InorganicEvaporation.start_rate := InorganicEvaporation.start_rate e;
           InorganicEvaporation.chemical_2 := InorganicEvaporation.chemical_2 e |}))
  | Some (EOrganic e) =>
      Ok (Some (EOrganic
        {| OrganicEvaporation.temparature := OrganicEvaporation.temparature e;
           OrganicEvaporation.thickness := t;
           OrganicEvaporation.start_rate := OrganicEvaporation.start_rate e;
           OrganicEvaporation.chemical_2 := OrganicEvaporation.chemical_2 e |}))
  end.

Definition set_start_rate (ev : option evaporation_section) (r : value)
    : result (option evaporation_section) :=
  match ev with
  | None => Raise AttributeError
  | Some (EInorganic e) =>
      Ok (Some (EInorganic
        {| InorganicEvaporation.thickness := InorganicEvaporation.thickness e;
           InorganicEvaporation.start_rate := r;
           InorganicEvaporation.chemical_2 := InorganicEvaporation.chemical_2 e |}))
  | Some (EOrganic e) =>
      Ok (Some (EOrganic
        {| OrganicEvaporation.temparature := OrganicEvaporation.temparature e;
           OrganicEvaporation.thickness := OrganicEvaporation.thickness e;
           OrganicEvaporation.start_rate := r;
           OrganicEvaporation.chemical_2 := OrganicEvaporation.chemical_2 e |}))
  end.

Definition set_chemical_2 (ev : option evaporation_section) (c : PubChem)
    : result (option evaporation_section) :=
  match ev with
  | None => Raise AttributeError
  | Some (EInorganic e) =>
      Ok (Some (EInorganic
        {| InorganicEvaporation.thickness := InorganicEvaporation.thickness e;
           InorganicEvaporation.start_rate := InorganicEvaporation.start_rate e;
           InorganicEvaporation.chemical_2 := Some c |}))
  | Some (EOrganic e) =>
      Ok (Some (EOrganic
        {| OrganicEvaporation.temparature := OrganicEvaporation.temparature e;
           OrganicEvaporation.thickness := OrganicEvaporation.thickness e;
           OrganicEvaporation.start_rate := OrganicEvaporation.start_rate e;
           OrganicEvaporation.chemical_2 := Some c |}))
  end.

(** [InorganicEvaporation()] *)
Definition new_inorganic : evaporation_section :=
  EInorganic {| InorganicEvaporation.thickness := VNone;
                InorganicEvaporation.start_rate := VNone;
                InorganicEvaporation.chemical_2 := None |}.

(** The two lists of the archive at the end of [map_evaporation]. Each was
    first assigned [[evaporation]] where the object was created ([inorg],
    [org]), so it shows the attributes set afterwards, unless [evaporation]
    was rebound in between; the last two [if] statements ([inorg'], [org'])
    assign [[evaporation]] again. *)
Definition inorganic_list (inorg org inorg' : bool) (ev : option evaporation_section)
    : list evaporation_section :=
  match ev with
  | None => []
  | Some e =>
      if inorg' then [e]
      else if inorg then (if org then [new_inorganic] else [e])
      else []
  end.

Definition organic_list (org org' : bool) (ev : option evaporation_section)
    : list evaporation_section :=
  match ev with
  | None => []
  | Some e => if org' || org then [e] else []
  end.

Definition map_evaporation (i j : nat) (lab_ids : list value) (data : Series)
    (upload_id : string) : result (string * peroTF_Evaporation.t) :=
  m <- get_value data "Material name" (VStr "") false ;;
  name <- str_add "evaporation " m ;;
  location <- get_value data "Tool/GB name" (VStr "") false ;;
  description <- get_value data "Notes" (VStr "") false ;;
  let samples := sample_refs upload_id lab_ids in
  layer <- map_layer data ;;
  let evaporation : option evaporation_section := None in
  inorg <- organic_starts data "n" "0" ;;
  let evaporation := if inorg then Some new_inorganic else evaporation in
  org <- organic_starts data "y" "1" ;;
  evaporation <-
    (if org then
       c <- get_value data "Temperature [°C]" VNone true ;;
       temp <- (if truthy c then
                  t <- get_value data "Temperature [°C]" VNone true ;;
                  Ok (Some [t; t])
                else Ok None) ;;
       Ok (Some (EOrganic {| OrganicEvaporation.temparature := temp;
                             OrganicEvaporation.thickness := VNone;
                             OrganicEvaporation.start_rate := VNone;
                             OrganicEvaporation.chemical_2 := None |}))
     else Ok evaporation) ;;
  thickness <- get_value data "Thickness [nm]" VNone true ;;
  evaporation <- set_thickness evaporation thickness ;;
  rate <- get_value data "Rate [angstrom/s]" VNone true ;;
  evaporation <- set_start_rate evaporation rate ;;
  chem <- get_value data "Material name" VNone false ;;
  evaporation <- set_chemical_2 evaporation (pubchem chem) ;;
  inorg' <- organic_starts data "n" "0" ;;
  org' <- organic_starts data "y" "1" ;;
  let archive :=
    {| peroTF_Evaporation.name := name;
       peroTF_Evaporation.location := location;
       peroTF_Evaporation.positon_in_experimental_plan := i;
       peroTF_Evaporation.description := description;
       peroTF_Evaporation.samples := samples;
       peroTF_Evaporation.layer := layer;
       peroTF_Evaporation.inorganic_evaporation :=
         inorganic_list inorg org inorg' evaporation;
       peroTF_Evaporation.organic_evaporation := organic_list org org' evaporation |} in
  material <- get_value data "Material name" (VStr "") false ;;
  Ok (process_key i j "evaporation_" +++ py_str material, archive).

Definition map_sputtering (i j : nat) (lab_ids : list value) (data : Series)
    (upload_id : string) : result (string * peroTF_Sputtering.t) :=
  m <- get_value data "Material name" (VStr "") false ;;
  name <- str_add "sputtering " m ;;
  location <- get_value data "Tool/GB name" (VStr "") false ;;
  description <- get_value data "Notes" (VStr "") false ;;
  let samples := sample_refs upload_id lab_ids in
  layer <- map_layer data ;;
  thickness <- get_value data "Thickness [nm]" VNone true ;;
  flow <- get_value data "Gas flow rate [cm^3/min]" VNone true ;;
  rot <- get_value data "Rotation rate [rpm]" VNone true ;;
  power <- get_value data "Power [W]" VNone true ;;
  temp <- get_value data "Temperature [°C]" VNone true ;;
  dep <- get_value data "Deposition time [s]" VNone true ;;
  burn <- get_value data "Burn in time [s]" VNone true ;;
  pres <- get_value data "Pressure [mbar]" VNone true ;;
  target <- get_value data "Material name" VNone false ;;
  gas <- get_value data "Gas" VNone false ;;
  let process :=
    {| SputteringProcess.thickness := thickness;
       SputteringProcess.gas_flow_rate := flow;
       SputteringProcess.rotation_rate := rot;
       SputteringProcess.power := power;
       SputteringProcess.temperature := temp;
       SputteringProcess.deposition_time := dep;
       SputteringProcess.burn_in_time := burn;
       SputteringProcess.pressure := pres;
       SputteringProcess.target_2 := pubchem target;
       SputteringProcess.gas_2 := pubchem gas |} in
  let archive :=
    {| peroTF_Sputtering.name := name;
       peroTF_Sputtering.positon_in_experimental_plan := i;
       peroTF_Sputtering.location := location;
       peroTF_Sputtering.description := description;
       peroTF_Sputtering.samples := samples;
       peroTF_Sputtering.layer := layer;
       peroTF_Sputtering.processes := [process] |} in
  material <- get_value data "Material name" (VStr "") false ;;
  Ok (process_key i j "sputtering_" +++ py_str material, archive).

(** [1 / 60] *)
Definition per_sixty : float := (1 / f60)%float.

Definition map_dip_coating (i j : nat) (lab_ids : list value) (data : Series)
    (upload_id : string) : result (string * peroTF_DipCoating.t) :=
  m <- get_value data "Material name" (VStr "") false ;;
  name <- str_add "dip coating " m ;;
  location <- get_value data "Tool/GB name" (VStr "") false ;;
  description <- get_value data "Notes" VNone false ;;
  let samples := sample_refs upload_id lab_ids in
  solution <- map_precursor data ;;
  layer <- map_layer data ;;
  dip <- get_value data "Dipping duration [s]" VNone true ;;
  annealing <- map_annealing data ;;
  let archive :=
    {| peroTF_DipCoating.name := name;
       peroTF_DipCoating.location := location;
       peroTF_DipCoating.positon_in_experimental_plan := i;
       peroTF_DipCoating.description := description;
       peroTF_DipCoating.samples := samples;
       peroTF_DipCoating.solution := solution;
       peroTF_DipCoating.layer := layer;
       peroTF_DipCoating.properties :=
         {| DipCoatingProperties.time := convert_quantity dip per_sixty |};
       peroTF_DipCoating.annealing := annealing |} in
  material <- get_value data "Material name" (VStr "") false ;;
  Ok (process_key i j "dip_coating_" +++ py_str material, archive).

Definition map_atomic_layer_deposition (i j : nat) (lab_ids : list value)
    (data : Series) (upload_id : string) : result (string * peroTF_ALD.t) :=
  m <- get_value data "Material name" (VStr "") false ;;
  name <- str_add "atomic layer deposition " m ;;
  location <- get_value data "Tool/GB name" (VStr "") false ;;
  description <- get_value data "Notes" (VStr "") false ;;
  let samples := sample_refs upload_id lab_ids in
  layer <- map_layer data ;;
  source <- get_value data "Source" VNone false ;;
  thickness <- get_value data "Thickness [nm]" VNone true ;;
  temp <- get_value data "Temperature [°C]" VNone true ;;
  rate <- get_value data "Rate [A/s]" VNone true ;;
  time <- get_value data "Time [s]" VNone true ;;
  cycles <- get_value data "Number of cycles" VNone true ;;
  p1 <- get_value data "Precursor 1" VNone false ;;
  pulse1 <- get_value data "Pulse duration 1 [s]" VNone true ;;
  man1 <- get_value data "Manifold temperature 1 [°C]" VNone true ;;
  bottle1 <- get_value data "Bottle temperature 1 [°C]" VNone true ;;
  p2 <- get_value data "Precursor 2 (Oxidizer/Reducer)" VNone false ;;
  pulse2 <- get_value data "Pulse duration 2 [s]" VNone true ;;
  man2 <- get_value data "Manifold temperature 2 [°C]" VNone true ;;
  let archive :=
    {| peroTF_ALD.name := name;
       peroTF_ALD.location := location;
       peroTF_ALD.positon_in_experimental_plan := i;
       peroTF_ALD.description := description;
       peroTF_ALD.samples := samples;
       peroTF_ALD.layer := layer;
       peroTF_ALD.properties :=
         {| ALDPropertiesIris.source := source;
            ALDPropertiesIris.thickness := thickness;
            ALDPropertiesIris.temperature := temp;
            ALDPropertiesIris.rate := rate;
            ALDPropertiesIris.time := time;
            ALDPropertiesIris.number_of_cycles := cycles;
            ALDPropertiesIris.material :=
              {| ALDMaterial.material := pubchem p1;
                 ALDMaterial.pulse_duration := pulse1;
                 ALDMaterial.manifold_temperature := man1;
                 ALDMaterial.bottle_temperature := bottle1 |};
            ALDPropertiesIris.oxidizer_reducer :=
              {| ALDMaterial.material := pubchem p2;
                 ALDMaterial.pulse_duration := pulse2;
                 ALDMaterial.manifold_temperature := man2;
                 ALDMaterial.bottle_temperature := VNone |} |} |} in
  material <- get_value data "Material name" (VStr "") false ;;
  Ok (process_key i j "ALD_" +++ py_str material, archive).

Definition map_generic (i j : nat) (lab_ids : list value) (data : Series)
    (upload_id : string) : result (string * peroTF_Process.t) :=
  name <- get_value data "Name" (VStr "") false ;;
  description <- get_value data "Notes" (VStr "") false ;;
  let archive :=
    {| peroTF_Process.name := name;
       peroTF_Process.positon_in_experimental_plan := i;
       peroTF_Process.description := description;
       peroTF_Process.samples := sample_refs upload_id lab_ids |} in
  Ok (process_key i j "generic_process", archive).

End Mappers.

(** ** Tables *)

(** *** Equality of cells

    pandas compares cells with [==] and lets a missing value match a missing
    value, both in [drop_duplicates] and in [Series.equals]. [value_key] sends
    a cell to a canonical key such that two cells match exactly when their
    keys are equal: numbers by their exact numeric value (so [1 == 1.0] and
    [0.0 == -0.0]), text by its characters. *)

Inductive key : Type :=
| KNa
| KZero
| KInf (neg : bool)
| KNum (neg : bool) (m : positive) (e : Z)
| KStr (s : string).

(** [m * 2^e] with the factors of two of [m] moved into the exponent. *)
Fixpoint odd_part (m : positive) (e : Z) : positive * Z :=
  match m with
  | xO p => odd_part p (e + 1)
  | _ => (m, e)
  end.

Definition num_key (neg : bool) (m : positive) (e : Z) : key :=
  let '(m', e') := odd_part m e in KNum neg m' e'.

Definition value_key (v : value) : key :=
  match v with
  | VNone => KNa
  | VInt Z0 => KZero
  | VInt (Zpos p) => num_key false p 0
  | VInt (Zneg p) => num_key true p 0
  | VFloat f =>
      match Prim2SF f with
      | S754_nan => KNa
      | S754_zero _ => KZero
      | S754_infinity s => KInf s
      | S754_finite s m e => num_key s m e
      end
  | VStr s => KStr s
  end.

Definition key_eqb (a b : key) : bool :=
  match a, b with
  | KNa, KNa => true
  | KZero, KZero => true
  | KInf s, KInf t => Bool.eqb s t
  | KNum s m e, KNum t n f => Bool.eqb s t && Pos.eqb m n && Z.eqb e f
  | KStr s, KStr t => String.eqb s t
  | _, _ => false
  end.

Definition value_eqb (a b : value) : bool := key_eqb (value_key a) (value_key b).

(** Two rows of cells match when they have the same length and match cell by cell. *)
Fixpoint values_eqb (a b : list value) : bool :=
  match a, b with
  | [], [] => true
  | x :: a', y :: b' => value_eqb x y && values_eqb a' b'
  | _, _ => false
  end.

Fixpoint index_eqb (a b : list string) : bool :=
  match a, b with
  | [], [] => true
  | x :: a', y :: b' => String.eqb x y && index_eqb a' b'
  | _, _ => false
  end.

(** [a.equals(b)]: same index, same dtype, matching values. *)
Definition equals (a b : Series) : bool :=
  index_eqb (s_index a) (s_index b)
  && dtype_eqb (s_dtype a) (s_dtype b)
  && values_eqb (s_values a) (s_values b).

(** [s.astype('object')] *)
Definition astype_object (s : Series) : Series :=
  {| s_dtype := object; s_index := s_index s; s_values := s_values s |}.

(** [pd.isna(s).all()] *)
Definition isna_all (s : Series) : bool := forallb isna (s_values s).

(** *** Frames

    A frame has named, typed columns and rows that carry their index label
    (the row number of the sheet: pandas keeps it through column selection
    and [drop_duplicates]). [K] is the type of column names: a pair for the
    two header levels of the sheet, a [string] once one top-level group is
    selected. An int64 column holds [VInt] cells and a float64 column [VFloat]
    cells. *)

Record Frame (K : Type) : Type := {
  f_columns : list (K * dtype);
  f_rows : list (nat * list value)
}.
Arguments f_columns {K} f.
Arguments f_rows {K} f.

Definition DataFrame : Type := Frame (string * string).

(** The dtype of the array that holds several columns at once. *)
Definition common_dtype (ds : list dtype) : dtype :=
  if existsb (dtype_eqb object) ds then object
  else if existsb (dtype_eqb float64) ds then float64
  else match ds with [] => object | _ => int64 end.

(** A cell as it sits in an array of dtype [d]. *)
Definition cast (d : dtype) (v : value) : value :=
  match d, v with
  | float64, VInt z => VFloat (cast_float z)
  | _, _ => v
  end.

(** [frame.iterrows()]: each row as a Series of the common dtype. *)
Definition iterrows (f : Frame string) : list (nat * Series) :=
  let d := common_dtype (map snd (f_columns f)) in
  map (fun r => (fst r, {| s_dtype := d;
                            s_index := map fst (f_columns f);
                            s_values := map (cast d) (snd r) |}))
      (f_rows f).

(** [l[n]] for each position [n] of [ns]. *)
Definition pick {A : Type} (d : A) (ns : list nat) (l : list A) : list A :=
  map (fun n => nth n l d) ns.

(** The positions of the columns whose name satisfies [p]. *)
Fixpoint positions {K : Type} (p : K -> bool) (cols : list (K * dtype)) (n : nat)
    : list nat :=
  match cols with
  | [] => []
  | c :: cols' =>
      if p (fst c) then n :: positions p cols' (S n) else positions p cols' (S n)
  end.

Definition pair_column : (string * string) * dtype := (("", ""), object).

(** [df[col]] for a top-level name: the columns of that group under their
    second-level names; KeyError when there is none. *)
Definition getitem_level0 (df : DataFrame) (col : string) : result (Frame string) :=
  match positions (fun k => String.eqb (fst k) col) (f_columns df) 0 with
  | [] => Raise KeyError
  | ns =>
      Ok {| f_columns :=
              map (fun c => (snd (fst c), snd c)) (pick pair_column ns (f_columns df));
            f_rows := map (fun r => (fst r, pick VNone ns (snd r))) (f_rows df) |}
  end.

(** The position of the column called [name]. *)
Fixpoint column_position (cols : list (string * dtype)) (name : string) (n : nat)
    : option nat :=
  match cols with
  | [] => None
  | c :: cols' =>
      if String.eqb (fst c) name then Some n else column_position cols' name (S n)
  end.

Definition column_positions (cols : list (string * dtype)) (names : list string)
    : result (list nat) :=
  mapM (fun name => match column_position cols name 0 with
                    | Some n => Ok n
                    | None => Raise KeyError
                    end) names.

(** [frame[names]] for a list of column names. *)
Definition getitem_columns (f : Frame string) (names : list string)
    : result (Frame string) :=
  ns <- column_positions (f_columns f) names ;;
  Ok {| f_columns := pick ("", object) ns (f_columns f);
        f_rows := map (fun r => (fst r, pick VNone ns (snd r))) (f_rows f) |}.

(** [frame[name].to_list()] for one column name. *)
Definition getitem_column (f : Frame string) (name : string) : result (list value) :=
  match column_position (f_columns f) name 0 with
  | Some n => Ok (map (fun r => nth n (snd r) VNone) (f_rows f))
  | None => Raise KeyError
  end.

(** [column.dropna()] *)
Definition dropna (l : list value) : list value := filter (fun v => negb (isna v)) l.

(** [frame.drop_duplicates()]: a row stays unless an earlier row matches it. *)
Fixpoint drop_duplicates_rows (seen : list (list value)) (rows : list (nat * list value))
    : list (nat * list value) :=
  match rows with
  | [] => []
  | r :: rows' =>
      if existsb (values_eqb (snd r)) seen then drop_duplicates_rows seen rows'
      else r :: drop_duplicates_rows (snd r :: seen) rows'
  end.

Definition drop_duplicates {K : Type} (f : Frame K) : Frame K :=
  {| f_columns := f_columns f; f_rows := drop_duplicates_rows [] (f_rows f) |}.

(** [index.unique()]: the distinct names in the order of their first occurrence. *)
Fixpoint unique (l : list string) : list string :=
  match l with
  | [] => []
  | x :: l' => x :: filter (fun y => negb (String.eqb x y)) (unique l')
  end.

(** [df.columns.get_level_values(0).unique()] *)
Definition level0_names (df : DataFrame) : list string :=
  unique (map (fun c => fst (fst c)) (f_columns df)).

(** [enumerate(l)] *)
Definition enumerate {A : Type} (l : list A) : list (nat * A) :=
  combine (seq 0 (List.length l)) l.

(** [row[names]] for a list of column names. *)
Definition series_select (row : Series) (names : list string) : result Series :=
  vs <- mapM (series_getitem row) names ;;
  Ok {| s_dtype := s_dtype row; s_index := names; s_values := vs |}.

(** [df[[a, b]].iterrows()] for two top-level names: each row comes as one
    Series over both groups; it is returned here as its two parts [x[a]]
    and [x[b]], which share the dtype of the whole row. *)
Definition iterrows_pair (df : DataFrame) (a b : string)
    : result (list (nat * (Series * Series))) :=
  fa <- getitem_level0 df a ;;
  fb <- getitem_level0 df b ;;
  let d := common_dtype (map snd (f_columns fa) ++ map snd (f_columns fb)) in
  let part (f : Frame string) (r : nat * list value) :=
    {| s_dtype := d; s_index := map fst (f_columns f);
       s_values := map (cast d) (snd r) |} in
  Ok (map (fun rr => (fst (fst rr), (part fa (fst rr), part fb (snd rr))))
          (combine (f_rows fa) (f_rows fb))).

(** ** The parser *)

Section Parser.
Context {RT : Runtime}.

(** [is_mainfile]: [is_mainfile_super] is the outcome of the call of
    [MatchingParser.is_mainfile] and [read] the outcome of
    [pd.read_excel(filename, header=[0, 1])]. *)
Definition is_mainfile (is_mainfile_super : result bool) (read : result DataFrame)
    : result bool :=
  s <- is_mainfile_super ;;
  if negb s then Ok false
  else
    match (df <- read ;;
           info <- getitem_level0 df "Experiment Info" ;;
           ids <- getitem_column info "Nomad ID" ;;
           Ok (dropna ids)) with
    | Ok _ => Ok true
    | Raise _ => Ok false
    end.

(** [v.split('_')] *)
Definition py_split (v : value) : result (list string) :=
  match v with
  | VStr s => Ok (str_split "_"%char s)
  | _ => Raise AttributeError
  end.

(** [sample_ids[0]] *)
Definition first_item (sample_ids : list value) : result value :=
  match sample_ids with
  | [] => Raise IndexError
  | v :: _ => Ok v
  end.

(** ['_'.join(sample_ids[0].split('_')[:-1])] *)
Definition batch_id_of (sample_ids : list value) : result string :=
  v <- first_item sample_ids ;;
  parts <- py_split v ;;
  Ok (join "_" (removelast parts)).

Definition substrates_col : list string :=
  ["Sample dimension"; "Sample area [cm^2]"; "Substrate material";
   "Substrate conductive layer"].

(** The first loop of [parse]: the list [substrates]. *)
Definition build_substrates (info : Frame string)
    : result (list (string * Series * peroTF_Substrate.t)) :=
  sub_frame <- getitem_columns info substrates_col ;;
  filter_mapM
    (fun r => Ok (negb (isna_all (snd r))))
    (fun r =>
       a <- map_substrate (snd r) ;;
       Ok (str_of_nat (fst r) +++ "_substrate", snd r, a))
    (iterrows (drop_duplicates sub_frame)).

(** The local function [find_substrate]; [None] when the loop ends without
    a [return]. *)
Fixpoint find_substrate (substrates : list (string * Series * peroTF_Substrate.t))
    (d : Series) : option string :=
  match substrates with
  | [] => None
  | s :: rest =>
      if equals d (snd (fst s)) then Some (fst (fst s)) else find_substrate rest d
  end.

(** [find_substrate(d) + '.archive.json'] *)
Definition substrate_file (substrates : list (string * Series * peroTF_Substrate.t))
    (d : Series) : result string :=
  match find_substrate substrates d with
  | Some n => Ok (n +++ ".archive.json")
  | None => Raise TypeError
  end.

(** The second loop of [parse]: what it appends to [archives]. *)
Definition build_samples (info : Frame string)
    (substrates : list (string * Series * peroTF_Substrate.t)) (upload_id : string)
    : result (list (value * entry)) :=
  filter_mapM
    (fun r => Ok (negb (isna_all (snd r))))
    (fun r =>
       d <- series_select (snd r) substrates_col ;;
       substrate_name <- substrate_file substrates d ;;
       map_basic_sample (snd r) substrate_name upload_id)
    (iterrows info).

(** The comprehension that computes [lab_ids] for one row of [df_dropped]. *)
Definition lab_ids_of (df : DataFrame) (col : string) (row : Series)
    : result (list value) :=
  xs <- iterrows_pair df "Experiment Info" col ;;
  filter_mapM
    (fun x => Ok (equals (astype_object (snd (snd x))) (astype_object row)))
    (fun x => series_getitem (fst (snd x)) "Nomad ID")
    xs.

(** [pd.isna(row.get('Material name'))] *)
Definition material_missing (row : Series) : bool :=
  match series_get row "Material name" with
  | None => true
  | Some v => isna v
  end.

(** [if word in col: archives.append(f(i, j, lab_ids, row, upload_id))] *)
Definition append_if {A : Type} (word col : string) (wrap : A -> entry)
    (f : result (string * A)) (archives : list (value * entry))
    : result (list (value * entry)) :=
  if contains word col then
    a <- f ;; Ok (archives ++ [(VStr (fst a), wrap (snd a))])
  else Ok archives.

(** The body of the inner loop of [parse] after [lab_ids] is known. *)
Definition process_row (i : nat) (col : string) (j : nat) (lab_ids : list value)
    (row : Series) (upload_id : string) (archives : list (value * entry))
    : result (list (value * entry)) :=
  archives <- append_if "Cleaning" col ECleaning
                (map_cleaning i j lab_ids row upload_id) archives ;;
  archives <- append_if "Generic Process" col EGeneric
                (map_generic i j lab_ids row upload_id) archives ;;
  if material_missing row then Ok archives
  else
    archives <- append_if "Evaporation" col EEvaporation
                  (map_evaporation i j lab_ids row upload_id) archives ;;
    archives <- append_if "Spin Coating" col ESpinCoating
                  (map_spin_coating i j lab_ids row upload_id) archives ;;
    archives <- append_if "Inkjet Printing" col EInkjetPrinting
                  (map_inkjet_printing i j lab_ids row upload_id) archives ;;
    archives <- append_if "Dip Coating" col EDipCoating
                  (map_dip_coating i j lab_ids row upload_id) archives ;;
    archives <- append_if "Sputtering" col ESputtering
                  (map_sputtering i j lab_ids row upload_id) archives ;;
    append_if "ALD" col EALD
      (map_atomic_layer_deposition i j lab_ids row upload_id) archives.

(** A [for] loop whose body updates [archives] and may raise. *)
Fixpoint foldM {A S : Type} (body : A -> S -> result S) (l : list A) (s : S)
    : result S :=
  match l with
  | [] => Ok s
  | x :: l' => s' <- body x s ;; foldM body l' s'
  end.

(** The inner loop of [parse] for the column group [col] at position [i]. *)
Definition process_group (df : DataFrame) (upload_id : string) (i : nat)
    (col : string) (archives : list (value * entry))
    : result (list (value * entry)) :=
  group <- getitem_level0 df col ;;
  let df_dropped := drop_duplicates group in
  foldM
    (fun jr archives =>
       lab_ids <- lab_ids_of df col (snd jr) ;;
       process_row i col (fst jr) lab_ids (snd jr) upload_id archives)
    (iterrows df_dropped) archives.

(** The third loop of [parse]. *)
Definition build_processes (df : DataFrame) (upload_id : string)
    (archives : list (value * entry)) : result (list (value * entry)) :=
  foldM
    (fun ic archives =>
       if String.eqb (snd ic) "Experiment Info" then Ok archives
       else process_group df upload_id (fst ic) (snd ic) archives)
    (enumerate (level0_names df)) archives.

(** What [parse] leaves behind: the calls of [create_archive] in order, as
    (file name, record), and the list given to [RawHySprintExperiment]. *)
Record parsed : Type := {
  created : list (string * entry);
  processed_archive : list string
}.

(** [f'{name}.archive.json'] *)
Definition archive_file (name : value) : string := py_str name +++ ".archive.json".

(** [parse], from the table [df] that [pd.read_excel] returned. *)
Definition parse (upload_id : string) (df : DataFrame) : result parsed :=
  info <- getitem_level0 df "Experiment Info" ;;
  ids <- getitem_column info "Nomad ID" ;;
  let sample_ids := dropna ids in
  batch_id <- batch_id_of sample_ids ;;
  let b := map_batch sample_ids batch_id upload_id in
  let archives := [(VStr (fst b), snd b)] in
  substrates <- build_substrates info ;;
  samples <- build_samples info substrates upload_id ;;
  let archives := archives ++ samples in
  archives <- build_processes df upload_id archives ;;
  let files :=
    map (fun s => (archive_file (VStr (fst (fst s))), ESubstrate (snd s))) substrates
    ++ map (fun a => (archive_file (fst a), snd a)) archives in
  Ok {| created := files;
        processed_archive := map (fun f => get_reference upload_id (fst f)) files |}.

End Parser.

(** ** A runtime to run the model on examples

    Python's [float] and [repr] on ASCII text, computed with exact integer
    arithmetic, and a stand-in for the entry hash of NOMAD (the real one is
    a truncated SHA-512 digest). *)

Module Demo.

Definition is_digit (c : ascii) : bool :=
  let n := nat_of_ascii c in ((48 <=? n) && (n <=? 57))%nat.

Definition digit_val (c : ascii) : Z := Z.of_nat (nat_of_ascii c - 48).

(** Digits after a first digit, single underscores between digits allowed:
    the number read so far, how many digits, and the rest of the text. *)
Fixpoint digits_tail (s : string) (acc : Z) (cnt : nat) : Z * nat * string :=
  match s with
  | EmptyString => (acc, cnt, s)
  | String c s' =>
      if is_digit c then digits_tail s' (10 * acc + digit_val c)%Z (S cnt)
      else if Ascii.eqb c "_"%char then
        match s' with
        | String c2 s'' =>
            if is_digit c2 then digits_tail s'' (10 * acc + digit_val c2)%Z (S cnt)
            else (acc, cnt, s)
        | EmptyString => (acc, cnt, s)
        end
      else (acc, cnt, s)
  end.

Definition digits (s : string) (acc : Z) : option (Z * nat * string) :=
  match s with
  | String c s' =>
      if is_digit c then Some (digits_tail s' (10 * acc + digit_val c)%Z 1) else None
  | EmptyString => None
  end.

Definition take_sign (s : string) : bool * string :=
  match s with
  | String "-"%char s' => (true, s')
  | String "+"%char s' => (false, s')
  | _ => (false, s)
  end.

(** The exponent part: [e], an optional sign, digits; nothing may follow. *)
Definition exponent (s : string) : option Z :=
  match s with
  | EmptyString => Some 0%Z
  | String c s' =>
      if Ascii.eqb (lower_ascii c) "e"%char then
        let '(neg, s'') := take_sign s' in
        match digits s'' 0%Z with
        | Some (e, _, EmptyString) => Some (if neg then (- e)%Z else e)
        | _ => None
        end
      else None
  end.

(** A decimal literal as [m * 10^e]. *)
Definition decimal (s : string) : option (Z * Z) :=
  let '(m1, s1, has_int) :=
    match digits s 0%Z with
    | Some (m, _, r) => (m, r, true)
    | None => (0%Z, s, false)
    end in
  let '(m2, nfrac, s2, has_frac) :=
    match s1 with
    | String "."%char r =>
        match digits r m1 with
        | Some (m, n, r') => (m, n, r', true)
        | None => (m1, 0%nat, r, false)
        end
    | _ => (m1, 0%nat, s1, false)
    end in
  if has_int || has_frac then
    match exponent s2 with
    | Some e => Some (m2, (e - Z.of_nat nfrac)%Z)
    | None => None
    end
  else None.

(** The binary64 nearest to [m * 10^e] (ties to even), [m] positive. *)
Definition round_decimal (neg : bool) (m : positive) (e : Z) : float :=
  match e with
  | Zneg k =>
      SF2Prim (SFdiv prec emax (S754_finite neg m 0)
                 (S754_finite false (Pos.pow 10 k) 0))
  | _ => SF2Prim (binary_normalize prec emax
                    ((if neg then Zneg m else Zpos m) * 10 ^ e)%Z 0 false)
  end.

Definition float_of_decimal (neg : bool) (m e : Z) : float :=
  match m with
  | Zpos p => round_decimal neg p e
  | _ => if neg then neg_zero else zero
  end.

(** [float(s)] *)
Definition float_of_str (s : string) : option float :=
  let '(neg, body) := take_sign (strip s) in
  let word := lower body in
  if String.eqb word "inf" || String.eqb word "infinity" then
    Some (if neg then neg_infinity else infinity)
  else if String.eqb word "nan" then Some nan
  else
    match decimal body with
    | Some (m, e) => Some (float_of_decimal neg m e)
    | None => None
    end.

(** [floor(log10(m * 2^e)) + 1], searched upwards from a lower bound. *)
Fixpoint decpt_from (fuel : nat) (num den : Z) (k : Z) : Z :=
  match fuel with
  | O => k
  | S fuel' =>
      (* is num/den < 10^k ? *)
      if (if 0 <=? k then num <? den * 10 ^ k else num * 10 ^ (- k) <? den)%Z
      then k else decpt_from fuel' num den (k + 1)%Z
  end.

(** The candidates with [n] digits next to [num/den], whose decimal point
    sits at [k]: the one below as [(digits, exponent of ten)], then the one above. *)
Definition candidates (num den k : Z) (n : nat) : (Z * Z) * (Z * Z) :=
  let e := (k - Z.of_nat n)%Z in
  let lo := (if 0 <=? e then num / (den * 10 ^ e) else (num * 10 ^ (- e)) / den)%Z in
  ((lo, e), ((lo + 1)%Z, e)).

(** Twice the distance of [d * 10^e] to [num/den], times a common positive factor. *)
Definition distance (num den : Z) (c : Z * Z) : Z :=
  let '(d, e) := c in
  (if 0 <=? e then Z.abs (d * 10 ^ e * den - num)
   else Z.abs (d * den - num * 10 ^ (- e)))%Z.

Fixpoint shortest (fuel : nat) (f : float) (num den k : Z) (n : nat) : Z * Z :=
  let '(lo, hi) := candidates num den k n in
  let ok c := PrimFloat.eqb (float_of_decimal false (fst c) (snd c)) f in
  match fuel with
  | O => lo
  | S fuel' =>
      match ok lo, ok hi with
      | true, true =>
          if (distance num den lo <=? distance num den hi)%Z then lo else hi
      | true, false => lo
      | false, true => hi
      | false, false => shortest fuel' f num den k (S n)
      end
  end.

(** Trailing zeros of the digits moved into the exponent. *)
Fixpoint trim (fuel : nat) (d e : Z) : Z * Z :=
  match fuel with
  | O => (d, e)
  | S fuel' => if ((d mod 10 =? 0) && negb (d =? 0))%Z
               then trim fuel' (d / 10)%Z (e + 1)%Z else (d, e)
  end.

Fixpoint zeros (n : nat) : string :=
  match n with O => EmptyString | S n' => String "0"%char (zeros n') end.

(** The layout of [repr]: digits [ds] read as [0.ds * 10^decpt]. *)
Definition layout (ds : string) (decpt : Z) : string :=
  let n := Z.of_nat (String.length ds) in
  if ((decpt <=? -4) || (16 <? decpt))%Z then
    let e := (decpt - 1)%Z in
    let mant :=
      match ds with
      | String c EmptyString => ds
      | String c r => String c ("." +++ r)
      | EmptyString => ds
      end in
    let ee := str_of_Z (Z.abs e) in
    mant +++ "e" +++ (if (e <? 0)%Z then "-" else "+")
         +++ (if (String.length ee <? 2)%nat then "0" +++ ee else ee)
  else if (decpt <=? 0)%Z then "0." +++ zeros (Z.to_nat (- decpt)) +++ ds
  else if (n <=? decpt)%Z then ds +++ zeros (Z.to_nat (decpt - n)) +++ ".0"
  else substring 0 (Z.to_nat decpt) ds +++ "."
       +++ substring (Z.to_nat decpt) (Z.to_nat (n - decpt)) ds.

(** [repr(f)] *)
Definition repr_float (f : float) : string :=
  match Prim2SF f with
  | S754_nan => "nan"
  | S754_infinity s => if s then "-inf" else "inf"
  | S754_zero s => if s then "-0.0" else "0.0"
  | S754_finite s m e =>
      let num := (if 0 <=? e then Zpos m * 2 ^ e else Zpos m)%Z in
      let den := (if 0 <=? e then 1 else 2 ^ (- e))%Z in
      let k := decpt_from 700 num den (-330)%Z in
      let '(d, e10) := shortest 17 (abs f) num den k 1 in
      let '(d', e10') := trim 20 d e10 in
      let ds := str_of_Z d' in
      (if s then "-" else "") +++ layout ds (Z.of_nat (String.length ds) + e10')%Z
  end.

Definition demo_hash (upload_id file_name : string) : string :=
  "#" +++ upload_id +++ "/" +++ file_name.

Definition runtime : Runtime :=
  Build_Runtime float_of_str repr_float demo_hash.

End Demo.

(** ** Notions used in the statements *)

Section Notions.
Context {RT : Runtime}.

(** What [get_value] returns for [number=False]: it never raises. *)
Definition text_of (data : Series) (key : string) (default : value) : value :=
  match series_get data key with
  | None => default
  | Some v => if isna v then default else VStr (strip (py_str v))
  end.

(** The table has a column 'Nomad ID' under 'Experiment Info'. *)
Definition has_nomad_id_column (df : DataFrame) : bool :=
  existsb (fun c => String.eqb (fst (fst c)) "Experiment Info"
                    && String.eqb (snd (fst c)) "Nomad ID")
          (f_columns df).

(** What one pass of the inner loop of [parse] appends: the records for
    the row [jr] of [df_dropped] in the group [col] at position [i]. *)
Definition row_records (df : DataFrame) (upload_id : string) (i : nat) (col : string)
    (jr : nat * Series) : result (list (value * entry)) :=
  lab_ids <- lab_ids_of df col (snd jr) ;;
  process_row i col (fst jr) lab_ids (snd jr) upload_id [].

(** What one pass of the outer loop of [parse] appends. *)
Definition group_records (df : DataFrame) (upload_id : string) (ic : nat * string)
    : result (list (value * entry)) :=
  if String.eqb (snd ic) "Experiment Info" then Ok []
  else
    group <- getitem_level0 df (snd ic) ;;
    news <- mapM (row_records df upload_id (fst ic) (snd ic))
                 (iterrows (drop_duplicates group)) ;;
    Ok (List.concat news).

(** The [samples] of a process record. *)
Definition samples_of (e : entry) : option (list CompositeSystemReference.t) :=
  match e with
  | ECleaning a => Some (peroTF_Cleaning.samples a)
  | EGeneric a => Some (peroTF_Process.samples a)
  | EEvaporation a => Some (peroTF_Evaporation.samples a)
  | ESpinCoating a => Some (peroTF_SpinCoating.samples a)
  | EInkjetPrinting a => Some (peroTF_InkjetPrinting.samples a)
  | EDipCoating a => Some (peroTF_DipCoating.samples a)
  | ESputtering a => Some (peroTF_Sputtering.samples a)
  | EALD a => Some (peroTF_ALD.samples a)
  | EBatch _ | ESample _ | ESubstrate _ => None
  end.

Definition is_process (e : entry) : bool :=
  match samples_of e with Some _ => true | None => false end.

Definition count_if (b : bool) : nat := if b then 1 else 0.

(** How many process records [parse] creates for a row of the group [col]:
    one per process word in the name of the group; the six deposition
    words count only when the row has a 'Material name'. *)
Definition keyword_count (col : string) (row : Series) : nat :=
  count_if (contains "Cleaning" col) + count_if (contains "Generic Process" col)
  + (if material_missing row then 0
     else count_if (contains "Evaporation" col)
          + count_if (contains "Spin Coating" col)
          + count_if (contains "Inkjet Printing" col)
          + count_if (contains "Dip Coating" col)
          + count_if (contains "Sputtering" col)
          + count_if (contains "ALD" col)).

(** The lower-case form of the 'Organic' cell that [map_evaporation] tests:
    the stripped text of the cell, empty when the cell is absent or missing. *)
Definition organic_form (data : Series) : string :=
  match text_of data "Organic" (VStr "") with
  | VStr s => lower s
  | _ => ""
  end.

(** It starts with 'y', 'n', '0' or '1'. *)
Definition organic_known (data : Series) : bool :=
  startswith (organic_form data) "y" || startswith (organic_form data) "n"
  || startswith (organic_form data) "0" || startswith (organic_form data) "1".

(** [stored] is what a mapper keeps of the cell [key] through
    [convert_quantity(get_value(data, key, None), factor)] when the call
    returns: None for an absent or missing cell, else [float(cell) * factor]. *)
Definition stored_quantity (data : Series) (key : string) (factor : float)
    (stored : value) : Prop :=
  match series_get data key with
  | None => stored = VNone
  | Some v =>
      if isna v then stored = VNone
      else exists f, py_float v = Ok f /\ stored = VFloat (f * factor)%float
  end.

(** The cell [key] has a text that is not empty once stripped: the test
    [if get_value(data, key, None, False)]. *)
Definition has_text (data : Series) (key : string) : bool :=
  truthy (text_of data key VNone).

(** The number in the cell [key]: [float(cell)] when the cell is present,
    not missing and a number to [float()], None otherwise. *)
Definition number_of (data : Series) (key : string) : value :=
  match series_get data key with
  | None => VNone
  | Some v =>
      if isna v then VNone
      else match py_float v with
           | Ok f => VFloat f
           | Raise _ => VNone
           end
  end.

(** The cell [key] converts to a number other than zero: the test
    [if get_value(data, key)]. *)
Definition nonzero_number (data : Series) (key : string) : bool :=
  truthy (number_of data key).

(** The recipe step read from the columns with the suffix [step]. *)
Definition step_of (data : Series) (step : string) : SpinCoatingRecipeSteps.t :=
  {| SpinCoatingRecipeSteps.speed :=
       number_of data ("Rotation speed " +++ step +++ "[rpm]");
     SpinCoatingRecipeSteps.time := number_of data (rotation_time_key step);
     SpinCoatingRecipeSteps.acceleration :=
       number_of data ("Acceleration " +++ step +++ "[rpm/s]") |}.

Definition is_anti_solvent (q : option quenching_section) : bool :=
  match q with Some (QAntiSolvent _) => true | _ => false end.

Definition is_vacuum (q : option quenching_section) : bool :=
  match q with Some (QVacuum _) => true | _ => false end.

Definition is_gas (q : option quenching_section) : bool :=
  match q with Some (QGas _) => true | _ => false end.

(** The fields the three [if] statements leave alone. *)
Definition same_body (a a' : peroTF_SpinCoating.t) : Prop :=
  peroTF_SpinCoating.samples a' = peroTF_SpinCoating.samples a
  /\ peroTF_SpinCoating.annealing a' = peroTF_SpinCoating.annealing a
  /\ peroTF_SpinCoating.solution a' = peroTF_SpinCoating.solution a
  /\ peroTF_SpinCoating.recipe_steps a' = peroTF_SpinCoating.recipe_steps a.

(** [kept] holds the distinct contents of [rows]: it is taken from [rows],
    every row matches a kept one, and no two kept rows match. *)
Definition distinct_contents (rows kept : list (nat * list value)) : Prop :=
  (forall r, In r kept -> In r rows)
  /\ (forall r, In r rows ->
        exists r', In r' kept /\ values_eqb (snd r) (snd r') = true)
  /\ NoDup (map (fun r => map value_key (snd r)) kept).

(** The 'Nomad ID' values of the rows of the table whose content in the
    group [col] equals, as object-typed values, the content of [row]. *)
Definition shared_lab_ids (df : DataFrame) (col : string) (row : Series)
    (lab_ids : list value) : Prop :=
  exists xs,
    iterrows_pair df "Experiment Info" col = Ok xs
    /\ Forall2 (fun x id => series_getitem (fst (snd x)) "Nomad ID" = Ok id)
         (filter (fun x => equals (astype_object (snd (snd x))) (astype_object row))
                 xs)
         lab_ids.

(** [new] is what [parse] creates for the row [jr] of [df_dropped] in the
    group [col]: as many process records as [keyword_count] says, each with
    one reference per shared lab id. *)
Definition records_of_row (df : DataFrame) (upload_id : string) (col : string)
    (jr : nat * Series) (new : list (value * entry)) : Prop :=
  exists lab_ids,
    shared_lab_ids df col (snd jr) lab_ids
    /\ List.length new = keyword_count col (snd jr)
    /\ Forall (fun e => samples_of (snd e) = Some (sample_refs upload_id lab_ids)) new.

(** [recs] is what [parse] creates for the top-level column [snd ic]. *)
Definition records_of_group (df : DataFrame) (upload_id : string)
    (ic : nat * string) (recs : list (value * entry)) : Prop :=
  if String.eqb (snd ic) "Experiment Info" then recs = []
  else
    exists group per_row,
      getitem_level0 df (snd ic) = Ok group
      /\ distinct_contents (f_rows group) (f_rows (drop_duplicates group))
      /\ recs = List.concat per_row
      /\ Forall2 (records_of_row df upload_id (snd ic))
           (iterrows (drop_duplicates group)) per_row.

(** [s] is the entry of the list [substrates] made for the row [r] of the
    distinct substrate combinations. *)
Definition substrate_of (r : nat * Series)
    (s : string * Series * peroTF_Substrate.t) : Prop :=
  exists a, map_substrate (snd r) = Ok a
            /\ s = (str_of_nat (fst r) +++ "_substrate", snd r, a).

(** [a] is the sample made for the row [r] of 'Experiment Info', linked to
    the first entry of [substrates] whose combination equals the row's. *)
Definition linked_sample (upload_id : string)
    (substrates : list (string * Series * peroTF_Substrate.t))
    (r : nat * Series) (a : value * entry) : Prop :=
  exists d name sub rec id descr,
    series_select (snd r) substrates_col = Ok d
    /\ In (name, sub, rec) substrates
    /\ equals d sub = true
    /\ series_getitem (snd r) "Nomad ID" = Ok id
    /\ a = (id, ESample {| peroTF_Sample.name := id;
                           peroTF_Sample.lab_id := id;
                           peroTF_Sample.substrate :=
                             get_reference upload_id (name +++ ".archive.json");
                           peroTF_Sample.description := descr |}).

Definition is_substrate (e : entry) : bool :=
  match e with ESubstrate _ => true | _ => false end.

Definition is_sample (e : entry) : bool :=
  match e with ESample _ => true | _ => false end.

(** The rows that are not entirely missing. *)
Definition not_blank (rows : list (nat * Series)) : list (nat * Series) :=
  filter (fun r => negb (isna_all (snd r))) rows.

End Notions.

(** ** Rows and tables of the examples *)

Module Examples.

(** A spin coating row with a text in the annealing time. *)
Definition row_text_time : Series :=
  {| s_dtype := object;
     s_index := ["Material name"; "Annealing time [min]"];
     s_values := [VStr "PEDOT"; VStr "abc"] |}.

(** A spin coating row with numbers: ten minutes of annealing, a solvent
    of 500 uL, a solute of 20 mM, a first step of 30 s and a second of 0 s. *)
Definition row_numbers : Series :=
  {| s_dtype := object;
     s_index := ["Material name"; "Annealing time [min]"; "Solvent 1 name";
                 "Solvent 1 volume [uL]"; "Solute 1 type";
                 "Solute 1 Concentration [mM]"; "Rotation time [s]";
                 "Rotation speed [rpm]"; "Rotation time 1 [s]"];
     s_values := [VStr "PEDOT"; VInt 10; VStr "DMF"; VFloat 500; VStr "PbI2";
                  VInt 20; VFloat 30; VInt 3000; VInt 0] |}.

(** A spin coating row whose only rotation time is the number zero. *)
Definition row_zero_time : Series :=
  {| s_dtype := object;
     s_index := ["Material name"; "Rotation time [s]"];
     s_values := [VStr "PEDOT"; VInt 0] |}.

(** A spin coating row with a vacuum quenching of 5 s and a 'Gas' cell that
    holds one blank. *)
Definition row_blank_gas : Series :=
  {| s_dtype := object;
     s_index := ["Material name"; "Vacuum quenching duration [s]"; "Gas"];
     s_values := [VStr "PEDOT"; VInt 5; VStr " "] |}.

(** A spin coating row with all three quenching column groups filled. *)
Definition row_all_quenching : Series :=
  {| s_dtype := object;
     s_index := ["Material name"; "Anti solvent name";
                 "Vacuum quenching duration [s]"; "Gas"];
     s_values := [VStr "PEDOT"; VStr "CB"; VInt 5; VStr "N2"] |}.

Definition info_columns : list ((string * string) * dtype) :=
  [(("Experiment Info", "Nomad ID"), object);
   (("Experiment Info", "Variation"), object);
   (("Experiment Info", "Sample dimension"), object);
   (("Experiment Info", "Sample area [cm^2]"), float64);
   (("Experiment Info", "Substrate material"), object);
   (("Experiment Info", "Substrate conductive layer"), object)].

(** Sixteen hundredths of a square centimetre, [0.16]. *)
Definition area : float := (16 / 100)%float.

(** Three samples on two kinds of substrate; all are cleaned alike, and the
    second is spin coated with a different first step than the others. *)
Definition df_demo : DataFrame :=
  {| f_columns :=
       info_columns
       ++ [(("Cleaning O2-Plasma", "Solvent 1"), object);
           (("Cleaning O2-Plasma", "Time 1 [s]"), int64);
           (("Spin Coating", "Material name"), object);
           (("Spin Coating", "Rotation time [s]"), float64);
           (("Spin Coating", "Annealing time [min]"), int64)];
     f_rows :=
       [(0, [VStr "KIT_ab_1_0"; VStr "ref"; VStr "1 cm x 1 cm"; VFloat area;
             VStr "glass"; VStr "ITO";
             VStr "Ethanol"; VInt 30; VStr "PEDOT"; VFloat 30; VInt 10]);
        (1, [VStr "KIT_ab_1_1"; VFloat nan; VStr "1 cm x 1 cm"; VFloat area;
             VStr "glass"; VStr "ITO";
             VStr "Ethanol"; VInt 30; VStr "PEDOT"; VFloat 0; VInt 10]);
        (2, [VStr "KIT_ab_1_2"; VFloat nan; VStr "2 cm x 2 cm"; VFloat area;
             VStr "glass"; VStr "ITO";
             VStr "Ethanol"; VInt 30; VStr "PEDOT"; VFloat 30; VInt 10])] |}.

(** One sample whose spin coating row has a rotation time and no
    'Material name'. *)
Definition df_no_material : DataFrame :=
  {| f_columns :=
       info_columns
       ++ [(("Spin Coating", "Material name"), float64);
           (("Spin Coating", "Rotation time [s]"), float64)];
     f_rows :=
       [(0, [VStr "KIT_ab_1_0"; VStr "ref"; VStr "1 cm x 1 cm"; VFloat area;
             VStr "glass"; VStr "ITO"; VFloat nan; VFloat 30])] |}.

(** One sample, and a second row that is empty under 'Experiment Info'
    and only names a process step. *)
Definition df_blank_row : DataFrame :=
  {| f_columns := info_columns ++ [(("Generic Process", "Name"), object)];
     f_rows :=
       [(0, [VStr "KIT_ab_1_0"; VStr "ref"; VStr "1 cm x 1 cm"; VFloat area;
             VStr "glass"; VStr "ITO"; VStr "wash"]);
        (1, [VFloat nan; VFloat nan; VFloat nan; VFloat nan; VFloat nan;
             VFloat nan; VStr "wash"])] |}.

(** One row that has no 'Nomad ID'. *)
Definition df_no_id : DataFrame :=
  {| f_columns := info_columns;
     f_rows := [(0, [VFloat nan; VStr "ref"; VStr "1 cm x 1 cm"; VFloat area;
                     VStr "glass"; VStr "ITO"])] |}.

(** One sample whose four substrate cells are all empty. *)
Definition df_no_substrate : DataFrame :=
  {| f_columns := info_columns;
     f_rows := [(0, [VStr "KIT_ab_1_0"; VStr "ref"; VFloat nan; VFloat nan;
                     VFloat nan; VFloat nan])] |}.

(** One sample whose substrate is described by numbers only: the four
    substrate columns are float64 columns. *)
Definition df_numeric_substrate : DataFrame :=
  {| f_columns :=
       [(("Experiment Info", "Nomad ID"), object);
        (("Experiment Info", "Sample dimension"), float64);
        (("Experiment Info", "Sample area [cm^2]"), float64);
        (("Experiment Info", "Substrate material"), float64);
        (("Experiment Info", "Substrate conductive layer"), float64)];
     f_rows := [(0, [VStr "KIT_ab_1_0"; VFloat 1; VFloat area; VFloat nan;
                     VFloat nan])] |}.

(** An evaporation row of an organic material, and one without the
    'Organic' cell. *)
Definition row_organic : Series :=
  {| s_dtype := object;
     s_index := ["Material name"; "Organic"; "Thickness [nm]"];
     s_values := [VStr "C60"; VStr "Yes"; VInt 20] |}.

Definition row_no_organic : Series :=
  {| s_dtype := object;
     s_index := ["Material name"; "Thickness [nm]"];
     s_values := [VStr "C60"; VInt 20] |}.

(** An evaporation row whose 'Organic' cell has a blank before the word. *)
Definition row_blank_yes : Series :=
  {| s_dtype := object;
     s_index := ["Material name"; "Organic"; "Thickness [nm]"];
     s_values := [VStr "C60"; VStr " Yes"; VInt 20] |}.

End Examples.

(** ** The mapper that [parse] does not call *)

Module SlotDieCoatingProperties.
Record t : Type := {
    flow_rate : value;
    slot_die_head_distance_to_thinfilm : value;
    slot_die_head_speed : value
  }.
End SlotDieCoatingProperties.

Module AirKnifeGasQuenching.
Record t : Type := {
    air_knife_angle : value;
    bead_volume : value;
    drying_speed : value;
    air_knife_distance_to_thin_film : value
  }.
End AirKnifeGasQuenching.

Module peroTF_SlotDieCoating.
Record t : Type := {
    name : string;
    location : value;
    positon_in_experimental_plan : nat;
    description : value;
    samples : list CompositeSystemReference.t;
    solution : list PrecursorSolution.t;
    layer : list LayerProperties.t;
    annealing : Annealing.t;
    properties : SlotDieCoatingProperties.t;
    quenching : AirKnifeGasQuenching.t
  }.
End peroTF_SlotDieCoating.

Section SlotDie.
Context {RT : Runtime}.

(** [data.get(key, None)] *)
Definition series_get_or_none (data : Series) (key : string) : value :=
  match series_get data key with
  | Some v => v
  | None => VNone
  end.

(** [10000], the factor of the air knife gap. *)
Definition f10000 : float := 10000%float.

Definition map_sdc (i j : nat) (lab_ids : list value) (data : Series)
    (upload_id : string) : result (string * peroTF_SlotDieCoating.t) :=
  m <- get_value data "Material name" (VStr "") false ;;
  name <- str_add "slot die coating " m ;;
  location <- get_value data "Tool/GB name" (VStr "") false ;;
  description <- get_value data "Notes" VNone false ;;
  let samples := sample_refs upload_id lab_ids in
  solution <- map_precursor data ;;
  layer <- map_layer data ;;
  atemp <- get_value data "Annealing temperature [°C]" VNone true ;;
  atime <- get_value data "Annealing time [min]" VNone true ;;
  let flow := convert_quantity (series_get_or_none data "Flow rate [ul/min]") milli in
  gap <- get_value data "Head gap [mm]" VNone true ;;
  speed <- get_value data "Speed [mm/s]" VNone true ;;
  angle <- get_value data "Air knife angle [°]" VNone true ;;
  bead <- get_value data "Bead volume [mm/s]" VNone true ;;
  drying <- get_value data "Drying speed [cm/min]" VNone true ;;
  let knife_gap :=
    convert_quantity (series_get_or_none data "Air knife gap [cm]") f10000 in
  let archive :=
    {| peroTF_SlotDieCoating.name := name;
       peroTF_SlotDieCoating.location := location;
       peroTF_SlotDieCoating.positon_in_experimental_plan := i;
       peroTF_SlotDieCoating.description := description;
       peroTF_SlotDieCoating.samples := samples;
       peroTF_SlotDieCoating.solution := solution;
       peroTF_SlotDieCoating.layer := layer;
       peroTF_SlotDieCoating.annealing :=
         {| Annealing.temperature := atemp;
            Annealing.time := convert_quantity atime f60;
            Annealing.atmosphere := VNone |};
       peroTF_SlotDieCoating.properties :=
         {| SlotDieCoatingProperties.flow_rate := flow;
            SlotDieCoatingProperties.slot_die_head_distance_to_thinfilm := gap;
            SlotDieCoatingProperties.slot_die_head_speed := speed |};
       peroTF_SlotDieCoating.quenching :=
         {| AirKnifeGasQuenching.air_knife_angle := angle;
            AirKnifeGasQuenching.bead_volume := bead;
            AirKnifeGasQuenching.drying_speed := drying;
            AirKnifeGasQuenching.air_knife_distance_to_thin_film := knife_gap |} |} in
  material <- get_value data "Material name" (VStr "") false ;;
  Ok (process_key i j "slot_die_coating_" +++ py_str material, archive).

End SlotDie.

(** ** More notions used in the statements *)

Section MoreNotions.
Context {RT : Runtime}.

(** The cell [key] can be read as a number: it is absent, missing, or a
    value that [float()] accepts. *)
Definition num_ok (data : Series) (key : string) : bool :=
  match series_get data key with
  | None => true
  | Some v => isna v || is_ok (py_float v)
  end.

(** The text [get_value] returns for [number=False] and the default ['']. *)
Definition str_of (data : Series) (key : string) : string :=
  match text_of data key (VStr "") with
  | VStr s => s
  | _ => ""
  end.

(** The cleaning step read from the columns of the index [k]. *)
Definition clean_of (data : Series) (k : nat) : SolutionCleaning.t :=
  {| SolutionCleaning.time := number_of data ("Time " +++ str_of_nat k +++ " [s]");
     SolutionCleaning.temperature :=
       number_of data ("Temperature " +++ str_of_nat k +++ " [°C]");
     SolutionCleaning.solvent_2 :=
       pubchem (text_of data ("Solvent " +++ str_of_nat k) VNone) |}.



(** The cells of a column agree with its dtype: an int64 column holds
    [int] cells and a float64 column [float] cells. *)
Definition cell_typed (d : dtype) (v : value) : bool :=
  match d, v with
  | int64, VInt _ => true
  | float64, VFloat _ => true
  | object, _ => true
  | _, _ => false
  end.

Fixpoint row_typed (ds : list dtype) (vs : list value) : bool :=
  match ds, vs with
  | [], [] => true
  | d :: ds', v :: vs' => cell_typed d v && row_typed ds' vs'
  | _, _ => false
  end.

(** Every row has one cell per column, of the dtype of the column. *)
Definition well_typed {K : Type} (f : Frame K) : bool :=
  forallb (fun r => row_typed (map snd (f_columns f)) (snd r)) (f_rows f).

(** No character of [s] is [c]. *)
Fixpoint free_of (c : ascii) (s : string) : bool :=
  match s with
  | EmptyString => true
  | String a s' => negb (Ascii.eqb a c) && free_of c s'
  end.


End MoreNotions.

Module MoreExamples.

(** A slot die coating row whose flow rate is a text and whose air knife
    gap is the number 2. *)
Definition row_sdc : Series :=
  {| s_dtype := object;
     s_index := ["Material name"; "Flow rate [ul/min]"; "Air knife gap [cm]"];
     s_values := [VStr "PVK"; VStr "fast"; VInt 2] |}.

(** A cleaning row: two solvents, a text in the time of an index without
    solvent. *)
Definition row_cleaning : Series :=
  {| s_dtype := object;
     s_index := ["Solvent 1"; "Time 1 [s]"; "Solvent 3"; "Time 5 [s]";
                 "UV-Ozone Time [s]"];
     s_values := [VStr "Acetone"; VInt 30; VStr "IPA"; VStr "long"; VInt 900] |}.

(** A sputtering row. *)
Definition row_sputtering : Series :=
  {| s_dtype := object;
     s_index := ["Material name"; "Thickness [nm]"; "Gas"; "Notes"];
     s_values := [VStr "ITO"; VInt 100; VStr "Ar"; VStr "12"] |}.

(** A dip coating row of ninety seconds. *)
Definition row_dip : Series :=
  {| s_dtype := object;
     s_index := ["Material name"; "Dipping duration [s]"; "Annealing time [min]"];
     s_values := [VStr "SAM"; VInt 90; VFloat 5] |}.

(** A sheet whose header has no 'Experiment Info', one without 'Nomad ID',
    one whose first id is a number, and one without 'Substrate material'. *)
Definition df_other_header : DataFrame :=
  {| f_columns := [(("Info", "Nomad ID"), object)];
     f_rows := [(0, [VStr "KIT_ab_1_0"])] |}.

Definition df_no_id_column : DataFrame :=
  {| f_columns := [(("Experiment Info", "Variation"), object)];
     f_rows := [(0, [VStr "ref"])] |}.

Definition df_numeric_id : DataFrame :=
  {| f_columns := [(("Experiment Info", "Nomad ID"), int64)];
     f_rows := [(0, [VInt 7])] |}.

Definition df_three_substrate_columns : DataFrame :=
  {| f_columns :=
       [(("Experiment Info", "Nomad ID"), object);
        (("Experiment Info", "Sample dimension"), object);
        (("Experiment Info", "Sample area [cm^2]"), float64);
        (("Experiment Info", "Substrate conductive layer"), object)];
     f_rows := [(0, [VStr "KIT_ab_1_0"; VStr "1 cm x 1 cm"; VFloat 1; VStr "ITO"])] |}.

(** An inkjet printing row with 128 nozzles, a quality factor given as a
    number and five minutes of annealing. *)
Definition row_inkjet : Series :=
  {| s_dtype := object;
     s_index := ["Material name"; "Number of active nozzles"; "Quality factor";
                 "Annealing time [min]"];
     s_values := [VStr "PVK"; VInt 128; VInt 3; VInt 5] |}.

(** An atomic layer deposition row of 200 cycles. *)
Definition row_ald : Series :=
  {| s_dtype := object;
     s_index := ["Material name"; "Number of cycles"; "Precursor 1";
                 "Bottle temperature 1 [°C]"];
     s_values := [VStr "SnO2"; VInt 200; VStr "TDMASn"; VFloat 60] |}.

(** A row with three solvents, the second before the first and the third
    without name and volume, and one solute. *)
Definition row_solvents : Series :=
  {| s_dtype := object;
     s_index := ["Material name"; "Solvent 2 name"; "Solvent 1 name";
                 "Solvent 1 volume [uL]"; "Solvent 3 name"; "Solute 1 type"];
     s_values := [VStr "PVK"; VStr "DMSO"; VStr "DMF"; VInt 800; VFloat nan;
                  VStr "PbI2"] |}.

End MoreExamples.

(** ** Equal cells, in the words of Python

    A number is [m * 2^e] for integers [m] and [e]: an [int] is itself
    times [2^0], a finite [float] its signed mantissa times a power of two. *)
Definition dyadic (v : value) : option (Z * Z) :=
  match v with
  | VInt z => Some (z, 0%Z)
  | VFloat f =>
      match Prim2SF f with
      | S754_zero _ => Some (0%Z, 0%Z)
      | S754_finite s m e => Some (if s then Z.neg m else Z.pos m, e)
      | _ => None
      end
  | _ => None
  end.

(** The sign of an infinite [float]. *)
Definition infinity_of (v : value) : option bool :=
  match v with
  | VFloat f =>
      match Prim2SF f with
      | S754_infinity s => Some s
      | _ => None
      end
  | _ => None
  end.

(** [m * 2^e = m' * 2^e'], without fractions. *)
Definition same_number (a b : Z * Z) : Prop :=
  let e := Z.min (snd a) (snd b) in
  (fst a * 2 ^ (snd a - e) = fst b * 2 ^ (snd b - e))%Z.

(** The characters of a text. *)
Definition text_in (v : value) : option string :=
  match v with
  | VStr s => Some s
  | _ => None
  end.

(** [a == b] for two cells that are not missing: texts with the same
    characters, numbers of the same value (an [int] and a [float] are
    compared exactly), infinities of the same sign; a text equals no
    number. *)
Definition py_equal (a b : value) : Prop :=
  match text_in a, text_in b with
  | Some s, Some t => s = t
  | None, None =>
      match dyadic a, dyadic b with
      | Some x, Some y => same_number x y
      | None, None =>
          match infinity_of a, infinity_of b with
          | Some s, Some t => s = t
          | _, _ => False
          end
      | _, _ => False
      end
  | _, _ => False
  end.

(** Two cells match, for [drop_duplicates] and [Series.equals]: both are
    missing, or neither is and they are equal. *)
Definition cells_match (a b : value) : Prop :=
  (isna a = true /\ isna b = true)
  \/ (isna a = false /\ isna b = false /\ py_equal a b).

(** Two rows of cells match cell by cell. *)
Definition contents_match (a b : list value) : Prop := Forall2 cells_match a b.

(** ** The table, cell by cell *)

(** The cells of a row under the top-level name [top], each with the second
    name of its column. *)
Fixpoint cells_under (cols : list (string * string * dtype)) (vs : list value)
    (top : string) : list (string * value) :=
  match cols, vs with
  | c :: cols', v :: vs' =>
      if String.eqb (fst (fst c)) top
      then (snd (fst c), v) :: cells_under cols' vs' top
      else cells_under cols' vs' top
  | _, _ => []
  end.

(** The first cell called [name]. *)
Fixpoint cell_of (cells : list (string * value)) (name : string) : option value :=
  match cells with
  | [] => None
  | c :: cells' =>
      if String.eqb (fst c) name then Some (snd c) else cell_of cells' name
  end.

Definition group_cells (df : DataFrame) (top : string) (r : nat * list value)
    : list (string * value) :=
  cells_under (f_columns df) (snd r) top.

(** The cell of the row [r] in the column [name] of the group [top]; None
    when the table has no such column. *)
Definition cell (df : DataFrame) (top name : string) (r : nat * list value)
    : value :=
  match cell_of (group_cells df top r) name with
  | Some v => v
  | None => VNone
  end.

(** The dtypes of the columns of the group [top]. *)
Definition group_dtypes (df : DataFrame) (top : string) : list dtype :=
  map snd (filter (fun c => String.eqb (fst (fst c)) top) (f_columns df)).

(** [kept] holds, in order, the elements of [l] that no earlier element
    is the same as; [earlier] holds the elements before [l]. *)
Inductive firsts {A : Type} (same : A -> A -> Prop)
    : list A -> list A -> list A -> Prop :=
| firsts_nil (earlier : list A) : firsts same earlier [] []
| firsts_keep (earlier : list A) (x : A) (l kept : list A) :
    Forall (fun b => ~ same b x) earlier ->
    firsts same (earlier ++ [x]) l kept ->
    firsts same earlier (x :: l) (x :: kept)
| firsts_drop (earlier : list A) (x : A) (l kept : list A) :
    Exists (fun b => same b x) earlier ->
    firsts same (earlier ++ [x]) l kept ->
    firsts same earlier (x :: l) kept.

(** [chosen] holds, in order, exactly the elements of [l] that satisfy [P]. *)
Inductive those {A : Type} (P : A -> Prop) : list A -> list A -> Prop :=
| those_nil : those P [] []
| those_keep (x : A) (l chosen : list A) :
    P x -> those P l chosen -> those P (x :: l) (x :: chosen)
| those_skip (x : A) (l chosen : list A) :
    ~ P x -> those P l chosen -> those P (x :: l) chosen.

(** ** The records of a table, in the words of the specification *)

Section Spec.
Context {RT : Runtime}.

(** A row of a group of columns without text in which some column holds
    floats comes out of [iterrows] with its ints turned into floats. *)
Definition upcast (ds : list dtype) : bool :=
  negb (existsb (dtype_eqb object) ds) && existsb (dtype_eqb float64) ds.

Definition as_float (v : value) : value :=
  match v with
  | VInt z => VFloat (cast_float z)
  | _ => v
  end.

(** The cells of the row [r] in the group [top] as [df[top].iterrows()]
    yields them. *)
Definition iterated_cells (df : DataFrame) (top : string) (r : nat * list value)
    : list (string * value) :=
  if upcast (group_dtypes df top)
  then map (fun c => (fst c, as_float (snd c))) (group_cells df top r)
  else group_cells df top r.

(** The cell 'Material name' is absent or missing. *)
Definition material_missing_in (cells : list (string * value)) : bool :=
  match cell_of cells "Material name" with
  | None => true
  | Some v => isna v
  end.

(** The number of process words in the name of a group; the six deposition
    words count only for a row that has a material. *)
Definition word_count (col : string) (missing : bool) : nat :=
  count_if (contains "Cleaning" col) + count_if (contains "Generic Process" col)
  + (if missing then 0
     else count_if (contains "Evaporation" col)
          + count_if (contains "Spin Coating" col)
          + count_if (contains "Inkjet Printing" col)
          + count_if (contains "Dip Coating" col)
          + count_if (contains "Sputtering" col)
          + count_if (contains "ALD" col)).

(** [ref] is the reference to the sample of the row [k]: the reference
    string of the file '<Nomad ID>.archive.json', with the id. *)
Definition refers_to (df : DataFrame) (upload_id : string)
    (k : nat * list value) (ref : CompositeSystemReference.t) : Prop :=
  ref = {| CompositeSystemReference.reference :=
             get_reference upload_id
               (py_str (cell df "Experiment Info" "Nomad ID" k)
                +++ ".archive.json");
           CompositeSystemReference.lab_id :=
             cell df "Experiment Info" "Nomad ID" k |}.

(** The rows [k] and [r] have the same content in the group [col]. *)
Definition same_in_group (df : DataFrame) (col : string)
    (k r : nat * list value) : Prop :=
  contents_match (map snd (group_cells df col k)) (map snd (group_cells df col r)).

(** The row [k] shares the process of the row [r]: its cells in the group
    match the cells [iterrows] yields for [r]. *)
Definition shares_process (df : DataFrame) (col : string)
    (r k : nat * list value) : Prop :=
  contents_match (map snd (group_cells df col k))
                 (map snd (iterated_cells df col r)).

(** [new] holds the process records of the row [r] of distinct content in
    the group [col]: one per process word, each with the references to the
    samples of exactly the rows that share the process. *)
Definition spec_row_records (df : DataFrame) (upload_id : string) (col : string)
    (r : nat * list value) (new : list (value * entry)) : Prop :=
  exists sharing,
    those (shares_process df col r) (f_rows df) sharing
    /\ List.length new
       = word_count col (material_missing_in (iterated_cells df col r))
    /\ Forall (fun e =>
                 exists refs,
                   samples_of (snd e) = Some refs
                   /\ Forall2 (refers_to df upload_id) sharing refs)
              new.

(** [recs] holds the process records of the group [col]: those of its rows
    of distinct content, in order. *)
Definition spec_group_records (df : DataFrame) (upload_id : string)
    (col : string) (recs : list (value * entry)) : Prop :=
  if String.eqb col "Experiment Info" then recs = []
  else
    exists distinct per_row,
      firsts (same_in_group df col) [] (f_rows df) distinct
      /\ recs = List.concat per_row
      /\ Forall2 (spec_row_records df upload_id col) distinct per_row.

(** The four substrate cells of a row. *)
Definition substrate_cells (df : DataFrame) (r : nat * list value) : list value :=
  map (fun name => cell df "Experiment Info" name r) substrates_col.

(** The four substrate cells of a row as the Series [map_substrate] gets. *)
Definition substrate_row (df : DataFrame) (r : nat * list value) : Series :=
  {| s_dtype := object;
     s_index := substrates_col;
     s_values := substrate_cells df r |}.

(** The rows [a] and [b] have the same combination of substrate cells. *)
Definition same_substrate (df : DataFrame) (a b : nat * list value) : Prop :=
  contents_match (substrate_cells df a) (substrate_cells df b).

(** The four substrate cells of the row are not all missing. *)
Definition has_substrate (df : DataFrame) (r : nat * list value) : bool :=
  negb (forallb isna (substrate_cells df r)).

(** The cells of the row under 'Experiment Info' are not all missing. *)
Definition is_sample_row (df : DataFrame) (r : nat * list value) : bool :=
  negb (forallb isna (map snd (group_cells df "Experiment Info" r))).

(** The file of the substrate record made for the row [r]. *)
Definition substrate_file_name (r : nat * list value) : string :=
  (str_of_nat (fst r) +++ "_substrate") +++ ".archive.json".

(** [f] is the file of the substrate record made from the substrate cells
    of the row [r]. *)
Definition spec_substrate_file (df : DataFrame) (r : nat * list value)
    (f : string * entry) : Prop :=
  exists a,
    map_substrate (substrate_row df r) = Ok a
    /\ f = (substrate_file_name r, ESubstrate a).

(** [r'] is the first row of the table whose substrate cells match those
    of the row [r]. *)
Definition first_with_substrate (df : DataFrame) (r r' : nat * list value)
    : Prop :=
  exists before after,
    f_rows df = before ++ r' :: after
    /\ same_substrate df r' r
    /\ Forall (fun b => ~ same_substrate df b r) before.

(** [f] is the file of the sample of the row [r]: it is named by the
    'Nomad ID' of the row and refers to the substrate file of the first
    row with the same substrate cells, which are not all missing. *)
Definition spec_sample_file (df : DataFrame) (upload_id : string)
    (r : nat * list value) (f : string * entry) : Prop :=
  exists r' descr,
    first_with_substrate df r r'
    /\ has_substrate df r' = true
    /\ f = (py_str (cell df "Experiment Info" "Nomad ID" r) +++ ".archive.json",
            ESample
              {| peroTF_Sample.name := cell df "Experiment Info" "Nomad ID" r;
                 peroTF_Sample.lab_id := cell df "Experiment Info" "Nomad ID" r;
                 peroTF_Sample.substrate :=
                   get_reference upload_id (substrate_file_name r');
                 peroTF_Sample.description := descr |}).

(** [batch_id] is the first 'Nomad ID' of the table that is not missing,
    up to its last underscore; it is empty when the id has no underscore. *)
Definition batch_id_in (df : DataFrame) (batch_id : string) : Prop :=
  exists before r after last,
    f_rows df = before ++ r :: after
    /\ Forall (fun b => isna (cell df "Experiment Info" "Nomad ID" b) = true)
         before
    /\ free_of "_"%char last = true
    /\ (cell df "Experiment Info" "Nomad ID" r = VStr (batch_id +++ "_" +++ last)
        \/ (cell df "Experiment Info" "Nomad ID" r = VStr last
            /\ batch_id = "")).

(** The row has a 'Nomad ID'. *)
Definition has_id (df : DataFrame) (r : nat * list value) : Prop :=
  isna (cell df "Experiment Info" "Nomad ID" r) = false.

End Spec.


(** The kinds of cells. *)
Inductive cell_view : Type :=
| CNa
| CText (s : string)
| CInf (s : bool)
| CZero
| CNum (s : bool) (m : positive) (e : Z).

Definition view (v : value) : cell_view :=
  match v with
  | VNone => CNa
  | VStr s => CText s
  | VInt Z0 => CZero
  | VInt (Zpos p) => CNum false p 0
  | VInt (Zneg p) => CNum true p 0
  | VFloat f =>
      match Prim2SF f with
      | S754_nan => CNa
      | S754_zero _ => CZero
      | S754_infinity s => CInf s
      | S754_finite s m e => CNum s m e
      end
  end.

(** * Properties *)

(** ** Reasoning about results *)

Lemma bind_Ok {A B : Type} (c : result A) (k : A -> result B) (b : B) :
  bind c k = Ok b -> exists a, c = Ok a /\ k a = Ok b.
Proof.
  destruct c as [a|e]; simpl; intros H; [exists a; auto | discriminate].
Qed.

(** A comprehension with a condition that cannot raise keeps the elements of
    [filter], in order. *)
Lemma filter_mapM_pure {A B : Type} (c : A -> bool) (f : A -> result B)
    (l : list A) :
  filter_mapM (fun x => Ok (c x)) f l = mapM f (filter c l).
Proof.
  induction l as [|x l IH]; simpl; [reflexivity|].
  destruct (c x); simpl; rewrite IH; reflexivity.
Qed.

Lemma mapM_Ok_Forall2 {A B : Type} (f : A -> result B) (l : list A) (r : list B) :
  mapM f l = Ok r -> Forall2 (fun x y => f x = Ok y) l r.
Proof.
  revert r; induction l as [|x l IH]; simpl; intros r H.
  - injection H as <-. constructor.
  - apply bind_Ok in H. destruct H as [y [Hy H]].
    apply bind_Ok in H. destruct H as [ys [Hys H]].
    injection H as <-. constructor; [exact Hy | apply IH; exact Hys].
Qed.

(** ** The helpers *)

Section HelperFacts.
Context {RT : Runtime}.

Lemma get_value_text (data : Series) (key : string) (default : value) :
  get_value data key default false = Ok (text_of data key default).
Proof.
  unfold get_value, text_of. destruct (series_get data key) as [v|]; [|reflexivity].
  destruct (isna v); reflexivity.
Qed.

(** The outcome of [get_value] for [number=True], case by case. *)
Lemma get_value_number (data : Series) (key : string) (default : value) :
  get_value data key default true =
  match series_get data key with
  | None => Ok default
  | Some v => if isna v then Ok default else f <- py_float v ;; Ok (VFloat f)
  end.
Proof. reflexivity. Qed.

Lemma get_value_absent (data : Series) (key : string) (default : value) (number : bool) :
  series_get data key = None -> get_value data key default number = Ok default.
Proof. unfold get_value. intros ->. reflexivity. Qed.

Lemma get_value_missing (data : Series) (key : string) (default v : value)
    (number : bool) :
  series_get data key = Some v -> isna v = true ->
  get_value data key default number = Ok default.
Proof. unfold get_value. intros -> ->. reflexivity. Qed.

Lemma number_of_Ok (data : Series) (key : string) (v : value) :
  get_value data key VNone true = Ok v -> number_of data key = v.
Proof.
  unfold number_of, get_value. destruct (series_get data key) as [c|].
  - destruct (isna c); [intros H; injection H as <-; reflexivity|].
    destruct (py_float c); simpl; intros H; [injection H as <-; reflexivity|].
    discriminate H.
  - intros H. injection H as <-. reflexivity.
Qed.

(** A number can be read exactly when [get_value] does not raise on it. *)
Lemma num_ok_get_value (data : Series) (key : string) :
  num_ok data key = is_ok (get_value data key VNone true).
Proof.
  unfold num_ok, get_value. destruct (series_get data key) as [c|]; [|reflexivity].
  destruct (isna c); [reflexivity|]. destruct (py_float c); reflexivity.
Qed.

Lemma convert_quantity_None (factor : float) : convert_quantity VNone factor = VNone.
Proof. reflexivity. Qed.

Lemma convert_quantity_float (f factor : float) :
  convert_quantity (VFloat f) factor = VFloat (f * factor)%float.
Proof. reflexivity. Qed.

End HelperFacts.

(** ** C6: references *)

Section ReferenceFacts.
Context {RT : Runtime}.

(** C6. [get_reference] returns '../uploads/<upload_id>/archive/<entry_id>#data'
    where the entry id is the hash of (upload_id, file_name), and two calls
    with equal arguments return the same string. *)
Theorem get_reference_stable (upload_id file_name : string) :
  get_reference upload_id file_name
  = "../uploads/" +++ upload_id +++ "/archive/"
    +++ get_entry_id_from_file_name file_name upload_id +++ "#data"
  /\ get_entry_id_from_file_name file_name upload_id = hash upload_id file_name
  /\ (forall upload_id' file_name',
        upload_id' = upload_id -> file_name' = file_name ->
        get_reference upload_id' file_name' = get_reference upload_id file_name).
Proof.
  split; [reflexivity|]. split; [reflexivity|].
  intros u f -> ->. reflexivity.
Qed.

End ReferenceFacts.

(** ** Columns of a frame *)

Lemma pick_positions {K : Type} (p : K -> bool) (d : K * dtype)
    (pre cols : list (K * dtype)) :
  pick d (positions p cols (List.length pre)) (pre ++ cols)
  = filter (fun c => p (fst c)) cols.
Proof.
  revert pre; induction cols as [|c cols IH]; intros pre; simpl; [reflexivity|].
  assert (E : pre ++ c :: cols = (pre ++ [c]) ++ cols)
    by (rewrite <- app_assoc; reflexivity).
  assert (L : S (List.length pre) = List.length (pre ++ [c]))
    by (rewrite length_app; simpl; lia).
  destruct (p (fst c)); simpl.
  - f_equal.
    + rewrite app_nth2 by lia. rewrite Nat.sub_diag. reflexivity.
    + rewrite E, L. apply IH.
  - rewrite E, L. apply IH.
Qed.

Lemma positions_nil {K : Type} (p : K -> bool) (cols : list (K * dtype)) (n : nat) :
  positions p cols n = [] <-> filter (fun c => p (fst c)) cols = [].
Proof.
  revert n; induction cols as [|c cols IH]; intros n; simpl; [tauto|].
  destruct (p (fst c)); [split; discriminate | apply IH].
Qed.

(** The columns of [df[col]]: those of the group, under their second name. *)
Lemma getitem_level0_columns (df : DataFrame) (col : string) (f : Frame string) :
  getitem_level0 df col = Ok f ->
  f_columns f
  = map (fun c => (snd (fst c), snd c))
        (filter (fun c => String.eqb (fst (fst c)) col) (f_columns df)).
Proof.
  unfold getitem_level0.
  pose proof (pick_positions (fun k : string * string => String.eqb (fst k) col)
                pair_column [] (f_columns df)) as P.
  simpl in P.
  destruct (positions _ (f_columns df) 0) as [|n ns] eqn:E; [discriminate|].
  intros H. injection H as <-. cbn [f_columns]. rewrite <- P. reflexivity.
Qed.

Lemma filter_nil_existsb {A : Type} (p : A -> bool) (l : list A) :
  filter p l = [] <-> existsb p l = false.
Proof.
  induction l as [|x l IH]; simpl; [tauto|].
  destruct (p x); simpl; [split; discriminate | exact IH].
Qed.

Lemma getitem_level0_ok (df : DataFrame) (col : string) :
  is_ok (getitem_level0 df col)
  = existsb (fun c => String.eqb (fst (fst c)) col) (f_columns df).
Proof.
  unfold getitem_level0.
  destruct (positions _ (f_columns df) 0) as [|n ns] eqn:E; simpl.
  - apply positions_nil in E. symmetry.
    apply (filter_nil_existsb (fun c : string * string * dtype =>
                                 String.eqb (fst (fst c)) col)).
    exact E.
  - destruct (existsb _ (f_columns df)) eqn:X; [reflexivity|].
    apply (filter_nil_existsb (fun c : string * string * dtype =>
                                 String.eqb (fst (fst c)) col)) in X.
    apply (positions_nil (fun k : string * string => String.eqb (fst k) col)
             (f_columns df) 0) in X.
    congruence.
Qed.

Lemma column_position_None (cols : list (string * dtype)) (name : string) (n : nat) :
  column_position cols name n = None
  <-> existsb (fun c => String.eqb (fst c) name) cols = false.
Proof.
  revert n; induction cols as [|c cols IH]; intros n; simpl; [tauto|].
  destruct (String.eqb (fst c) name); simpl; [split; discriminate | apply IH].
Qed.

Lemma getitem_column_ok (f : Frame string) (name : string) :
  is_ok (getitem_column f name)
  = existsb (fun c => String.eqb (fst c) name) (f_columns f).
Proof.
  unfold getitem_column.
  destruct (column_position (f_columns f) name 0) as [n|] eqn:E; simpl.
  - destruct (existsb _ (f_columns f)) eqn:X; [reflexivity|].
    apply column_position_None with (n := 0) in X. congruence.
  - symmetry. apply column_position_None with (n := 0). assumption.
Qed.

Lemma existsb_filter {A : Type} (p q : A -> bool) (l : list A) :
  existsb q (filter p l) = existsb (fun x => p x && q x) l.
Proof.
  induction l as [|x l IH]; simpl; [reflexivity|].
  destruct (p x); simpl; rewrite IH; reflexivity.
Qed.

Lemma existsb_map {A B : Type} (g : A -> B) (q : B -> bool) (l : list A) :
  existsb q (map g l) = existsb (fun x => q (g x)) l.
Proof.
  induction l as [|x l IH]; simpl; [reflexivity|]. rewrite IH. reflexivity.
Qed.

(** Reading the 'Nomad ID' column succeeds exactly when the header has it. *)
Lemma nomad_id_column_ok (df : DataFrame) :
  is_ok (info <- getitem_level0 df "Experiment Info" ;;
         ids <- getitem_column info "Nomad ID" ;;
         Ok (dropna ids))
  = has_nomad_id_column df.
Proof.
  unfold has_nomad_id_column.
  destruct (getitem_level0 df "Experiment Info") as [info|e] eqn:E; simpl.
  - pose proof (getitem_column_ok info "Nomad ID") as C.
    rewrite (getitem_level0_columns _ _ _ E), existsb_map, existsb_filter in C.
    simpl in C. rewrite <- C.
    destruct (getitem_column info "Nomad ID"); reflexivity.
  - pose proof (getitem_level0_ok df "Experiment Info") as L.
    rewrite E in L. simpl in L. symmetry.
    clear E. induction (f_columns df) as [|c cols IH]; simpl in *; [reflexivity|].
    symmetry in L. apply orb_false_iff in L. destruct L as [L1 L2].
    rewrite L1. simpl. apply IH. symmetry. exact L2.
Qed.

(** ** C7: which files the parser accepts *)

(** C7. Once the matching of the base class has accepted the file,
    [is_mainfile] never raises: it returns False when reading the
    spreadsheet fails and when the table has no 'Nomad ID' column under
    'Experiment Info', and True exactly when the file could be read and
    has that column. *)
Theorem is_mainfile_rejects_unreadable (is_mainfile_super : bool)
    (read : result DataFrame) :
  is_mainfile (Ok is_mainfile_super) read
  = Ok (is_mainfile_super
        && match read with
           | Ok df => has_nomad_id_column df
           | Raise _ => false
           end).
Proof.
  unfold is_mainfile. simpl.
  destruct is_mainfile_super; simpl; [|reflexivity].
  destruct read as [df|e]; simpl; [|reflexivity].
  pose proof (nomad_id_column_ok df) as N.
  destruct (info <- getitem_level0 df "Experiment Info" ;;
            ids <- getitem_column info "Nomad ID" ;; Ok (dropna ids));
    simpl in N; rewrite <- N; reflexivity.
Qed.

(** ** The loops of [parse] only append *)

Lemma foldM_append {A B : Type} (body : A -> list B -> result (list B))
    (g : A -> result (list B)) (l : list A) (acc : list B) :
  (forall x acc, body x acc = (new <- g x ;; Ok (acc ++ new))) ->
  foldM body l acc = (news <- mapM g l ;; Ok (acc ++ List.concat news)).
Proof.
  intros Hb. revert acc. induction l as [|x l IH]; intros acc; simpl.
  - rewrite app_nil_r. reflexivity.
  - rewrite Hb. destruct (g x) as [new|e]; simpl; [|reflexivity].
    rewrite IH. destruct (mapM g l) as [news|e]; simpl; [|reflexivity].
    rewrite app_assoc. reflexivity.
Qed.

Section LoopFacts.
Context {RT : Runtime}.

Lemma append_if_app {A : Type} (word col : string) (wrap : A -> entry)
    (f : result (string * A)) (acc : list (value * entry)) :
  append_if word col wrap f acc
  = (new <- append_if word col wrap f [] ;; Ok (acc ++ new)).
Proof.
  unfold append_if. destruct (contains word col); simpl.
  - destruct f; reflexivity.
  - rewrite app_nil_r. reflexivity.
Qed.

(** Chaining two appending steps gives an appending step. *)
Lemma append_step_chain {B : Type} (f1 f2 : list B -> result (list B)) :
  (forall acc, f1 acc = (new <- f1 [] ;; Ok (acc ++ new))) ->
  (forall acc, f2 acc = (new <- f2 [] ;; Ok (acc ++ new))) ->
  forall acc,
    (a <- f1 acc ;; f2 a)
    = (new <- (a <- f1 [] ;; f2 a) ;; Ok (acc ++ new)).
Proof.
  intros H1 H2 acc. rewrite H1.
  destruct (f1 []) as [n1|e]; simpl; [|reflexivity].
  rewrite (H2 (acc ++ n1)), (H2 n1).
  destruct (f2 []) as [n2|e]; simpl; [|reflexivity].
  rewrite app_assoc. reflexivity.
Qed.

Lemma process_row_app (i : nat) (col : string) (j : nat) (lab_ids : list value)
    (row : Series) (upload_id : string) (acc : list (value * entry)) :
  process_row i col j lab_ids row upload_id acc
  = (new <- process_row i col j lab_ids row upload_id [] ;; Ok (acc ++ new)).
Proof.
  unfold process_row.
  revert acc.
  apply append_step_chain; [intros; apply append_if_app|].
  apply append_step_chain; [intros; apply append_if_app|].
  intros acc. destruct (material_missing row).
  - simpl. rewrite app_nil_r. reflexivity.
  - revert acc.
    apply append_step_chain; [intros; apply append_if_app|].
    apply append_step_chain; [intros; apply append_if_app|].
    apply append_step_chain; [intros; apply append_if_app|].
    apply append_step_chain; [intros; apply append_if_app|].
    apply append_step_chain; [intros; apply append_if_app|].
    intros; apply append_if_app.
Qed.

Lemma process_group_app (df : DataFrame) (upload_id : string) (i : nat)
    (col : string) (acc : list (value * entry)) :
  String.eqb col "Experiment Info" = false ->
  process_group df upload_id i col acc
  = (new <- group_records df upload_id (i, col) ;; Ok (acc ++ new)).
Proof.
  intros Hc. unfold process_group, group_records. simpl. rewrite Hc.
  destruct (getitem_level0 df col) as [group|e]; simpl; [|reflexivity].
  rewrite (foldM_append _ (row_records df upload_id i col)).
  - destruct (mapM _ _); reflexivity.
  - intros jr a. unfold row_records.
    destruct (lab_ids_of df col (snd jr)) as [ids|e]; simpl; [|reflexivity].
    apply process_row_app.
Qed.

(** The third loop of [parse] appends, group by group, what [group_records] gives. *)
Lemma build_processes_app (df : DataFrame) (upload_id : string)
    (acc : list (value * entry)) :
  build_processes df upload_id acc
  = (news <- mapM (group_records df upload_id) (enumerate (level0_names df)) ;;
     Ok (acc ++ List.concat news)).
Proof.
  unfold build_processes. apply foldM_append.
  intros [i col] a. simpl.
  destruct (String.eqb col "Experiment Info") eqn:E.
  - unfold group_records. simpl. rewrite E. simpl. rewrite app_nil_r. reflexivity.
  - apply process_group_app. exact E.
Qed.

(** What a successful [parse] went through. *)
Lemma parse_Ok_inv (upload_id : string) (df : DataFrame) (out : parsed) :
  parse upload_id df = Ok out ->
  exists info ids batch_id substrates samples groups,
    getitem_level0 df "Experiment Info" = Ok info
    /\ getitem_column info "Nomad ID" = Ok ids
    /\ batch_id_of (dropna ids) = Ok batch_id
    /\ build_substrates info = Ok substrates
    /\ build_samples info substrates upload_id = Ok samples
    /\ mapM (group_records df upload_id) (enumerate (level0_names df)) = Ok groups
    /\ created out
       = map (fun s => (archive_file (VStr (fst (fst s))), ESubstrate (snd s)))
             substrates
         ++ map (fun a => (archive_file (fst a), snd a))
                ((VStr batch_id, snd (map_batch (dropna ids) batch_id upload_id))
                 :: samples ++ List.concat groups)
    /\ processed_archive out
       = map (fun f => get_reference upload_id (fst f)) (created out).
Proof.
  unfold parse. intros H.
  apply bind_Ok in H. destruct H as [info [Hinfo H]].
  apply bind_Ok in H. destruct H as [ids [Hids H]].
  apply bind_Ok in H. destruct H as [batch_id [Hb H]].
  apply bind_Ok in H. destruct H as [substrates [Hsub H]].
  apply bind_Ok in H. destruct H as [samples [Hsam H]].
  apply bind_Ok in H. destruct H as [archives [Har H]].
  rewrite build_processes_app in Har.
  apply bind_Ok in Har. destruct Har as [groups [Hg Har]].
  injection Har as <-. injection H as <-.
  exists info, ids, batch_id, substrates, samples, groups. simpl.
  repeat split; auto.
Qed.

End LoopFacts.

(** ** C8: [map_evaporation] and the 'Organic' cell *)

Lemma bind_Ok_l {A B : Type} (a : A) (k : A -> result B) : bind (Ok a) k = k a.
Proof. reflexivity. Qed.

Section EvaporationFacts.
Context {RT : Runtime}.

Lemma text_of_str (data : Series) (key d : string) :
  exists s, text_of data key (VStr d) = VStr s.
Proof.
  unfold text_of. destruct (series_get data key) as [v|]; [|eauto].
  destruct (isna v); eauto.
Qed.

Lemma map_layer_Ok (data : Series) :
  map_layer data
  = Ok [ {| LayerProperties.layer_type := text_of data "Layer type" VNone;
            LayerProperties.layer_material_name :=
              text_of data "Material name" VNone |} ].
Proof. unfold map_layer. rewrite !get_value_text. reflexivity. Qed.

Lemma organic_starts_eq (data : Series) (a b : string) :
  organic_starts data a b
  = Ok (startswith (organic_form data) a || startswith (organic_form data) b).
Proof.
  unfold organic_starts, organic_form. rewrite get_value_text, bind_Ok_l.
  destruct (text_of_str data "Organic" "") as [s E]. rewrite E.
  cbn [lower_startswith bind].
  destruct (startswith (lower s) a); reflexivity.
Qed.

(** The steps of the mapper up to the choice of the section. *)
Ltac eval_text :=
  repeat first
    [ rewrite get_value_text
    | rewrite map_layer_Ok
    | rewrite organic_starts_eq
    | rewrite bind_Ok_l ];
  cbv beta.

(** C8 (as amended). When the text of the 'Organic' cell, stripped of the
    blanks around it and put in lower case, starts with none of 'y', 'n',
    '0', '1' (an absent or missing cell has the empty text),
    [map_evaporation] raises: AttributeError from setting an attribute on
    None, unless reading 'Thickness [nm]' just before has raised already.
    So a call that returns has an 'Organic' cell of one of the four kinds. *)
Theorem map_evaporation_needs_organic (i j : nat) (lab_ids : list value)
    (data : Series) (upload_id : string) :
  (organic_known data = false ->
     exists e, map_evaporation i j lab_ids data upload_id = Raise e
               /\ (num_ok data "Thickness [nm]" = true -> e = AttributeError))
  /\ (forall r, map_evaporation i j lab_ids data upload_id = Ok r ->
        organic_known data = true).
Proof.
  assert (K : organic_known data = false ->
              exists e, map_evaporation i j lab_ids data upload_id = Raise e
                /\ (num_ok data "Thickness [nm]" = true -> e = AttributeError)).
  { intros H. unfold organic_known in H.
    apply orb_false_iff in H. destruct H as [H H1].
    apply orb_false_iff in H. destruct H as [H H0].
    apply orb_false_iff in H. destruct H as [Hy Hn].
    unfold map_evaporation.
    rewrite get_value_text, bind_Ok_l.
    destruct (text_of_str data "Material name" "") as [m ->].
    simpl str_add. eval_text.
    rewrite Hn, H0, Hy, H1. simpl orb. cbv iota. eval_text.
    rewrite num_ok_get_value.
    destruct (get_value data "Thickness [nm]" VNone true) as [t|e].
    - exists AttributeError. split; reflexivity.
    - exists e. split; [reflexivity|]. simpl. discriminate. }
  split; [exact K|].
  intros r H. destruct (organic_known data) eqn:E; [reflexivity|].
  destruct (K eq_refl) as [e [He _]]. congruence.
Qed.

End EvaporationFacts.

(** ** C4, C5, C10: [map_spin_coating] *)

Lemma filter_mapM_In {A B : Type} (c : A -> result bool) (f : A -> result B)
    (l : list A) (r : list B) :
  filter_mapM c f l = Ok r ->
  forall y, In y r -> exists x, In x l /\ c x = Ok true /\ f x = Ok y.
Proof.
  revert r; induction l as [|x l IH]; simpl; intros r H y Hy.
  - injection H as <-. destruct Hy.
  - apply bind_Ok in H. destruct H as [b [Hc H]].
    destruct b.
    + apply bind_Ok in H. destruct H as [y0 [Hf H]].
      apply bind_Ok in H. destruct H as [ys [Hr H]].
      injection H as <-. destruct Hy as [<-|Hy].
      * exists x. auto.
      * destruct (IH _ Hr _ Hy) as [x' [Hin Hx']]. exists x'. auto.
    + destruct (IH _ H _ Hy) as [x' [Hin Hx']]. exists x'. auto.
Qed.

(** A comprehension that returns keeps, in order, the elements whose
    condition holds. *)
Lemma filter_mapM_filter {A B : Type} (c : A -> result bool) (f : A -> result B)
    (c' : A -> bool) (f' : A -> B) (l : list A) (r : list B) :
  (forall x b, c x = Ok b -> c' x = b) ->
  (forall x y, f x = Ok y -> f' x = y) ->
  filter_mapM c f l = Ok r ->
  r = map f' (filter c' l).
Proof.
  intros Hc Hf. revert r; induction l as [|x l IH]; simpl; intros r H.
  - injection H as <-. reflexivity.
  - apply bind_Ok in H. destruct H as [b [Hcx H]].
    rewrite (Hc _ _ Hcx). destruct b.
    + apply bind_Ok in H. destruct H as [y0 [Hfx H]].
      apply bind_Ok in H. destruct H as [ys [Hr H]].
      injection H as <-. simpl. rewrite (Hf _ _ Hfx). f_equal. apply IH, Hr.
    + apply IH, H.
Qed.

Section SpinCoatingFacts.
Context {RT : Runtime}.

Lemma get_value_stored (data : Series) (key : string) (factor : float) (v : value) :
  get_value data key VNone true = Ok v ->
  stored_quantity data key factor (convert_quantity v factor).
Proof.
  unfold get_value, stored_quantity.
  destruct (series_get data key) as [c|].
  - destruct (isna c).
    + intros H. injection H as <-. reflexivity.
    + intros H. apply bind_Ok in H. destruct H as [f [Hf H]].
      injection H as <-. exists f. split; [exact Hf | reflexivity].
  - intros H. injection H as <-. reflexivity.
Qed.

Lemma map_annealing_time (data : Series) (an : Annealing.t) :
  map_annealing data = Ok an ->
  stored_quantity data "Annealing time [min]" f60 (Annealing.time an).
Proof.
  unfold map_annealing. intros H.
  apply bind_Ok in H. destruct H as [temp [_ H]].
  apply bind_Ok in H. destruct H as [t [Ht H]].
  apply bind_Ok in H. destruct H as [atm [_ H]].
  injection H as <-. simpl. apply get_value_stored. exact Ht.
Qed.

Lemma map_solutions_quantities (data : Series) (sol : Solution.t) :
  map_solutions data = Ok sol ->
  (forall sc, In sc (Solution.solvent sol) ->
     exists solvent,
       In solvent (sorted_set (columns_starting "solvent" data))
       /\ stored_quantity data (solvent +++ " volume [uL]") milli
            (SolutionChemical.chemical_volume sc))
  /\ (forall sc, In sc (Solution.solute sol) ->
        exists solute,
          In solute (sorted_set (columns_starting "solute" data))
          /\ stored_quantity data (solute +++ " Concentration [mM]") milli
               (SolutionChemical.concentration_mol sc)).
Proof.
  unfold map_solutions. intros H.
  apply bind_Ok in H. destruct H as [solvents [Hs H]].
  apply bind_Ok in H. destruct H as [solutes [Hu H]].
  injection H as <-. simpl. split; intros sc Hin.
  - destruct (filter_mapM_In _ _ _ _ Hs _ Hin) as [x [Hx [_ Hf]]].
    exists x. split; [exact Hx|].
    apply bind_Ok in Hf. destruct Hf as [n [_ Hf]].
    apply bind_Ok in Hf. destruct Hf as [v [Hv Hf]].
    injection Hf as <-. simpl. apply get_value_stored. exact Hv.
  - destruct (filter_mapM_In _ _ _ _ Hu _ Hin) as [x [Hx [_ Hf]]].
    exists x. split; [exact Hx|].
    apply bind_Ok in Hf. destruct Hf as [n [_ Hf]].
    apply bind_Ok in Hf. destruct Hf as [v [Hv Hf]].
    injection Hf as <-. simpl. apply get_value_stored. exact Hv.
Qed.

Lemma map_recipe_steps_filter (data : Series) (steps : list SpinCoatingRecipeSteps.t) :
  map_recipe_steps data = Ok steps ->
  steps = map (step_of data)
              (filter (fun step => nonzero_number data (rotation_time_key step))
                      recipe_suffixes).
Proof.
  unfold map_recipe_steps. apply filter_mapM_filter.
  - intros step b H. apply bind_Ok in H. destruct H as [v [Hv H]].
    injection H as <-. unfold nonzero_number. rewrite (number_of_Ok _ _ _ Hv).
    reflexivity.
  - intros step y H.
    apply bind_Ok in H. destruct H as [sp [Hsp H]].
    apply bind_Ok in H. destruct H as [t [Ht H]].
    apply bind_Ok in H. destruct H as [acc [Hacc H]].
    injection H as <-. unfold step_of.
    rewrite (number_of_Ok _ _ _ Hsp), (number_of_Ok _ _ _ Ht),
      (number_of_Ok _ _ _ Hacc). reflexivity.
Qed.

(** The record the constructor call builds. *)
Lemma new_spin_coating_fields (i : nat) (lab_ids : list value) (data : Series)
    (upload_id : string) (a : peroTF_SpinCoating.t) :
  new_spin_coating i lab_ids data upload_id = Ok a ->
  peroTF_SpinCoating.quenching a = None
  /\ peroTF_SpinCoating.samples a = sample_refs upload_id lab_ids
  /\ map_annealing data = Ok (peroTF_SpinCoating.annealing a)
  /\ map_precursor data = Ok (peroTF_SpinCoating.solution a)
  /\ map_recipe_steps data = Ok (peroTF_SpinCoating.recipe_steps a).
Proof.
  unfold new_spin_coating. intros H.
  apply bind_Ok in H. destruct H as [m [_ H]].
  apply bind_Ok in H. destruct H as [name [_ H]].
  apply bind_Ok in H. destruct H as [loc [_ H]].
  apply bind_Ok in H. destruct H as [descr [_ H]].
  apply bind_Ok in H. destruct H as [layer [_ H]].
  apply bind_Ok in H. destruct H as [sol [Hsol H]].
  apply bind_Ok in H. destruct H as [an [Han H]].
  apply bind_Ok in H. destruct H as [steps [Hsteps H]].
  injection H as <-. simpl. auto.
Qed.

Lemma attach_anti_solvent_spec (data : Series) (a a' : peroTF_SpinCoating.t) :
  attach_anti_solvent data a = Ok a' ->
  same_body a a'
  /\ if has_text data "Anti solvent name"
     then is_anti_solvent (peroTF_SpinCoating.quenching a') = true
     else a' = a.
Proof.
  unfold attach_anti_solvent, has_text. rewrite get_value_text, bind_Ok_l.
  destruct (truthy (text_of data "Anti solvent name" VNone)).
  - intros H.
    apply bind_Ok in H. destruct H as [vol [_ H]].
    apply bind_Ok in H. destruct H as [t [_ H]].
    apply bind_Ok in H. destruct H as [h [_ H]].
    apply bind_Ok in H. destruct H as [r [_ H]].
    rewrite bind_Ok_l in H. injection H as <-.
    split; [repeat split | reflexivity].
  - intros H. injection H as <-. split; [repeat split | reflexivity].
Qed.

Lemma attach_vacuum_spec (data : Series) (a a' : peroTF_SpinCoating.t) :
  attach_vacuum data a = Ok a' ->
  same_body a a'
  /\ if has_text data "Vacuum quenching duration [s]"
     then is_vacuum (peroTF_SpinCoating.quenching a') = true
     else a' = a.
Proof.
  unfold attach_vacuum, has_text. rewrite get_value_text, bind_Ok_l.
  destruct (truthy (text_of data "Vacuum quenching duration [s]" VNone)).
  - intros H.
    apply bind_Ok in H. destruct H as [st [_ H]].
    apply bind_Ok in H. destruct H as [d [_ H]].
    apply bind_Ok in H. destruct H as [p [_ H]].
    injection H as <-.
    split; [repeat split | reflexivity].
  - intros H. injection H as <-. split; [repeat split | reflexivity].
Qed.

Lemma attach_gas_spec (data : Series) (a a' : peroTF_SpinCoating.t) :
  attach_gas data a = Ok a' ->
  same_body a a'
  /\ if has_text data "Gas"
     then is_gas (peroTF_SpinCoating.quenching a') = true
     else a' = a.
Proof.
  unfold attach_gas, has_text. rewrite !get_value_text, bind_Ok_l.
  destruct (truthy (text_of data "Gas" VNone)).
  - intros H.
    apply bind_Ok in H. destruct H as [sd [_ H]].
    apply bind_Ok in H. destruct H as [fr [_ H]].
    apply bind_Ok in H. destruct H as [h [_ H]].
    apply bind_Ok in H. destruct H as [d [_ H]].
    apply bind_Ok in H. destruct H as [p [_ H]].
    apply bind_Ok in H. destruct H as [v [_ H]].
    rewrite !bind_Ok_l in H. injection H as <-.
    split; [repeat split | reflexivity].
  - intros H. injection H as <-. split; [repeat split | reflexivity].
Qed.

(** The steps of a call of [map_spin_coating] that returns. *)
Lemma map_spin_coating_Ok_inv (i j : nat) (lab_ids : list value) (data : Series)
    (upload_id : string) (k : string) (a : peroTF_SpinCoating.t) :
  map_spin_coating i j lab_ids data upload_id = Ok (k, a) ->
  exists a0 a1 a2,
    new_spin_coating i lab_ids data upload_id = Ok a0
    /\ attach_anti_solvent data a0 = Ok a1
    /\ attach_vacuum data a1 = Ok a2
    /\ attach_gas data a2 = Ok a.
Proof.
  unfold map_spin_coating. intros H.
  apply bind_Ok in H. destruct H as [a0 [H0 H]].
  apply bind_Ok in H. destruct H as [a1 [H1 H]].
  apply bind_Ok in H. destruct H as [a2 [H2 H]].
  apply bind_Ok in H. destruct H as [a3 [H3 H]].
  apply bind_Ok in H. destruct H as [m [_ H]].
  injection H as _ <-. exists a0, a1, a2. auto.
Qed.

End SpinCoatingFacts.

Section SpinCoatingClaims.
Context {RT : Runtime}.

(** C4 (as amended). When [map_spin_coating] returns, the annealing time it
    stored is None for an absent or missing 'Annealing time [min]' cell and
    otherwise [float(cell) * 60]; every solvent (solute) it stored belongs
    to a name gathered from the 'Solvent ...' ('Solute ...') columns and
    keeps of that name's 'volume [uL]' ('Concentration [mM]') cell None when
    the cell is absent or missing and otherwise [float(cell) * (1 / 1000)].
    When the annealing time cell holds a value that [float] rejects,
    [map_spin_coating] raises instead of storing None. *)
Theorem spin_coating_unit_conversion (i j : nat) (lab_ids : list value)
    (data : Series) (upload_id : string) :
  (forall k a,
     map_spin_coating i j lab_ids data upload_id = Ok (k, a) ->
     stored_quantity data "Annealing time [min]" f60
       (Annealing.time (peroTF_SpinCoating.annealing a))
     /\ (forall p sc,
           In p (peroTF_SpinCoating.solution a) ->
           In sc (Solution.solvent (PrecursorSolution.solution_details p)) ->
           exists solvent,
             In solvent (sorted_set (columns_starting "solvent" data))
             /\ stored_quantity data (solvent +++ " volume [uL]") milli
                  (SolutionChemical.chemical_volume sc))
     /\ (forall p sc,
           In p (peroTF_SpinCoating.solution a) ->
           In sc (Solution.solute (PrecursorSolution.solution_details p)) ->
           exists solute,
             In solute (sorted_set (columns_starting "solute" data))
             /\ stored_quantity data (solute +++ " Concentration [mM]") milli
                  (SolutionChemical.concentration_mol sc)))
  /\ (forall v e,
        series_get data "Annealing time [min]" = Some v ->
        isna v = false ->
        py_float v = Raise e ->
        exists e', map_spin_coating i j lab_ids data upload_id = Raise e').
Proof.
  assert (K : forall k a,
     map_spin_coating i j lab_ids data upload_id = Ok (k, a) ->
     stored_quantity data "Annealing time [min]" f60
       (Annealing.time (peroTF_SpinCoating.annealing a))
     /\ (forall p sc,
           In p (peroTF_SpinCoating.solution a) ->
           In sc (Solution.solvent (PrecursorSolution.solution_details p)) ->
           exists solvent,
             In solvent (sorted_set (columns_starting "solvent" data))
             /\ stored_quantity data (solvent +++ " volume [uL]") milli
                  (SolutionChemical.chemical_volume sc))
     /\ (forall p sc,
           In p (peroTF_SpinCoating.solution a) ->
           In sc (Solution.solute (PrecursorSolution.solution_details p)) ->
           exists solute,
             In solute (sorted_set (columns_starting "solute" data))
             /\ stored_quantity data (solute +++ " Concentration [mM]") milli
                  (SolutionChemical.concentration_mol sc))).
  { intros k a H.
    destruct (map_spin_coating_Ok_inv _ _ _ _ _ _ _ H)
      as (a0 & a1 & a2 & H0 & H1 & H2 & H3).
    destruct (new_spin_coating_fields _ _ _ _ _ H0) as (_ & _ & Han & Hsol & _).
    destruct (attach_anti_solvent_spec _ _ _ H1) as ((_ & An1 & So1 & _) & _).
    destruct (attach_vacuum_spec _ _ _ H2) as ((_ & An2 & So2 & _) & _).
    destruct (attach_gas_spec _ _ _ H3) as ((_ & An3 & So3 & _) & _).
    rewrite An3, An2, An1, So3, So2, So1.
    split; [apply map_annealing_time; exact Han|].
    unfold map_precursor in Hsol.
    apply bind_Ok in Hsol. destruct Hsol as [d [Hd Hsol]].
    apply bind_Ok in Hsol. destruct Hsol as [v [_ Hsol]].
    injection Hsol as Hsol. rewrite <- Hsol.
    destruct (map_solutions_quantities _ _ Hd) as [Q1 Q2].
    split; intros p sc [<-|[]] Hsc; simpl in Hsc; auto. }
  split; [exact K|].
  intros v e Hv Hna Hf.
  destruct (map_spin_coating i j lab_ids data upload_id) as [[k a]|e'] eqn:E;
    [|exists e'; reflexivity].
  destruct (K k a eq_refl) as [S _]. unfold stored_quantity in S.
  rewrite Hv, Hna in S. destruct S as [f [Hf' _]]. congruence.
Qed.

(** C5 (as amended). In a call of [map_spin_coating] that returns, the
    record starts without quenching; the first [if] leaves an anti-solvent
    section exactly when the 'Anti solvent name' cell has a text that is not
    empty once stripped, the second a vacuum section exactly when
    'Vacuum quenching duration [s]' has one, the third a gas section exactly
    when 'Gas' has one; and the recipe has a step for exactly the suffixes
    whose 'Rotation time' cell converts to a number other than zero. *)
Theorem spin_coating_optional_sections (i j : nat) (lab_ids : list value)
    (data : Series) (upload_id : string) (k : string) (a : peroTF_SpinCoating.t) :
  map_spin_coating i j lab_ids data upload_id = Ok (k, a) ->
  exists a0 a1 a2,
    new_spin_coating i lab_ids data upload_id = Ok a0
    /\ peroTF_SpinCoating.quenching a0 = None
    /\ attach_anti_solvent data a0 = Ok a1
    /\ is_anti_solvent (peroTF_SpinCoating.quenching a1)
       = has_text data "Anti solvent name"
    /\ attach_vacuum data a1 = Ok a2
    /\ is_vacuum (peroTF_SpinCoating.quenching a2)
       = has_text data "Vacuum quenching duration [s]"
    /\ attach_gas data a2 = Ok a
    /\ is_gas (peroTF_SpinCoating.quenching a) = has_text data "Gas"
    /\ peroTF_SpinCoating.recipe_steps a
       = map (step_of data)
             (filter (fun step => nonzero_number data (rotation_time_key step))
                     recipe_suffixes).
Proof.
  intros H.
  destruct (map_spin_coating_Ok_inv _ _ _ _ _ _ _ H)
    as (a0 & a1 & a2 & H0 & H1 & H2 & H3).
  destruct (new_spin_coating_fields _ _ _ _ _ H0) as (Q0 & _ & _ & _ & Hst).
  destruct (attach_anti_solvent_spec _ _ _ H1) as ((_ & _ & _ & R1) & C1).
  destruct (attach_vacuum_spec _ _ _ H2) as ((_ & _ & _ & R2) & C2).
  destruct (attach_gas_spec _ _ _ H3) as ((_ & _ & _ & R3) & C3).
  exists a0, a1, a2. repeat split; auto.
  - destruct (has_text data "Anti solvent name"); [exact C1|].
    subst a1. rewrite Q0. reflexivity.
  - destruct (has_text data "Vacuum quenching duration [s]"); [exact C2|].
    subst a2. destruct (has_text data "Anti solvent name").
    + destruct (peroTF_SpinCoating.quenching a1) as [[q|q|q]|];
        simpl in C1; try discriminate; reflexivity.
    + subst a1. rewrite Q0. reflexivity.
  - destruct (has_text data "Gas"); [exact C3|].
    subst a. destruct (has_text data "Vacuum quenching duration [s]").
    + destruct (peroTF_SpinCoating.quenching a2) as [[q|q|q]|];
        simpl in C2; try discriminate; reflexivity.
    + subst a2. destruct (has_text data "Anti solvent name").
      * destruct (peroTF_SpinCoating.quenching a1) as [[q|q|q]|];
          simpl in C1; try discriminate; reflexivity.
      * subst a1. rewrite Q0. reflexivity.
  - rewrite R3, R2, R1. apply map_recipe_steps_filter. exact Hst.
Qed.

(** C10 (as amended). The record [map_spin_coating] returns holds at most
    one quenching section, the last applicable one in the order
    anti-solvent, vacuum, gas, where a group applies when its cell
    ('Anti solvent name', 'Vacuum quenching duration [s]', 'Gas') has a
    text that is not empty once stripped: a gas section when 'Gas' applies;
    else a vacuum section when the vacuum duration applies; else an
    anti-solvent section when the anti-solvent name applies; else none. *)
Theorem spin_coating_quenching_order (i j : nat) (lab_ids : list value)
    (data : Series) (upload_id : string) (k : string) (a : peroTF_SpinCoating.t) :
  map_spin_coating i j lab_ids data upload_id = Ok (k, a) ->
  match peroTF_SpinCoating.quenching a with
  | Some (QGas _) => has_text data "Gas" = true
  | Some (QVacuum _) =>
      has_text data "Gas" = false
      /\ has_text data "Vacuum quenching duration [s]" = true
  | Some (QAntiSolvent _) =>
      has_text data "Gas" = false
      /\ has_text data "Vacuum quenching duration [s]" = false
      /\ has_text data "Anti solvent name" = true
  | None =>
      has_text data "Gas" = false
      /\ has_text data "Vacuum quenching duration [s]" = false
      /\ has_text data "Anti solvent name" = false
  end.
Proof.
  intros H.
  destruct (map_spin_coating_Ok_inv _ _ _ _ _ _ _ H)
    as (a0 & a1 & a2 & H0 & H1 & H2 & H3).
  destruct (new_spin_coating_fields _ _ _ _ _ H0) as (Q0 & _).
  destruct (attach_anti_solvent_spec _ _ _ H1) as (_ & C1).
  destruct (attach_vacuum_spec _ _ _ H2) as (_ & C2).
  destruct (attach_gas_spec _ _ _ H3) as (_ & C3).
  destruct (has_text data "Gas").
  - destruct (peroTF_SpinCoating.quenching a) as [[q|q|q]|];
      simpl in C3; try discriminate; reflexivity.
  - subst a. destruct (has_text data "Vacuum quenching duration [s]").
    + destruct (peroTF_SpinCoating.quenching a2) as [[q|q|q]|];
        simpl in C2; try discriminate; auto.
    + subst a2. destruct (has_text data "Anti solvent name").
      * destruct (peroTF_SpinCoating.quenching a1) as [[q|q|q]|];
          simpl in C1; try discriminate; auto.
      * subst a1. rewrite Q0. auto.
Qed.

End SpinCoatingClaims.

(** *** The spin coating claims on the example rows *)

Lemma spin_coating_unit_conversion_witness :
  (exists k a,
     map_spin_coating (RT := Demo.runtime) 1 0 [] Examples.row_numbers "up" = Ok (k, a)
     /\ stored_quantity (RT := Demo.runtime) Examples.row_numbers
          "Annealing time [min]" f60
          (Annealing.time (peroTF_SpinCoating.annealing a))
     /\ (forall p sc,
           In p (peroTF_SpinCoating.solution a) ->
           In sc (Solution.solvent (PrecursorSolution.solution_details p)) ->
           exists solvent,
             In solvent (sorted_set (columns_starting "solvent" Examples.row_numbers))
             /\ stored_quantity (RT := Demo.runtime) Examples.row_numbers
                  (solvent +++ " volume [uL]") milli
                  (SolutionChemical.chemical_volume sc))
     /\ (forall p sc,
           In p (peroTF_SpinCoating.solution a) ->
           In sc (Solution.solute (PrecursorSolution.solution_details p)) ->
           exists solute,
             In solute (sorted_set (columns_starting "solute" Examples.row_numbers))
             /\ stored_quantity (RT := Demo.runtime) Examples.row_numbers
                  (solute +++ " Concentration [mM]") milli
                  (SolutionChemical.concentration_mol sc)))
  /\ (exists e',
        map_spin_coating (RT := Demo.runtime) 1 0 [] Examples.row_text_time "up"
        = Raise e').
Proof.
  split.
  - destruct (spin_coating_unit_conversion (RT := Demo.runtime) 1 0 []
                Examples.row_numbers "up") as [A _].
    eexists. eexists. split; [vm_compute; reflexivity|].
    eapply A. vm_compute. reflexivity.
  - destruct (spin_coating_unit_conversion (RT := Demo.runtime) 1 0 []
                Examples.row_text_time "up") as [_ B].
    eapply (B (VStr "abc") ValueError); vm_compute; reflexivity.
Defined.

(** On that row: ten minutes are stored as 600 seconds, 500 uL as 0.5 and
    20 mM as 0.02. *)
Example row_numbers_conversions :
  match map_spin_coating (RT := Demo.runtime) 1 0 [] Examples.row_numbers "up" with
  | Ok (_, a) =>
      Annealing.time (peroTF_SpinCoating.annealing a) = VFloat 600
      /\ map (fun p =>
                (map SolutionChemical.chemical_volume
                     (Solution.solvent (PrecursorSolution.solution_details p)),
                 map SolutionChemical.concentration_mol
                     (Solution.solute (PrecursorSolution.solution_details p))))
             (peroTF_SpinCoating.solution a)
         = [([VFloat 0.5], [VFloat (20 / 1000)])]
  | Raise _ => False
  end.
Proof. vm_compute. split; reflexivity. Qed.

(** C4, counterexample. The annealing time cell holds the text 'abc', which
    is not a number; [map_spin_coating] does not store None, it raises
    ValueError. *)
Lemma annealing_text_raises :
  series_get Examples.row_text_time "Annealing time [min]" = Some (VStr "abc")
  /\ py_float (RT := Demo.runtime) (VStr "abc") = Raise ValueError
  /\ map_spin_coating (RT := Demo.runtime) 1 0 [] Examples.row_text_time "up"
     = Raise ValueError.
Proof. vm_compute. repeat split; reflexivity. Qed.

Lemma spin_coating_optional_sections_witness :
  exists k a,
    map_spin_coating (RT := Demo.runtime) 1 0 [] Examples.row_all_quenching "up"
    = Ok (k, a)
    /\ exists a0 a1 a2,
         new_spin_coating (RT := Demo.runtime) 1 [] Examples.row_all_quenching "up"
         = Ok a0
         /\ peroTF_SpinCoating.quenching a0 = None
         /\ attach_anti_solvent (RT := Demo.runtime) Examples.row_all_quenching a0
            = Ok a1
         /\ is_anti_solvent (peroTF_SpinCoating.quenching a1)
            = has_text (RT := Demo.runtime) Examples.row_all_quenching
                "Anti solvent name"
         /\ attach_vacuum (RT := Demo.runtime) Examples.row_all_quenching a1 = Ok a2
         /\ is_vacuum (peroTF_SpinCoating.quenching a2)
            = has_text (RT := Demo.runtime) Examples.row_all_quenching
                "Vacuum quenching duration [s]"
         /\ attach_gas (RT := Demo.runtime) Examples.row_all_quenching a2 = Ok a
         /\ is_gas (peroTF_SpinCoating.quenching a)
            = has_text (RT := Demo.runtime) Examples.row_all_quenching "Gas"
         /\ peroTF_SpinCoating.recipe_steps a
            = map (step_of (RT := Demo.runtime) Examples.row_all_quenching)
                  (filter (fun step =>
                             nonzero_number (RT := Demo.runtime)
                               Examples.row_all_quenching (rotation_time_key step))
                          recipe_suffixes).
Proof.
  eexists. eexists. split; [vm_compute; reflexivity|].
  eapply (spin_coating_optional_sections (RT := Demo.runtime) 1 0 []
            Examples.row_all_quenching "up").
  vm_compute. reflexivity.
Defined.

(** C5, counterexample. The cell 'Rotation time [s]' holds a number, zero,
    and the record [map_spin_coating] returns has no recipe step. *)
Lemma zero_rotation_time_no_step :
  series_get Examples.row_zero_time (rotation_time_key "") = Some (VInt 0)
  /\ match map_spin_coating (RT := Demo.runtime) 1 0 [] Examples.row_zero_time "up"
     with
     | Ok (_, a) => peroTF_SpinCoating.recipe_steps a = []
     | Raise _ => False
     end.
Proof. vm_compute. split; reflexivity. Qed.

Lemma spin_coating_quenching_order_witness :
  exists k a,
    map_spin_coating (RT := Demo.runtime) 1 0 [] Examples.row_all_quenching "up"
    = Ok (k, a)
    /\ match peroTF_SpinCoating.quenching a with
       | Some (QGas _) =>
           has_text (RT := Demo.runtime) Examples.row_all_quenching "Gas" = true
       | Some (QVacuum _) =>
           has_text (RT := Demo.runtime) Examples.row_all_quenching "Gas" = false
           /\ has_text (RT := Demo.runtime) Examples.row_all_quenching
                "Vacuum quenching duration [s]" = true
       | Some (QAntiSolvent _) =>
           has_text (RT := Demo.runtime) Examples.row_all_quenching "Gas" = false
           /\ has_text (RT := Demo.runtime) Examples.row_all_quenching
                "Vacuum quenching duration [s]" = false
           /\ has_text (RT := Demo.runtime) Examples.row_all_quenching
                "Anti solvent name" = true
       | None =>
           has_text (RT := Demo.runtime) Examples.row_all_quenching "Gas" = false
           /\ has_text (RT := Demo.runtime) Examples.row_all_quenching
                "Vacuum quenching duration [s]" = false
           /\ has_text (RT := Demo.runtime) Examples.row_all_quenching
                "Anti solvent name" = false
       end.
Proof.
  eexists. eexists. split; [vm_compute; reflexivity|].
  eapply (spin_coating_quenching_order (RT := Demo.runtime) 1 0 []
            Examples.row_all_quenching "up").
  vm_compute. reflexivity.
Defined.

(** With all three groups filled the gas section is the one kept. *)
Example row_all_quenching_keeps_gas :
  match map_spin_coating (RT := Demo.runtime) 1 0 [] Examples.row_all_quenching "up"
  with
  | Ok (_, a) => is_gas (peroTF_SpinCoating.quenching a) = true
  | Raise _ => False
  end.
Proof. vm_compute. reflexivity. Qed.

(** C10, counterexample. The 'Gas' cell is not missing (it holds a blank)
    and the row has a vacuum quenching duration; the gas group does not
    override: the record keeps the vacuum section. *)
Lemma blank_gas_keeps_vacuum :
  option_map isna (series_get Examples.row_blank_gas "Gas") = Some false
  /\ match map_spin_coating (RT := Demo.runtime) 1 0 [] Examples.row_blank_gas "up"
     with
     | Ok (_, a) =>
         peroTF_SpinCoating.quenching a
         = Some (QVacuum {| VacuumQuenching.start_time := VNone;
                            VacuumQuenching.duration := VFloat 5;
                            VacuumQuenching.pressure := VNone |})
     | Raise _ => False
     end.
Proof. vm_compute. split; reflexivity. Qed.

(** ** Every process mapper fills [samples] from [lab_ids] *)

(** Drops the leading binds of a hypothesis [... = Ok _]. *)
Ltac peel H :=
  repeat (apply bind_Ok in H;
          let x := fresh "x" in
          let E := fresh "E" in
          destruct H as [x [E H]]; clear E).

Section MapperSamples.
Context {RT : Runtime}.
Variables (i j : nat) (lab_ids : list value) (data : Series) (upload_id : string).

Lemma map_cleaning_samples (r : string * peroTF_Cleaning.t) :
  map_cleaning i j lab_ids data upload_id = Ok r ->
  peroTF_Cleaning.samples (snd r) = sample_refs upload_id lab_ids.
Proof. unfold map_cleaning. intros H. peel H. injection H as <-. reflexivity. Qed.

Lemma map_generic_samples (r : string * peroTF_Process.t) :
  map_generic i j lab_ids data upload_id = Ok r ->
  peroTF_Process.samples (snd r) = sample_refs upload_id lab_ids.
Proof. unfold map_generic. intros H. peel H. injection H as <-. reflexivity. Qed.

Lemma map_evaporation_samples (r : string * peroTF_Evaporation.t) :
  map_evaporation i j lab_ids data upload_id = Ok r ->
  peroTF_Evaporation.samples (snd r) = sample_refs upload_id lab_ids.
Proof. unfold map_evaporation. intros H. peel H. injection H as <-. reflexivity. Qed.

Lemma map_spin_coating_samples (r : string * peroTF_SpinCoating.t) :
  map_spin_coating i j lab_ids data upload_id = Ok r ->
  peroTF_SpinCoating.samples (snd r) = sample_refs upload_id lab_ids.
Proof.
  destruct r as [k a]. intros H.
  destruct (map_spin_coating_Ok_inv _ _ _ _ _ _ _ H)
    as (a0 & a1 & a2 & H0 & H1 & H2 & H3).
  destruct (new_spin_coating_fields _ _ _ _ _ H0) as (_ & S0 & _).
  destruct (attach_anti_solvent_spec _ _ _ H1) as ((S1 & _) & _).
  destruct (attach_vacuum_spec _ _ _ H2) as ((S2 & _) & _).
  destruct (attach_gas_spec _ _ _ H3) as ((S3 & _) & _).
  simpl. congruence.
Qed.

Lemma map_inkjet_printing_samples (r : string * peroTF_InkjetPrinting.t) :
  map_inkjet_printing i j lab_ids data upload_id = Ok r ->
  peroTF_InkjetPrinting.samples (snd r) = sample_refs upload_id lab_ids.
Proof.
  unfold map_inkjet_printing. intros H. peel H. injection H as <-. reflexivity.
Qed.

Lemma map_dip_coating_samples (r : string * peroTF_DipCoating.t) :
  map_dip_coating i j lab_ids data upload_id = Ok r ->
  peroTF_DipCoating.samples (snd r) = sample_refs upload_id lab_ids.
Proof.
  unfold map_dip_coating. intros H. peel H. injection H as <-. reflexivity.
Qed.

Lemma map_sputtering_samples (r : string * peroTF_Sputtering.t) :
  map_sputtering i j lab_ids data upload_id = Ok r ->
  peroTF_Sputtering.samples (snd r) = sample_refs upload_id lab_ids.
Proof.
  unfold map_sputtering. intros H. peel H. injection H as <-. reflexivity.
Qed.

Lemma map_atomic_layer_deposition_samples (r : string * peroTF_ALD.t) :
  map_atomic_layer_deposition i j lab_ids data upload_id = Ok r ->
  peroTF_ALD.samples (snd r) = sample_refs upload_id lab_ids.
Proof.
  unfold map_atomic_layer_deposition. intros H. peel H. injection H as <-.
  reflexivity.
Qed.

End MapperSamples.

(** ** Distinct rows *)

Lemma key_eqb_eq (a b : key) : key_eqb a b = true <-> a = b.
Proof.
  destruct a, b; simpl; split; intros H; try discriminate; try reflexivity.
  - apply Bool.eqb_prop in H. congruence.
  - injection H as ->. apply Bool.eqb_reflx.
  - apply andb_true_iff in H. destruct H as [H He].
    apply andb_true_iff in H. destruct H as [Hs Hm].
    apply Bool.eqb_prop in Hs. apply Pos.eqb_eq in Hm. apply Z.eqb_eq in He.
    congruence.
  - injection H as -> -> ->.
    rewrite Bool.eqb_reflx, Pos.eqb_refl, Z.eqb_refl. reflexivity.
  - apply String.eqb_eq in H. congruence.
  - injection H as ->. apply String.eqb_refl.
Qed.

(** Two rows match exactly when their cells have the same keys. *)
Lemma values_eqb_keys (a b : list value) :
  values_eqb a b = true <-> map value_key a = map value_key b.
Proof.
  revert b; induction a as [|x a IH]; intros [|y b]; simpl;
    split; intros H; try discriminate; try reflexivity.
  - apply andb_true_iff in H. destruct H as [H1 H2].
    apply key_eqb_eq in H1. apply IH in H2. congruence.
  - injection H as H1 H2. apply andb_true_iff. split.
    + apply key_eqb_eq. exact H1.
    + apply IH. exact H2.
Qed.

Lemma values_eqb_refl (a : list value) : values_eqb a a = true.
Proof. apply values_eqb_keys. reflexivity. Qed.

Lemma existsb_values_eqb (x : list value) (seen : list (list value)) :
  existsb (values_eqb x) seen = true
  <-> In (map value_key x) (map (map value_key) seen).
Proof.
  induction seen as [|y seen IH]; simpl; [split; [discriminate | tauto]|].
  rewrite orb_true_iff, IH, values_eqb_keys. split; intros [H|H]; auto.
Qed.

Lemma drop_duplicates_rows_spec (seen : list (list value))
    (rows : list (nat * list value)) :
  let kept := drop_duplicates_rows seen rows in
  (forall r, In r kept -> In r rows)
  /\ (forall r, In r rows ->
        In (map value_key (snd r)) (map (map value_key) seen)
        \/ exists r', In r' kept /\ values_eqb (snd r) (snd r') = true)
  /\ NoDup (map (fun r => map value_key (snd r)) kept)
  /\ (forall r, In r kept ->
        ~ In (map value_key (snd r)) (map (map value_key) seen)).
Proof.
  revert seen; induction rows as [|r rows IH]; intros seen; simpl.
  - repeat split; try tauto. constructor.
  - destruct (existsb (values_eqb (snd r)) seen) eqn:E.
    + destruct (IH seen) as (I1 & I2 & I3 & I4). repeat split; auto.
      intros r0 [<-|H]; [left; apply existsb_values_eqb; exact E | auto].
    + destruct (IH (snd r :: seen)) as (I1 & I2 & I3 & I4).
      assert (N : ~ In (map value_key (snd r)) (map (map value_key) seen)).
      { intros C. apply existsb_values_eqb in C. congruence. }
      repeat split.
      * intros r0 [<-|H]; [left; reflexivity | right; auto].
      * intros r0 [<-|H].
        -- right. exists r. split; [left; reflexivity | apply values_eqb_refl].
        -- destruct (I2 _ H) as [[Hk|Hk]|[r' [Hr' Hm]]].
           ++ right. exists r. split; [left; reflexivity|].
              apply values_eqb_keys. symmetry. exact Hk.
           ++ left. exact Hk.
           ++ right. exists r'. split; [right; exact Hr' | exact Hm].
      * simpl. constructor; [|exact I3].
        intros C. apply in_map_iff in C. destruct C as [r' [Hk Hr']].
        apply (I4 _ Hr'). simpl. left. symmetry. exact Hk.
      * intros r0 [<-|H]; [exact N|].
        intros C. apply (I4 _ H). simpl. right. exact C.
Qed.

(** Cells match as in Python: [1 == 1.0], [0.0 == -0.0], an [int] that no
    float holds exactly differs from the nearest float, text differs from
    numbers; and as in pandas a missing value matches a missing value. *)
Example value_eqb_examples :
  map (fun p => value_eqb (fst p) (snd p))
      [(VInt 1, VFloat 1); (VFloat 0, VFloat (- 0)); (VFloat nan, VFloat nan);
       (VInt (2 ^ 53 + 1), VFloat 9007199254740992); (VStr "1", VInt 1);
       (VNone, VFloat nan)]
  = [true; true; true; false; false; true].
Proof. vm_compute. reflexivity. Qed.

(** [drop_duplicates] keeps the distinct contents of the rows. *)
Lemma drop_duplicates_distinct {K : Type} (f : Frame K) :
  distinct_contents (f_rows f) (f_rows (drop_duplicates f)).
Proof.
  unfold distinct_contents, drop_duplicates. simpl.
  destruct (drop_duplicates_rows_spec [] (f_rows f)) as (I1 & I2 & I3 & _).
  repeat split; auto.
  intros r H. destruct (I2 _ H) as [[]|H']; exact H'.
Qed.

(** ** The records of one row and of one group *)

Section GroupFacts.
Context {RT : Runtime}.

Lemma append_if_spec {A : Type} (P : entry -> Prop) (word col : string)
    (wrap : A -> entry) (f : result (string * A))
    (acc res : list (value * entry)) :
  (forall r, f = Ok r -> P (wrap (snd r))) ->
  append_if word col wrap f acc = Ok res ->
  exists new,
    res = acc ++ new
    /\ List.length new = count_if (contains word col)
    /\ Forall (fun e => P (snd e)) new.
Proof.
  intros HP. unfold append_if. destruct (contains word col); simpl.
  - intros H. apply bind_Ok in H. destruct H as [a [Ha H]]. injection H as <-.
    eexists. split; [reflexivity|]. split; [reflexivity|].
    constructor; [|constructor]. simpl. apply HP. exact Ha.
  - intros H. injection H as <-. exists []. rewrite app_nil_r.
    repeat split. constructor.
Qed.

(** One more appending step after a prefix that is already described. *)
Lemma append_step (P : entry -> Prop) (acc new res : list (value * entry))
    (n m : nat) :
  List.length new = n -> Forall (fun e => P (snd e)) new ->
  (exists new', res = (acc ++ new) ++ new'
                /\ List.length new' = m /\ Forall (fun e => P (snd e)) new') ->
  exists new'', res = acc ++ new''
                /\ List.length new'' = n + m /\ Forall (fun e => P (snd e)) new''.
Proof.
  intros Hn HF (new' & -> & Hm & HF'). exists (new ++ new').
  rewrite app_assoc, length_app, Hn, Hm. repeat split.
  apply Forall_app. split; assumption.
Qed.

Lemma process_row_spec (i : nat) (col : string) (j : nat) (lab_ids : list value)
    (row : Series) (upload_id : string) (new : list (value * entry)) :
  process_row i col j lab_ids row upload_id [] = Ok new ->
  List.length new = keyword_count col row
  /\ Forall (fun e => samples_of (snd e) = Some (sample_refs upload_id lab_ids)) new.
Proof.
  set (P := fun e => samples_of e = Some (sample_refs upload_id lab_ids)).
  unfold process_row, keyword_count. intros H.
  apply bind_Ok in H. destruct H as [r1 [H1 H]].
  apply bind_Ok in H. destruct H as [r2 [H2 H]].
  apply (append_if_spec P) in H1;
    [|intros r Hr; unfold P; simpl; f_equal; eapply map_cleaning_samples; eauto].
  apply (append_if_spec P) in H2;
    [|intros r Hr; unfold P; simpl; f_equal; eapply map_generic_samples; eauto].
  destruct H1 as (n1 & -> & L1 & F1). simpl in H2.
  destruct H2 as (n2 & -> & L2 & F2).
  assert (G : exists new', new = (n1 ++ n2) ++ new'
              /\ List.length new'
                 = (if material_missing row then 0
                    else count_if (contains "Evaporation" col)
                         + count_if (contains "Spin Coating" col)
                         + count_if (contains "Inkjet Printing" col)
                         + count_if (contains "Dip Coating" col)
                         + count_if (contains "Sputtering" col)
                         + count_if (contains "ALD" col))
              /\ Forall (fun e => P (snd e)) new').
  { destruct (material_missing row).
    - injection H as <-. exists []. rewrite app_nil_r. repeat split. constructor.
    - apply bind_Ok in H. destruct H as [r3 [H3 H]].
      apply bind_Ok in H. destruct H as [r4 [H4 H]].
      apply bind_Ok in H. destruct H as [r5 [H5 H]].
      apply bind_Ok in H. destruct H as [r6 [H6 H]].
      apply bind_Ok in H. destruct H as [r7 [H7 H]].
      apply (append_if_spec P) in H3;
        [|intros r Hr; unfold P; simpl; f_equal;
          eapply map_evaporation_samples; eauto].
      apply (append_if_spec P) in H4;
        [|intros r Hr; unfold P; simpl; f_equal;
          eapply map_spin_coating_samples; eauto].
      apply (append_if_spec P) in H5;
        [|intros r Hr; unfold P; simpl; f_equal;
          eapply map_inkjet_printing_samples; eauto].
      apply (append_if_spec P) in H6;
        [|intros r Hr; unfold P; simpl; f_equal;
          eapply map_dip_coating_samples; eauto].
      apply (append_if_spec P) in H7;
        [|intros r Hr; unfold P; simpl; f_equal;
          eapply map_sputtering_samples; eauto].
      apply (append_if_spec P) in H;
        [|intros r Hr; unfold P; simpl; f_equal;
          eapply map_atomic_layer_deposition_samples; eauto].
      destruct H3 as (n3 & -> & L3 & F3). destruct H4 as (n4 & -> & L4 & F4).
      destruct H5 as (n5 & -> & L5 & F5). destruct H6 as (n6 & -> & L6 & F6).
      destruct H7 as (n7 & -> & L7 & F7). destruct H as (n8 & -> & L8 & F8).
      exists (n3 ++ n4 ++ n5 ++ n6 ++ n7 ++ n8).
      rewrite !length_app, L3, L4, L5, L6, L7, L8.
      repeat split.
      + rewrite <- !app_assoc. reflexivity.
      + lia.
      + repeat (apply Forall_app; split); assumption. }
  destruct G as (n3 & -> & L3 & F3).
  rewrite !length_app, L1, L2, L3. split; [lia|].
  repeat (apply Forall_app; split); assumption.
Qed.

Lemma lab_ids_of_shared (df : DataFrame) (col : string) (row : Series)
    (lab_ids : list value) :
  lab_ids_of df col row = Ok lab_ids -> shared_lab_ids df col row lab_ids.
Proof.
  unfold lab_ids_of, shared_lab_ids. intros H.
  apply bind_Ok in H. destruct H as [xs [Hxs H]].
  exists xs. split; [exact Hxs|].
  rewrite filter_mapM_pure in H. apply mapM_Ok_Forall2 in H. exact H.
Qed.

Lemma row_records_spec (df : DataFrame) (upload_id : string) (i : nat)
    (col : string) (jr : nat * Series) (new : list (value * entry)) :
  row_records df upload_id i col jr = Ok new ->
  records_of_row df upload_id col jr new.
Proof.
  unfold row_records, records_of_row. intros H.
  apply bind_Ok in H. destruct H as [lab_ids [Hl H]].
  exists lab_ids. split; [apply lab_ids_of_shared; exact Hl|].
  eapply process_row_spec. exact H.
Qed.

Lemma group_records_spec (df : DataFrame) (upload_id : string) (ic : nat * string)
    (recs : list (value * entry)) :
  group_records df upload_id ic = Ok recs ->
  records_of_group df upload_id ic recs.
Proof.
  unfold group_records, records_of_group.
  destruct (String.eqb (snd ic) "Experiment Info"); intros H.
  - injection H as <-. reflexivity.
  - apply bind_Ok in H. destruct H as [group [Hg H]].
    apply bind_Ok in H. destruct H as [news [Hn H]].
    injection H as <-. exists group, news.
    split; [exact Hg|]. split; [apply drop_duplicates_distinct|].
    split; [reflexivity|].
    apply mapM_Ok_Forall2 in Hn.
    eapply Forall2_impl; [|exact Hn].
    intros jr new Hr. eapply row_records_spec. exact Hr.
Qed.

End GroupFacts.

(** ** Substrates and samples *)

Section SubstrateFacts.
Context {RT : Runtime}.

Lemma build_substrates_spec (info : Frame string)
    (substrates : list (string * Series * peroTF_Substrate.t)) :
  build_substrates info = Ok substrates ->
  exists sub_frame,
    getitem_columns info substrates_col = Ok sub_frame
    /\ Forall2 substrate_of (not_blank (iterrows (drop_duplicates sub_frame)))
         substrates.
Proof.
  unfold build_substrates. intros H.
  apply bind_Ok in H. destruct H as [sub_frame [Hf H]].
  exists sub_frame. split; [exact Hf|].
  rewrite filter_mapM_pure in H. apply mapM_Ok_Forall2 in H.
  eapply Forall2_impl; [|exact H].
  intros r s Hs. apply bind_Ok in Hs. destruct Hs as [a [Ha Hs]].
  injection Hs as <-. exists a. auto.
Qed.

Lemma find_substrate_Some
    (substrates : list (string * Series * peroTF_Substrate.t)) (d : Series)
    (name : string) :
  find_substrate substrates d = Some name ->
  exists sub rec, In (name, sub, rec) substrates /\ equals d sub = true.
Proof.
  induction substrates as [|[[n sub] rec] rest IH]; simpl; [discriminate|].
  destruct (equals d sub) eqn:E.
  - intros H. injection H as <-. exists sub, rec. auto.
  - intros H. destruct (IH H) as (sub' & rec' & Hin & He).
    exists sub', rec'. auto.
Qed.

Lemma build_samples_spec (info : Frame string)
    (substrates : list (string * Series * peroTF_Substrate.t))
    (upload_id : string) (samples : list (value * entry)) :
  build_samples info substrates upload_id = Ok samples ->
  Forall2 (linked_sample upload_id substrates) (not_blank (iterrows info)) samples.
Proof.
  unfold build_samples. intros H.
  rewrite filter_mapM_pure in H. apply mapM_Ok_Forall2 in H.
  eapply Forall2_impl; [|exact H].
  intros r a Ha.
  apply bind_Ok in Ha. destruct Ha as [d [Hd Ha]].
  apply bind_Ok in Ha. destruct Ha as [file [Hfile Ha]].
  unfold substrate_file in Hfile.
  destruct (find_substrate substrates d) as [name|] eqn:F; [|discriminate].
  injection Hfile as <-.
  destruct (find_substrate_Some _ _ _ F) as (sub & rec & Hin & He).
  unfold map_basic_sample in Ha.
  apply bind_Ok in Ha. destruct Ha as [id [Hid Ha]].
  rewrite Hid in Ha. rewrite !bind_Ok_l in Ha.
  apply bind_Ok in Ha. destruct Ha as [descr [_ Ha]].
  injection Ha as <-.
  exists d, name, sub, rec, id, descr. auto.
Qed.

(** The entries of [samples] are sample records. *)
Lemma linked_samples_are_samples (upload_id : string)
    (substrates : list (string * Series * peroTF_Substrate.t))
    (rows : list (nat * Series)) (samples : list (value * entry)) :
  Forall2 (linked_sample upload_id substrates) rows samples ->
  Forall (fun a => is_sample (snd a) = true) samples.
Proof.
  induction 1 as [|r a rows samples Ha _ IH]; constructor; [|exact IH].
  destruct Ha as (d & name & sub & rec & id & descr & _ & _ & _ & _ & ->).
  reflexivity.
Qed.

Lemma records_of_row_are_processes (df : DataFrame) (upload_id col : string)
    (jr : nat * Series) (new : list (value * entry)) :
  records_of_row df upload_id col jr new ->
  Forall (fun a => is_process (snd a) = true) new.
Proof.
  intros (lab_ids & _ & _ & F). eapply Forall_impl; [|exact F].
  intros a Ha. unfold is_process. rewrite Ha. reflexivity.
Qed.

Lemma records_of_group_are_processes (df : DataFrame) (upload_id : string)
    (ic : nat * string) (recs : list (value * entry)) :
  records_of_group df upload_id ic recs ->
  Forall (fun a => is_process (snd a) = true) recs.
Proof.
  unfold records_of_group. destruct (String.eqb (snd ic) "Experiment Info").
  - intros ->. constructor.
  - intros (group & per_row & _ & _ & -> & F).
    induction F as [|jr new rows news Hr _ IH]; simpl; [constructor|].
    apply Forall_app. split; [|exact IH].
    eapply records_of_row_are_processes. exact Hr.
Qed.

Lemma groups_are_processes (df : DataFrame) (upload_id : string)
    (ics : list (nat * string)) (groups : list (list (value * entry))) :
  Forall2 (records_of_group df upload_id) ics groups ->
  Forall (fun a => is_process (snd a) = true) (List.concat groups).
Proof.
  induction 1 as [|ic recs ics groups Hg _ IH]; simpl; [constructor|].
  apply Forall_app. split; [|exact IH].
  eapply records_of_group_are_processes. exact Hg.
Qed.

(** The shape of the outcome of a successful [parse]: the files of the
    substrates, of the batch, of the samples and of the processes, in that
    order, each part described by its relation to the table. *)
Lemma parse_Ok_shape (upload_id : string) (df : DataFrame) (out : parsed) :
  parse upload_id df = Ok out ->
  exists info ids batch_id sub_frame substrates samples groups,
    getitem_level0 df "Experiment Info" = Ok info
    /\ getitem_column info "Nomad ID" = Ok ids
    /\ batch_id_of (dropna ids) = Ok batch_id
    /\ getitem_columns info substrates_col = Ok sub_frame
    /\ Forall2 substrate_of (not_blank (iterrows (drop_duplicates sub_frame)))
         substrates
    /\ Forall2 (linked_sample upload_id substrates) (not_blank (iterrows info))
         samples
    /\ Forall2 (records_of_group df upload_id) (enumerate (level0_names df)) groups
    /\ created out
       = map (fun s => (archive_file (VStr (fst (fst s))), ESubstrate (snd s)))
             substrates
         ++ (archive_file (VStr batch_id),
             snd (map_batch (dropna ids) batch_id upload_id))
            :: map (fun a => (archive_file (fst a), snd a)) samples
            ++ map (fun a => (archive_file (fst a), snd a)) (List.concat groups).
Proof.
  intros H.
  destruct (parse_Ok_inv _ _ _ H)
    as (info & ids & batch_id & substrates & samples & groups
        & Hinfo & Hids & Hb & Hsub & Hsam & Hg & Hc & _).
  destruct (build_substrates_spec _ _ Hsub) as (sub_frame & Hf & Hs).
  exists info, ids, batch_id, sub_frame, substrates, samples, groups.
  repeat split; auto.
  - apply build_samples_spec. exact Hsam.
  - apply mapM_Ok_Forall2 in Hg. eapply Forall2_impl; [|exact Hg].
    intros ic recs Hr. apply group_records_spec. exact Hr.
  - rewrite Hc. simpl. rewrite map_app. reflexivity.
Qed.

End SubstrateFacts.

(** ** Lists of records *)

Lemma filter_all {A : Type} (p : A -> bool) (l : list A) :
  Forall (fun x => p x = true) l -> filter p l = l.
Proof.
  induction 1 as [|x l Hx _ IH]; simpl; [reflexivity|]. rewrite Hx, IH. reflexivity.
Qed.

Lemma filter_none {A : Type} (p : A -> bool) (l : list A) :
  Forall (fun x => p x = false) l -> filter p l = [].
Proof.
  induction 1 as [|x l Hx _ IH]; simpl; [reflexivity|]. rewrite Hx, IH. reflexivity.
Qed.

Lemma Forall_map_iff {A B : Type} (g : A -> B) (P : B -> Prop) (l : list A) :
  Forall P (map g l) <-> Forall (fun x => P (g x)) l.
Proof. apply Forall_map. Qed.


Lemma Forall2_In_r {A B : Type} (R : A -> B -> Prop) (l : list A) (l' : list B)
    (y : B) :
  Forall2 R l l' -> In y l' -> exists x, In x l /\ R x y.
Proof.
  induction 1 as [|x y' l l' Hx _ IH]; simpl; [tauto|].
  intros [<-|H]; [exists x; auto|].
  destruct (IH H) as (x' & Hin & HR). exists x'. auto.
Qed.

Section RecordKinds.
Context {RT : Runtime}.

Lemma process_is_not_fixed (e : entry) :
  is_process e = true -> is_substrate e = false /\ is_sample e = false.
Proof. destruct e; simpl; intros H; try discriminate; auto. Qed.

End RecordKinds.

(** *** Runs on the example rows and tables *)

Section TableRuns.
Existing Instance Demo.runtime.

(** In the demo table the cleaning is shared by the three samples, and the
    two distinct spin coating rows by two samples and by one. *)
Example df_demo_process_samples :
  match parse "up" Examples.df_demo with
  | Ok out =>
      map (fun f => (fst f,
                     option_map (map CompositeSystemReference.lab_id)
                                (samples_of (snd f))))
          (filter (fun f => is_process (snd f)) (created out))
      = [("1_0_cleaning.archive.json",
          Some [VStr "KIT_ab_1_0"; VStr "KIT_ab_1_1"; VStr "KIT_ab_1_2"]);
         ("2_0_spin_coating_PEDOT.archive.json",
          Some [VStr "KIT_ab_1_0"; VStr "KIT_ab_1_2"]);
         ("2_1_spin_coating_PEDOT.archive.json", Some [VStr "KIT_ab_1_1"])]
  | Raise _ => False
  end.
Proof. vm_compute. reflexivity. Qed.

(** C1, counterexample. The table has the process column group
    'Spin Coating' with one distinct row content, and [parse] returns
    without any process record for it: the row has no 'Material name'. *)
Lemma group_row_without_record :
  level0_names Examples.df_no_material = ["Experiment Info"; "Spin Coating"]
  /\ match getitem_level0 Examples.df_no_material "Spin Coating" with
     | Ok group => map fst (f_rows (drop_duplicates group)) = [0]
     | Raise _ => False
     end
  /\ match parse "up" Examples.df_no_material with
     | Ok out => filter (fun f => is_process (snd f)) (created out) = []
     | Raise _ => False
     end.
Proof. vm_compute. repeat split; reflexivity. Qed.

(** In the demo table the two kinds of substrate give two records, and the
    three samples refer to the first, the first and the second. *)
Example df_demo_substrates :
  match parse "up" Examples.df_demo with
  | Ok out =>
      map fst (filter (fun f => is_substrate (snd f)) (created out))
      = ["0_substrate.archive.json"; "2_substrate.archive.json"]
      /\ map (fun f => match snd f with
                       | ESample s => peroTF_Sample.substrate s
                       | _ => ""
                       end)
             (filter (fun f => is_sample (snd f)) (created out))
         = [get_reference "up" "0_substrate.archive.json";
            get_reference "up" "0_substrate.archive.json";
            get_reference "up" "2_substrate.archive.json"]
  | Raise _ => False
  end.
Proof. vm_compute. split; reflexivity. Qed.

(** C2, counterexample. The four substrate columns of the table have two
    distinct combinations, that of the sample and the entirely missing one
    of the second row, and [parse] returns with one substrate record. *)
Lemma missing_combination_without_substrate :
  match (info <- getitem_level0 Examples.df_blank_row "Experiment Info" ;;
         getitem_columns info substrates_col) with
  | Ok sub_frame => map fst (f_rows (drop_duplicates sub_frame)) = [0; 1]
  | Raise _ => False
  end
  /\ match parse "up" Examples.df_blank_row with
     | Ok out =>
         map fst (filter (fun f => is_substrate (snd f)) (created out))
         = ["0_substrate.archive.json"]
     | Raise _ => False
     end.
Proof. vm_compute. split; reflexivity. Qed.

(** In the demo table the batch 'KIT_ab_1' refers to the three samples. *)
Example df_demo_batch :
  match parse "up" Examples.df_demo with
  | Ok out =>
      exists b,
        In ("KIT_ab_1.archive.json", EBatch b) (created out)
        /\ map CompositeSystemReference.lab_id (peroTF_Batch.entities b)
           = [VStr "KIT_ab_1_0"; VStr "KIT_ab_1_1"; VStr "KIT_ab_1_2"]
  | Raise _ => False
  end.
Proof. vm_compute. eexists. split; [right; right; left; reflexivity | reflexivity]. Qed.

Lemma map_evaporation_needs_organic_witness :
  (exists e,
     map_evaporation 1 0 [] Examples.row_no_organic "up" = Raise e
     /\ (num_ok Examples.row_no_organic "Thickness [nm]" = true ->
         e = AttributeError))
  /\ (exists r, map_evaporation 1 0 [] Examples.row_organic "up" = Ok r
                /\ organic_known Examples.row_organic = true).
Proof.
  split.
  - destruct (map_evaporation_needs_organic 1 0 [] Examples.row_no_organic "up")
      as [A _].
    apply A. vm_compute. reflexivity.
  - destruct (map_evaporation_needs_organic 1 0 [] Examples.row_organic "up")
      as [_ B].
    eexists. split; [vm_compute; reflexivity|].
    eapply B. vm_compute. reflexivity.
Defined.

Lemma get_reference_stable_witness :
  get_reference "up" "0_substrate.archive.json"
  = "../uploads/up/archive/"
    +++ get_entry_id_from_file_name "0_substrate.archive.json" "up" +++ "#data"
  /\ get_reference ("u" +++ "p") "0_substrate.archive.json"
     = get_reference "up" "0_substrate.archive.json".
Proof.
  destruct (get_reference_stable "up" "0_substrate.archive.json") as (A & _ & B).
  split; [exact A | apply B; reflexivity].
Defined.

(** Without the 'Organic' cell [map_evaporation] raises AttributeError. *)
Example evaporation_without_organic_raises :
  map_evaporation 1 0 [] Examples.row_no_organic "up" = Raise AttributeError.
Proof. vm_compute. reflexivity. Qed.

(** A sample without any substrate cell has no substrate to be linked to:
    [find_substrate] returns None and [parse] raises TypeError. So does a
    table whose four substrate columns hold numbers only: the rows of the
    substrate table are then float64 Series, the parts of the rows of
    'Experiment Info' object Series, and [equals] is False for all. *)
Example sample_without_substrate_raises :
  parse "up" Examples.df_no_substrate = Raise TypeError.
Proof. vm_compute. reflexivity. Qed.

Example numeric_substrate_raises :
  parse "up" Examples.df_numeric_substrate = Raise TypeError.
Proof. vm_compute. reflexivity. Qed.

End TableRuns.

(** * Further properties of the parser *)

(** ** Splitting and joining the 'Nomad ID' *)

Lemma str_split_not_nil (c : ascii) (s : string) : str_split c s <> [].
Proof.
  destruct s as [|a s]; simpl; [discriminate|].
  destruct (Ascii.eqb a c); [discriminate|].
  destruct (str_split c s); discriminate.
Qed.

(** ['_'.join(s.split('_')) == s] *)
Lemma join_split (c : ascii) (s : string) :
  join (String c EmptyString) (str_split c s) = s.
Proof.
  induction s as [|a s IH]; simpl; [reflexivity|].
  destruct (Ascii.eqb a c) eqn:E.
  - apply Ascii.eqb_eq in E. subst a.
    pose proof (str_split_not_nil c s) as N.
    unfold join in *. simpl.
    destruct (str_split c s) as [|w ws]; [contradiction|].
    simpl. f_equal. exact IH.
  - pose proof (str_split_not_nil c s) as N.
    unfold join in *.
    destruct (str_split c s) as [|w ws]; [contradiction|].
    simpl in *. destruct ws; simpl in *; rewrite <- IH; reflexivity.
Qed.

Lemma split_parts_free (c : ascii) (s : string) :
  Forall (fun w => free_of c w = true) (str_split c s).
Proof.
  induction s as [|a s IH]; simpl.
  - constructor; [reflexivity | constructor].
  - destruct (Ascii.eqb a c) eqn:E.
    + constructor; [reflexivity | exact IH].
    + pose proof (str_split_not_nil c s) as N.
      destruct (str_split c s) as [|w ws]; [contradiction|].
      inversion IH as [|? ? Hw Hws]; subst.
      constructor; [simpl; rewrite E, Hw; reflexivity | exact Hws].
Qed.

Lemma append_assoc (a b c : string) : (a +++ b) +++ c = a +++ b +++ c.
Proof. induction a as [|x a IH]; simpl; [reflexivity | rewrite IH; reflexivity]. Qed.

Lemma concat_cons (sep x : string) (l : list string) :
  l <> [] -> String.concat sep (x :: l) = x +++ sep +++ String.concat sep l.
Proof. destruct l; [contradiction | reflexivity]. Qed.

Lemma concat_app_last (sep : string) (init : list string) (last : string) :
  init <> [] ->
  String.concat sep (init ++ [last])
  = String.concat sep init +++ sep +++ last.
Proof.
  induction init as [|x init IH]; intros N; [contradiction|].
  destruct init as [|y init].
  - reflexivity.
  - change ((x :: y :: init) ++ [last]) with (x :: ((y :: init) ++ [last])).
    rewrite concat_cons by (simpl; discriminate).
    rewrite IH by discriminate.
    rewrite (concat_cons sep x (y :: init)) by discriminate.
    rewrite !append_assoc. reflexivity.
Qed.

Lemma removelast_last_split {A : Type} (l : list A) :
  l <> [] -> exists last, l = removelast l ++ [last].
Proof.
  intros N. destruct (exists_last N) as [init [last E]].
  exists last. rewrite E at 1. rewrite E, removelast_last. reflexivity.
Qed.

Section BatchIdFacts.
Context {RT : Runtime}.

(** X1. The batch id is the first id up to its last underscore: the id is
    the batch id, an underscore and a last segment without underscore; an
    id without underscore has the empty batch id. *)
Theorem batch_id_is_prefix (sample_ids : list value) (batch_id : string) :
  batch_id_of sample_ids = Ok batch_id ->
  exists first rest last,
    sample_ids = VStr first :: rest
    /\ free_of "_"%char last = true
    /\ (first = batch_id +++ "_" +++ last
        \/ (free_of "_"%char first = true /\ batch_id = "" /\ first = last)).
Proof.
  unfold batch_id_of. intros H.
  destruct sample_ids as [|v rest]; simpl in H; [discriminate|].
  destruct v as [|z|f|first]; simpl in H; try discriminate.
  injection H as <-.
  destruct (removelast_last_split _ (str_split_not_nil "_"%char first))
    as [last E].
  pose proof (split_parts_free "_"%char first) as F.
  pose proof (join_split "_"%char first) as J.
  rewrite E in F, J. apply Forall_app in F. destruct F as [_ F].
  inversion F as [|? ? Hlast _]; subst.
  exists first, rest, last. split; [reflexivity|]. split; [exact Hlast|].
  destruct (removelast (str_split "_"%char first)) as [|x init] eqn:R.
  - right. simpl in J. subst last. auto.
  - left. unfold join in *. rewrite concat_app_last in J by discriminate.
    symmetry. exact J.
Qed.

End BatchIdFacts.

Lemma batch_id_is_prefix_witness :
  batch_id_of [VStr "KIT_ab_1_0"; VStr "KIT_ab_1_1"] = Ok "KIT_ab_1"
  /\ exists first rest last,
       [VStr "KIT_ab_1_0"; VStr "KIT_ab_1_1"] = VStr first :: rest
       /\ free_of "_"%char last = true
       /\ (first = "KIT_ab_1" +++ "_" +++ last
           \/ (free_of "_"%char first = true /\ "KIT_ab_1" = "" /\ first = last)).
Proof.
  split; [reflexivity|].
  apply (batch_id_is_prefix [VStr "KIT_ab_1_0"; VStr "KIT_ab_1_1"] "KIT_ab_1").
  reflexivity.
Defined.

(** ** [find_substrate] returns the first match *)

Section FindSubstrateFacts.
Context {RT : Runtime}.

(** X2. [find_substrate] returns the name of the first entry of the list
    whose Series equals the given one, and None exactly when no entry
    does; in that case the concatenation with '.archive.json' raises
    TypeError. *)
Theorem find_substrate_first
    (substrates : list (string * Series * peroTF_Substrate.t)) (d : Series) :
  match find_substrate substrates d with
  | Some name =>
      exists before s after,
        substrates = before ++ s :: after
        /\ fst (fst s) = name
        /\ equals d (snd (fst s)) = true
        /\ Forall (fun t => equals d (snd (fst t)) = false) before
        /\ substrate_file substrates d = Ok (name +++ ".archive.json")
  | None =>
      Forall (fun t => equals d (snd (fst t)) = false) substrates
      /\ substrate_file substrates d = Raise TypeError
  end.
Proof.
  unfold substrate_file.
  induction substrates as [|s rest IH]; simpl.
  - split; [constructor | reflexivity].
  - destruct (equals d (snd (fst s))) eqn:E.
    + exists [], s, rest. repeat split; auto.
    + destruct (find_substrate rest d) as [name|].
      * destruct IH as (before & s' & after & -> & Hn & He & Hb & _).
        exists (s :: before), s', after. repeat split; auto.
      * destruct IH as [IH _]. split; [constructor; assumption | reflexivity].
Qed.

End FindSubstrateFacts.

(** ** What makes [parse] raise before it creates anything *)

Lemma getitem_level0_KeyError (df : DataFrame) (col : string) :
  existsb (fun c => String.eqb (fst (fst c)) col) (f_columns df) = false ->
  getitem_level0 df col = Raise KeyError.
Proof.
  intros H. pose proof (getitem_level0_ok df col) as L. rewrite H in L.
  unfold getitem_level0 in *.
  destruct (positions _ (f_columns df) 0); [reflexivity | discriminate].
Qed.

Lemma getitem_column_KeyError (f : Frame string) (name : string) :
  existsb (fun c => String.eqb (fst c) name) (f_columns f) = false ->
  getitem_column f name = Raise KeyError.
Proof.
  intros H. unfold getitem_column.
  apply (column_position_None _ _ 0) in H. rewrite H. reflexivity.
Qed.

Lemma column_positions_KeyError (cols : list (string * dtype)) (names : list string)
    (name : string) :
  In name names ->
  existsb (fun c => String.eqb (fst c) name) cols = false ->
  column_positions cols names = Raise KeyError.
Proof.
  intros Hin H. apply (column_position_None _ _ 0) in H.
  unfold column_positions.
  induction names as [|x names IH]; [destruct Hin|].
  simpl. destruct Hin as [->|Hin].
  - rewrite H. reflexivity.
  - destruct (column_position cols x 0); [|reflexivity].
    simpl. rewrite (IH Hin). reflexivity.
Qed.

Section ParseErrors.
Context {RT : Runtime}.

(** X4. [parse] raises KeyError when the header has no 'Experiment Info'
    group, when that group has no 'Nomad ID' column, and (once the batch id
    is found) when it lacks one of the four substrate columns; it raises
    AttributeError when the first non-missing 'Nomad ID' is not a text. *)
Theorem parse_header_errors (upload_id : string) (df : DataFrame) :
  (existsb (fun c => String.eqb (fst (fst c)) "Experiment Info") (f_columns df)
   = false ->
   parse upload_id df = Raise KeyError)
  /\ (forall info,
        getitem_level0 df "Experiment Info" = Ok info ->
        existsb (fun c => String.eqb (fst c) "Nomad ID") (f_columns info) = false ->
        parse upload_id df = Raise KeyError)
  /\ (forall info ids v rest,
        getitem_level0 df "Experiment Info" = Ok info ->
        getitem_column info "Nomad ID" = Ok ids ->
        dropna ids = v :: rest ->
        (forall s, v <> VStr s) ->
        parse upload_id df = Raise AttributeError)
  /\ (forall info ids batch_id name,
        getitem_level0 df "Experiment Info" = Ok info ->
        getitem_column info "Nomad ID" = Ok ids ->
        batch_id_of (dropna ids) = Ok batch_id ->
        In name substrates_col ->
        existsb (fun c => String.eqb (fst c) name) (f_columns info) = false ->
        parse upload_id df = Raise KeyError).
Proof.
  unfold parse. repeat split.
  - intros H. rewrite (getitem_level0_KeyError _ _ H). reflexivity.
  - intros info Hi H. rewrite Hi, bind_Ok_l.
    rewrite (getitem_column_KeyError _ _ H). reflexivity.
  - intros info ids v rest Hi Hc Hd Hv. rewrite Hi, bind_Ok_l, Hc, bind_Ok_l, Hd.
    unfold batch_id_of. simpl.
    destruct v as [|z|f|s]; try reflexivity. exfalso. apply (Hv s). reflexivity.
  - intros info ids batch_id name Hi Hc Hb Hin H.
    rewrite Hi, bind_Ok_l, Hc, bind_Ok_l, Hb, bind_Ok_l.
    unfold build_substrates, getitem_columns.
    rewrite (column_positions_KeyError _ _ _ Hin H). reflexivity.
Qed.

End ParseErrors.

Lemma parse_header_errors_witness :
  parse (RT := Demo.runtime) "up" MoreExamples.df_other_header = Raise KeyError
  /\ parse (RT := Demo.runtime) "up" MoreExamples.df_no_id_column = Raise KeyError
  /\ parse (RT := Demo.runtime) "up" MoreExamples.df_numeric_id = Raise AttributeError
  /\ parse (RT := Demo.runtime) "up" MoreExamples.df_three_substrate_columns
     = Raise KeyError.
Proof.
  split; [|split; [|split]].
  - destruct (parse_header_errors (RT := Demo.runtime) "up"
                MoreExamples.df_other_header) as (A & _).
    apply A. reflexivity.
  - destruct (parse_header_errors (RT := Demo.runtime) "up"
                MoreExamples.df_no_id_column) as (_ & B & _).
    eapply B; reflexivity.
  - destruct (parse_header_errors (RT := Demo.runtime) "up"
                MoreExamples.df_numeric_id) as (_ & _ & C & _).
    eapply C; try reflexivity. intros s. discriminate.
  - destruct (parse_header_errors (RT := Demo.runtime) "up"
                MoreExamples.df_three_substrate_columns) as (_ & _ & _ & D).
    eapply (D _ _ _ "Substrate material"); try reflexivity.
    simpl. auto.
Defined.

(** ** [map_cleaning] *)

Lemma filter_mapM_is_ok {A B : Type} (c : A -> result bool) (f : A -> result B)
    (c' g : A -> bool) (l : list A) :
  (forall x, c x = Ok (c' x)) ->
  (forall x, is_ok (f x) = g x) ->
  is_ok (filter_mapM c f l) = forallb (fun x => implb (c' x) (g x)) l.
Proof.
  intros Hc Hg. induction l as [|x l IH]; simpl; [reflexivity|].
  rewrite Hc. simpl. rewrite <- IH, <- (Hg x).
  destruct (c' x); simpl.
  - destruct (f x); simpl; [|reflexivity].
    destruct (filter_mapM c f l); reflexivity.
  - reflexivity.
Qed.

Section CleaningFacts.
Context {RT : Runtime}.

(** X5. [map_cleaning] returns exactly when the numbers it reads convert:
    the time and temperature of every index 0..9 whose 'Solvent' cell has a
    text, and the UV and plasma cells; the cells of an index without solvent
    are never read. When it returns, the record has one cleaning step per
    index with a solvent, in ascending order, and always one UV and one
    plasma section. *)
Theorem map_cleaning_outcome (i j : nat) (lab_ids : list value) (data : Series)
    (upload_id : string) :
  is_ok (map_cleaning i j lab_ids data upload_id)
  = forallb (fun k =>
               implb (has_text data ("Solvent " +++ str_of_nat k))
                     (num_ok data ("Time " +++ str_of_nat k +++ " [s]")
                      && num_ok data ("Temperature " +++ str_of_nat k +++ " [°C]")))
            range10
    && num_ok data "UV-Ozone Time [s]"
    && num_ok data "Gas-Plasma Time [s]"
    && num_ok data "Gas-Plasma Power [W]"
  /\ (forall key a,
        map_cleaning i j lab_ids data upload_id = Ok (key, a) ->
        key = process_key i j "cleaning"
        /\ peroTF_Cleaning.cleaning a
           = map (clean_of data)
                 (filter (fun k => has_text data ("Solvent " +++ str_of_nat k))
                         range10)
        /\ peroTF_Cleaning.cleaning_uv a
           = [ {| UVCleaning.time := number_of data "UV-Ozone Time [s]" |} ]
        /\ peroTF_Cleaning.cleaning_plasma a
           = [ {| PlasmaCleaning.time := number_of data "Gas-Plasma Time [s]";
                  PlasmaCleaning.power := number_of data "Gas-Plasma Power [W]";
                  PlasmaCleaning.plasma_type :=
                    text_of data "Gas-Plasma Gas" VNone |} ]).
Proof.
  assert (Hc : forall k,
             (v <- get_value data ("Solvent " +++ str_of_nat k) VNone false ;;
              Ok (truthy v))
             = Ok (has_text data ("Solvent " +++ str_of_nat k))).
  { intros k. rewrite get_value_text. reflexivity. }
  assert (Hf : forall k,
             is_ok (t <- get_value data ("Time " +++ str_of_nat k +++ " [s]")
                           VNone true ;;
                    temp <- get_value data
                              ("Temperature " +++ str_of_nat k +++ " [°C]")
                              VNone true ;;
                    n <- get_value data ("Solvent " +++ str_of_nat k) VNone false ;;
                    Ok {| SolutionCleaning.time := t;
                          SolutionCleaning.temperature := temp;
                          SolutionCleaning.solvent_2 := pubchem n |})
             = num_ok data ("Time " +++ str_of_nat k +++ " [s]")
               && num_ok data ("Temperature " +++ str_of_nat k +++ " [°C]")).
  { intros k. rewrite !num_ok_get_value, get_value_text.
    destruct (get_value data ("Time " +++ str_of_nat k +++ " [s]") VNone true);
      cbn [bind is_ok andb]; [|reflexivity].
    destruct (get_value data ("Temperature " +++ str_of_nat k +++ " [°C]")
                VNone true); reflexivity. }
  split.
  - unfold map_cleaning. rewrite !get_value_text, !bind_Ok_l.
    rewrite <- (filter_mapM_is_ok _ _ _ _ range10 Hc Hf).
    match goal with
    | |- is_ok (bind ?m _) = _ => destruct m as [cl|e]
    end; cbn [bind is_ok andb]; [|reflexivity].
    rewrite !num_ok_get_value.
    destruct (get_value data "UV-Ozone Time [s]" VNone true);
      cbn [bind is_ok andb]; [|reflexivity].
    destruct (get_value data "Gas-Plasma Time [s]" VNone true);
      cbn [bind is_ok andb]; [|reflexivity].
    destruct (get_value data "Gas-Plasma Power [W]" VNone true); reflexivity.
  - intros key a H. unfold map_cleaning in H.
    rewrite !get_value_text, !bind_Ok_l in H.
    apply bind_Ok in H. destruct H as [cl [Hcl H]].
    apply bind_Ok in H. destruct H as [uv [Huv H]].
    apply bind_Ok in H. destruct H as [pt [Hpt H]].
    apply bind_Ok in H. destruct H as [pp [Hpp H]].
    injection H as <- <-.
    cbn [peroTF_Cleaning.cleaning peroTF_Cleaning.cleaning_uv
         peroTF_Cleaning.cleaning_plasma].
    rewrite (number_of_Ok _ _ _ Huv), (number_of_Ok _ _ _ Hpt),
      (number_of_Ok _ _ _ Hpp).
    split; [reflexivity|]. split; [|split; reflexivity].
    eapply filter_mapM_filter; [| |exact Hcl].
    + intros k b Hb. cbv beta in Hb. rewrite Hc in Hb.
      injection Hb as <-. reflexivity.
    + intros k y Hy. cbv beta in Hy.
      apply bind_Ok in Hy. destruct Hy as [t [Ht Hy]].
      apply bind_Ok in Hy. destruct Hy as [temp [Htemp Hy]].
      rewrite get_value_text, bind_Ok_l in Hy. injection Hy as <-.
      unfold clean_of. rewrite (number_of_Ok _ _ _ Ht), (number_of_Ok _ _ _ Htemp).
      reflexivity.
Qed.

End CleaningFacts.

Lemma map_cleaning_outcome_witness :
  exists key a,
    map_cleaning (RT := Demo.runtime) 1 0 [] MoreExamples.row_cleaning "up"
    = Ok (key, a)
    /\ key = process_key 1 0 "cleaning"
    /\ peroTF_Cleaning.cleaning a
       = map (clean_of (RT := Demo.runtime) MoreExamples.row_cleaning)
             (filter (fun k => has_text (RT := Demo.runtime) MoreExamples.row_cleaning
                                 ("Solvent " +++ str_of_nat k))
                     range10)
    /\ peroTF_Cleaning.cleaning_uv a
       = [ {| UVCleaning.time :=
                number_of (RT := Demo.runtime) MoreExamples.row_cleaning
                  "UV-Ozone Time [s]" |} ]
    /\ peroTF_Cleaning.cleaning_plasma a
       = [ {| PlasmaCleaning.time :=
                number_of (RT := Demo.runtime) MoreExamples.row_cleaning
                  "Gas-Plasma Time [s]";
              PlasmaCleaning.power :=
                number_of (RT := Demo.runtime) MoreExamples.row_cleaning
                  "Gas-Plasma Power [W]";
              PlasmaCleaning.plasma_type :=
                text_of (RT := Demo.runtime) MoreExamples.row_cleaning
                  "Gas-Plasma Gas" VNone |} ].
Proof.
  destruct (map_cleaning_outcome (RT := Demo.runtime) 1 0 []
              MoreExamples.row_cleaning "up") as [_ A].
  eexists. eexists. split; [vm_compute; reflexivity|].
  eapply A. vm_compute. reflexivity.
Defined.

(** The text in 'Time 5 [s]' is not read: index 5 has no solvent. *)
Example row_cleaning_steps :
  match map_cleaning (RT := Demo.runtime) 1 0 [] MoreExamples.row_cleaning "up" with
  | Ok (_, a) =>
      map (fun c => (PubChemPureSubstanceSectionCustom.name
                       (SolutionCleaning.solvent_2 c),
                     SolutionCleaning.time c))
          (peroTF_Cleaning.cleaning a)
      = [(VStr "Acetone", VFloat 30); (VStr "IPA", VNone)]
  | Raise _ => False
  end.
Proof. vm_compute. reflexivity. Qed.

(** ** The section [map_evaporation] fills *)

Lemma startswith_char (s : string) (c : ascii) :
  startswith s (String c EmptyString)
  = match s with
    | String a _ => Ascii.eqb c a
    | EmptyString => false
    end.
Proof.
  unfold startswith. destruct s as [|a r]; [reflexivity|]. simpl.
  destruct (ascii_dec c a) as [->|N].
  - rewrite Ascii.eqb_refl. destruct r; reflexivity.
  - symmetry. apply Ascii.eqb_neq. exact N.
Qed.

Lemma startswith_exclusive (s : string) :
  (startswith s "n" || startswith s "0") && (startswith s "y" || startswith s "1")
  = false.
Proof.
  rewrite !startswith_char. destruct s as [|a r]; [reflexivity|].
  destruct (Ascii.eqb "n" a) eqn:En.
  - apply Ascii.eqb_eq in En. subst a. reflexivity.
  - destruct (Ascii.eqb "0" a) eqn:E0; [|reflexivity].
    apply Ascii.eqb_eq in E0. subst a. reflexivity.
Qed.

Section EvaporationShape.
Context {RT : Runtime}.

(** X7. A call of [map_evaporation] that returns has filled exactly one of
    the two lists of the record with one section, the organic one when the
    'Organic' text starts with 'y' or '1' and the inorganic one when it
    starts with 'n' or '0'; the section carries the thickness, the rate and
    the material name, and an organic section the temperature twice when
    that number is not zero. *)
Theorem map_evaporation_one_section (i j : nat) (lab_ids : list value)
    (data : Series) (upload_id : string) (key : string)
    (a : peroTF_Evaporation.t) :
  map_evaporation i j lab_ids data upload_id = Ok (key, a) ->
  (startswith (organic_form data) "y" || startswith (organic_form data) "1" = true
   /\ peroTF_Evaporation.inorganic_evaporation a = []
   /\ peroTF_Evaporation.organic_evaporation a
      = [EOrganic
           {| OrganicEvaporation.temparature :=
                (if nonzero_number data "Temperature [°C]"
                 then Some [number_of data "Temperature [°C]";
                            number_of data "Temperature [°C]"]
                 else None);
              OrganicEvaporation.thickness := number_of data "Thickness [nm]";
              OrganicEvaporation.start_rate := number_of data "Rate [angstrom/s]";
              OrganicEvaporation.chemical_2 :=
                Some (pubchem (text_of data "Material name" VNone)) |}])
  \/ (startswith (organic_form data) "n" || startswith (organic_form data) "0" = true
      /\ peroTF_Evaporation.organic_evaporation a = []
      /\ peroTF_Evaporation.inorganic_evaporation a
         = [EInorganic
              {| InorganicEvaporation.thickness := number_of data "Thickness [nm]";
                 InorganicEvaporation.start_rate :=
                   number_of data "Rate [angstrom/s]";
                 InorganicEvaporation.chemical_2 :=
                   Some (pubchem (text_of data "Material name" VNone)) |}]).
Proof.
  unfold map_evaporation. intros H.
  rewrite get_value_text, bind_Ok_l in H.
  destruct (text_of_str data "Material name" "") as [m Em]. rewrite Em in H.
  cbn [str_add] in H.
  rewrite !bind_Ok_l, !get_value_text, !bind_Ok_l, map_layer_Ok, bind_Ok_l in H.
  rewrite !organic_starts_eq in H. rewrite !bind_Ok_l in H.
  pose proof (startswith_exclusive (organic_form data)) as X.
  destruct (startswith (organic_form data) "n" || startswith (organic_form data) "0")
    eqn:Ein;
    destruct (startswith (organic_form data) "y"
              || startswith (organic_form data) "1") eqn:Eorg;
    try discriminate X; clear X.
  - (* inorganic *)
    right. rewrite !bind_Ok_l in H.
    apply bind_Ok in H. destruct H as [t [Ht H]].
    cbn [set_thickness new_inorganic bind] in H.
    apply bind_Ok in H. destruct H as [r [Hr H]].
    cbn [set_start_rate bind] in H.
    cbn [set_chemical_2 bind] in H.
    injection H as _ <-.
    cbn [peroTF_Evaporation.organic_evaporation
         peroTF_Evaporation.inorganic_evaporation inorganic_list organic_list orb].
    rewrite (number_of_Ok _ _ _ Ht), (number_of_Ok _ _ _ Hr).
    repeat split.
  - (* organic *)
    left.
    apply bind_Ok in H. destruct H as [ev [Hev H]].
    apply bind_Ok in Hev. destruct Hev as [c [Hc Hev]].
    apply bind_Ok in Hev. destruct Hev as [temp [Htemp Hev]].
    injection Hev as <-.
    apply bind_Ok in H. destruct H as [t [Ht H]].
    cbn [set_thickness bind] in H.
    apply bind_Ok in H. destruct H as [r [Hr H]].
    cbn [set_start_rate set_chemical_2 bind] in H.
    injection H as _ <-.
    cbn [peroTF_Evaporation.organic_evaporation
         peroTF_Evaporation.inorganic_evaporation inorganic_list organic_list orb].
    rewrite (number_of_Ok _ _ _ Ht), (number_of_Ok _ _ _ Hr).
    unfold nonzero_number. rewrite (number_of_Ok _ _ _ Hc).
    split; [reflexivity|]. split; [reflexivity|].
    destruct (truthy c).
    + rewrite Hc, bind_Ok_l in Htemp. injection Htemp as <-. reflexivity.
    + injection Htemp as <-. reflexivity.
  - (* neither *)
    rewrite !bind_Ok_l in H.
    apply bind_Ok in H. destruct H as [t [Ht H]].
    discriminate H.
Qed.

End EvaporationShape.

Lemma map_evaporation_one_section_witness :
  exists key a,
    map_evaporation (RT := Demo.runtime) 1 0 [] Examples.row_organic "up"
    = Ok (key, a)
    /\ peroTF_Evaporation.inorganic_evaporation a = []
    /\ List.length (peroTF_Evaporation.organic_evaporation a) = 1%nat.
Proof.
  eexists. eexists. split; [vm_compute; reflexivity|].
  destruct (map_evaporation_one_section (RT := Demo.runtime) 1 0 []
              Examples.row_organic "up" _ _ ltac:(vm_compute; reflexivity))
    as [(_ & A & B)|(C & _)].
  - split; [exact A | exact (f_equal (@List.length _) B)].
  - vm_compute in C. discriminate C.
Defined.

(** ** The other deposition mappers *)

(** One numeric read of a mapper: either it raises and so does the mapper,
    or the mapper goes on with the number. *)
Ltac read_number :=
  match goal with
  | |- context [bind (get_value ?d ?k VNone true) _] =>
      destruct (get_value d k VNone true) eqn:?;
      cbn [bind is_ok andb forallb]; [|reflexivity]
  end.

Section PrecursorFacts.
Context {RT : Runtime}.

Lemma str_add_text (prefix : string) (data : Series) (key : string) :
  str_add prefix (text_of data key (VStr "")) = Ok (prefix +++ str_of data key).
Proof.
  unfold str_of. destruct (text_of_str data key "") as [s ->]. reflexivity.
Qed.

Lemma py_str_text (data : Series) (key : string) :
  py_str (text_of data key (VStr "")) = str_of data key.
Proof.
  unfold str_of. destruct (text_of_str data key "") as [s ->]. reflexivity.
Qed.

End PrecursorFacts.

(** The text reads of a mapper, which cannot raise, are replaced by their
    outcome. *)
Ltac texts :=
  repeat first
    [ rewrite get_value_text | rewrite map_layer_Ok | rewrite str_add_text
    | rewrite py_str_text | progress cbn [bind] ].

Ltac texts_in H :=
  repeat first
    [ rewrite get_value_text in H | rewrite map_layer_Ok in H
    | rewrite str_add_text in H | rewrite py_str_text in H
    | progress cbn [bind] in H ].

(** The first call of a mapper that has returned has returned [x]. *)
Ltac take H x Hx :=
  apply bind_Ok in H; destruct H as [x [Hx H]]; cbn [bind] in H.

Section SlotDieFacts.
Context {RT : Runtime}.

(** X8. [map_sdc] reads the flow rate and the air knife gap with [data.get]
    and not with [get_value]: these two cells never make it raise. It
    returns exactly when [map_solutions] returns and the eight numbers read
    with [get_value] convert. In the record, a flow rate (an air knife gap)
    that [float()] rejects, or an absent one, is stored as None, and one it
    accepts is stored times 1/1000 (times 10000), a missing cell (NaN)
    included; the annealing has no atmosphere. *)
Theorem map_sdc_outcome (i j : nat) (lab_ids : list value) (data : Series)
    (upload_id : string) :
  is_ok (map_sdc i j lab_ids data upload_id)
  = is_ok (map_solutions data)
    && forallb (num_ok data)
         ["Solution volume [um]"; "Annealing temperature [°C]";
          "Annealing time [min]"; "Head gap [mm]"; "Speed [mm/s]";
          "Air knife angle [°]"; "Bead volume [mm/s]"; "Drying speed [cm/min]"]
  /\ (forall key a,
        map_sdc i j lab_ids data upload_id = Ok (key, a) ->
        key = process_key i j "slot_die_coating_" +++ str_of data "Material name"
        /\ SlotDieCoatingProperties.flow_rate (peroTF_SlotDieCoating.properties a)
           = match series_get data "Flow rate [ul/min]" with
             | Some v =>
                 match py_float v with
                 | Ok f => VFloat (f * milli)%float
                 | Raise _ => VNone
                 end
             | None => VNone
             end
        /\ AirKnifeGasQuenching.air_knife_distance_to_thin_film
             (peroTF_SlotDieCoating.quenching a)
           = match series_get data "Air knife gap [cm]" with
             | Some v =>
                 match py_float v with
                 | Ok f => VFloat (f * f10000)%float
                 | Raise _ => VNone
                 end
             | None => VNone
             end
        /\ Annealing.time (peroTF_SlotDieCoating.annealing a)
           = convert_quantity (number_of data "Annealing time [min]") f60
        /\ Annealing.atmosphere (peroTF_SlotDieCoating.annealing a) = VNone).
Proof.
  split.
  - unfold map_sdc, map_precursor. texts. cbn [forallb]. rewrite !num_ok_get_value.
    destruct (map_solutions data); cbn [bind is_ok andb]; [|reflexivity].
    repeat read_number. reflexivity.
  - intros key a H. unfold map_sdc in H. texts_in H.
    take H sol Hsol. take H atemp Hatemp. take H atime Ht. take H gap Hgap.
    take H speed Hspeed. take H angle Hangle. take H bead Hbead.
    take H drying Hdrying.
    injection H as <- <-.
    cbn [peroTF_SlotDieCoating.properties peroTF_SlotDieCoating.quenching
         peroTF_SlotDieCoating.annealing SlotDieCoatingProperties.flow_rate
         AirKnifeGasQuenching.air_knife_distance_to_thin_film
         Annealing.time Annealing.atmosphere].
    rewrite (number_of_Ok _ _ _ Ht).
    unfold convert_quantity, series_get_or_none.
    split; [reflexivity|].
    split; [destruct (series_get data "Flow rate [ul/min]"); reflexivity|].
    split; [destruct (series_get data "Air knife gap [cm]"); reflexivity|].
    split; reflexivity.
Qed.

End SlotDieFacts.

Section WetMappers.
Context {RT : Runtime}.

(** X9. [map_dip_coating] returns exactly when [map_solutions] returns and
    its four numbers convert. The record is named 'dip coating <material>'
    and filed under '<i>_<j>_dip_coating_<material>'; the dipping duration
    is stored times 1/60, the annealing time times 60 and the solution
    volume times 1/1000, each None for an absent or missing cell. *)
Theorem map_dip_coating_outcome (i j : nat) (lab_ids : list value) (data : Series)
    (upload_id : string) :
  is_ok (map_dip_coating i j lab_ids data upload_id)
  = is_ok (map_solutions data)
    && forallb (num_ok data)
         ["Solution volume [um]"; "Dipping duration [s]";
          "Annealing temperature [°C]"; "Annealing time [min]"]
  /\ (forall key a,
        map_dip_coating i j lab_ids data upload_id = Ok (key, a) ->
        key = process_key i j "dip_coating_" +++ str_of data "Material name"
        /\ peroTF_DipCoating.name a = "dip coating " +++ str_of data "Material name"
        /\ stored_quantity data "Dipping duration [s]" per_sixty
             (DipCoatingProperties.time (peroTF_DipCoating.properties a))
        /\ stored_quantity data "Annealing time [min]" f60
             (Annealing.time (peroTF_DipCoating.annealing a))
        /\ exists d v,
             map_solutions data = Ok d
             /\ peroTF_DipCoating.solution a
                = [ {| PrecursorSolution.solution_details := d;
                       PrecursorSolution.solution_volume := v |} ]
             /\ stored_quantity data "Solution volume [um]" milli v).
Proof.
  split.
  - unfold map_dip_coating, map_precursor, map_annealing. texts.
    cbn [forallb]. rewrite !num_ok_get_value.
    destruct (map_solutions data); cbn [bind is_ok andb]; [|reflexivity].
    repeat read_number. reflexivity.
  - intros key a H. unfold map_dip_coating in H. texts_in H.
    take H sol Hsol. take H dip Hdip. take H an Han.
    injection H as <- <-.
    cbn [peroTF_DipCoating.name peroTF_DipCoating.properties
         peroTF_DipCoating.annealing peroTF_DipCoating.solution
         DipCoatingProperties.time].
    split; [reflexivity|]. split; [reflexivity|].
    split; [apply get_value_stored; exact Hdip|].
    split; [apply map_annealing_time; exact Han|].
    unfold map_precursor in Hsol.
    take Hsol d Hd. take Hsol v Hv. injection Hsol as <-.
    exists d, (convert_quantity v milli).
    split; [exact Hd|]. split; [reflexivity|].
    apply get_value_stored. exact Hv.
Qed.

(** X10. [map_inkjet_printing] returns exactly when [map_solutions] returns
    and its twelve numbers convert. The numbers of the print head, the
    cartridge pressure, the table temperature, the drop density, the
    printed area and the humidity are stored as read, without a change of
    unit, and the quality factor and the print head name as stripped text;
    only the annealing time is stored times 60. *)
Theorem map_inkjet_printing_outcome (i j : nat) (lab_ids : list value)
    (data : Series) (upload_id : string) :
  is_ok (map_inkjet_printing i j lab_ids data upload_id)
  = is_ok (map_solutions data)
    && forallb (num_ok data)
         ["Solution volume [um]"; "Number of active nozzles";
          "Droplet per second [1/s]"; "Droplet volume [pl]";
          "Nozzle temperature [°C]"; "Ink reservoir pressure [bar]";
          "Table temperature [°C]"; "Droplet density [dpi]";
          "Printed area [mm²]"; "rel. humidity [%]";
          "Annealing temperature [°C]"; "Annealing time [min]"]
  /\ (forall key a,
        map_inkjet_printing i j lab_ids data upload_id = Ok (key, a) ->
        key = process_key i j "inkjet_printing_" +++ str_of data "Material name"
        /\ peroTF_InkjetPrinting.name a
           = "inkjet printing " +++ str_of data "Material name"
        /\ peroTF_InkjetPrinting.properties a
           = {| InkjetPrintingProperties.print_head_properties :=
                  {| PrintHeadProperties.number_of_active_print_nozzles :=
                       number_of data "Number of active nozzles";
                     PrintHeadProperties.print_nozzle_drop_frequency :=
                       number_of data "Droplet per second [1/s]";
                     PrintHeadProperties.print_nozzle_drop_volume :=
                       number_of data "Droplet volume [pl]";
                     PrintHeadProperties.print_head_temperature :=
                       number_of data "Nozzle temperature [°C]";
                     PrintHeadProperties.print_head_name :=
                       text_of data "Printhead name" VNone |};
                InkjetPrintingProperties.cartridge_pressure :=
                  number_of data "Ink reservoir pressure [bar]";
                InkjetPrintingProperties.substrate_temperature :=
                  number_of data "Table temperature [°C]";
                InkjetPrintingProperties.drop_density :=
                  number_of data "Droplet density [dpi]";
                InkjetPrintingProperties.printed_area :=
                  number_of data "Printed area [mm²]" |}
        /\ peroTF_InkjetPrinting.print_head_path a
           = {| PrintHeadPath.quality_factor := text_of data "Quality factor" VNone |}
        /\ peroTF_InkjetPrinting.atmosphere a
           = {| Atmosphere.relative_humidity := number_of data "rel. humidity [%]" |}
        /\ stored_quantity data "Annealing time [min]" f60
             (Annealing.time (peroTF_InkjetPrinting.annealing a))).
Proof.
  split.
  - unfold map_inkjet_printing, map_precursor, map_annealing. texts.
    cbn [forallb]. rewrite !num_ok_get_value.
    destruct (map_solutions data); cbn [bind is_ok andb]; [|reflexivity].
    repeat read_number. reflexivity.
  - intros key a H. unfold map_inkjet_printing in H. texts_in H.
    take H sol Hsol. take H nozzles Hnozzles. take H freq Hfreq.
    take H vol Hvol. take H ntemp Hntemp. take H cart Hcart.
    take H ttemp Httemp. take H dens Hdens. take H area Harea.
    take H hum Hhum. take H an Han.
    injection H as <- <-.
    cbn [peroTF_InkjetPrinting.name peroTF_InkjetPrinting.properties
         peroTF_InkjetPrinting.print_head_path peroTF_InkjetPrinting.atmosphere
         peroTF_InkjetPrinting.annealing].
    rewrite (number_of_Ok _ _ _ Hnozzles), (number_of_Ok _ _ _ Hfreq),
      (number_of_Ok _ _ _ Hvol), (number_of_Ok _ _ _ Hntemp),
      (number_of_Ok _ _ _ Hcart), (number_of_Ok _ _ _ Httemp),
      (number_of_Ok _ _ _ Hdens), (number_of_Ok _ _ _ Harea),
      (number_of_Ok _ _ _ Hhum).
    split; [reflexivity|]. split; [reflexivity|]. split; [reflexivity|].
    split; [reflexivity|]. split; [reflexivity|].
    apply map_annealing_time. exact Han.
Qed.

End WetMappers.

Section VapourMappers.
Context {RT : Runtime}.

(** X11. [map_sputtering] returns exactly when its eight numbers convert.
    The record is named 'sputtering <material>', filed under
    '<i>_<j>_sputtering_<material>', and has one process whose numbers are
    stored as read; its target is the material of the row and is None, not
    the empty text, when the 'Material name' cell is absent or missing. *)
Theorem map_sputtering_outcome (i j : nat) (lab_ids : list value) (data : Series)
    (upload_id : string) :
  is_ok (map_sputtering i j lab_ids data upload_id)
  = forallb (num_ok data)
      ["Thickness [nm]"; "Gas flow rate [cm^3/min]"; "Rotation rate [rpm]";
       "Power [W]"; "Temperature [°C]"; "Deposition time [s]";
       "Burn in time [s]"; "Pressure [mbar]"]
  /\ (forall key a,
        map_sputtering i j lab_ids data upload_id = Ok (key, a) ->
        key = process_key i j "sputtering_" +++ str_of data "Material name"
        /\ peroTF_Sputtering.name a = "sputtering " +++ str_of data "Material name"
        /\ peroTF_Sputtering.processes a
           = [ {| SputteringProcess.thickness := number_of data "Thickness [nm]";
                  SputteringProcess.gas_flow_rate :=
                    number_of data "Gas flow rate [cm^3/min]";
                  SputteringProcess.rotation_rate :=
                    number_of data "Rotation rate [rpm]";
                  SputteringProcess.power := number_of data "Power [W]";
                  SputteringProcess.temperature :=
                    number_of data "Temperature [°C]";
                  SputteringProcess.deposition_time :=
                    number_of data "Deposition time [s]";
                  SputteringProcess.burn_in_time :=
                    number_of data "Burn in time [s]";
                  SputteringProcess.pressure := number_of data "Pressure [mbar]";
                  SputteringProcess.target_2 :=
                    pubchem (text_of data "Material name" VNone);
                  SputteringProcess.gas_2 := pubchem (text_of data "Gas" VNone) |} ]).
Proof.
  split.
  - unfold map_sputtering. texts. cbn [forallb]. rewrite !num_ok_get_value.
    repeat read_number. reflexivity.
  - intros key a H. unfold map_sputtering in H. texts_in H.
    take H thickness Hthickness. take H flow Hflow. take H rot Hrot.
    take H power Hpower. take H temp Htemp. take H dep Hdep.
    take H burn Hburn. take H pres Hpres.
    injection H as <- <-.
    cbn [peroTF_Sputtering.name peroTF_Sputtering.processes].
    rewrite (number_of_Ok _ _ _ Hthickness), (number_of_Ok _ _ _ Hflow),
      (number_of_Ok _ _ _ Hrot), (number_of_Ok _ _ _ Hpower),
      (number_of_Ok _ _ _ Htemp), (number_of_Ok _ _ _ Hdep),
      (number_of_Ok _ _ _ Hburn), (number_of_Ok _ _ _ Hpres).
    split; [reflexivity|]. split; reflexivity.
Qed.

(** X12. [map_atomic_layer_deposition] returns exactly when its ten numbers
    convert. The record is named 'atomic layer deposition <material>' and
    filed under '<i>_<j>_ALD_<material>'; the numbers are stored as read,
    the two precursors as stripped text, and the oxidizer has no bottle
    temperature. *)
Theorem map_atomic_layer_deposition_outcome (i j : nat) (lab_ids : list value)
    (data : Series) (upload_id : string) :
  is_ok (map_atomic_layer_deposition i j lab_ids data upload_id)
  = forallb (num_ok data)
      ["Thickness [nm]"; "Temperature [°C]"; "Rate [A/s]"; "Time [s]";
       "Number of cycles"; "Pulse duration 1 [s]";
       "Manifold temperature 1 [°C]"; "Bottle temperature 1 [°C]";
       "Pulse duration 2 [s]"; "Manifold temperature 2 [°C]"]
  /\ (forall key a,
        map_atomic_layer_deposition i j lab_ids data upload_id = Ok (key, a) ->
        key = process_key i j "ALD_" +++ str_of data "Material name"
        /\ peroTF_ALD.name a
           = "atomic layer deposition " +++ str_of data "Material name"
        /\ peroTF_ALD.properties a
           = {| ALDPropertiesIris.source := text_of data "Source" VNone;
                ALDPropertiesIris.thickness := number_of data "Thickness [nm]";
                ALDPropertiesIris.temperature := number_of data "Temperature [°C]";
                ALDPropertiesIris.rate := number_of data "Rate [A/s]";
                ALDPropertiesIris.time := number_of data "Time [s]";
                ALDPropertiesIris.number_of_cycles :=
                  number_of data "Number of cycles";
                ALDPropertiesIris.material :=
                  {| ALDMaterial.material :=
                       pubchem (text_of data "Precursor 1" VNone);
                     ALDMaterial.pulse_duration :=
                       number_of data "Pulse duration 1 [s]";
                     ALDMaterial.manifold_temperature :=
                       number_of data "Manifold temperature 1 [°C]";
                     ALDMaterial.bottle_temperature :=
                       number_of data "Bottle temperature 1 [°C]" |};
                ALDPropertiesIris.oxidizer_reducer :=
                  {| ALDMaterial.material :=
                       pubchem (text_of data "Precursor 2 (Oxidizer/Reducer)" VNone);
                     ALDMaterial.pulse_duration :=
                       number_of data "Pulse duration 2 [s]";
                     ALDMaterial.manifold_temperature :=
                       number_of data "Manifold temperature 2 [°C]";
                     ALDMaterial.bottle_temperature := VNone |} |}).
Proof.
  split.
  - unfold map_atomic_layer_deposition. texts. cbn [forallb]. rewrite !num_ok_get_value.
    repeat read_number. reflexivity.
  - intros key a H. unfold map_atomic_layer_deposition in H. texts_in H.
    take H thickness Hthickness. take H temp Htemp. take H rate Hrate.
    take H time Htime. take H cycles Hcycles. take H pulse1 Hpulse1.
    take H man1 Hman1. take H bottle1 Hbottle1. take H pulse2 Hpulse2.
    take H man2 Hman2.
    injection H as <- <-.
    cbn [peroTF_ALD.name peroTF_ALD.properties].
    rewrite (number_of_Ok _ _ _ Hthickness), (number_of_Ok _ _ _ Htemp),
      (number_of_Ok _ _ _ Hrate), (number_of_Ok _ _ _ Htime),
      (number_of_Ok _ _ _ Hcycles), (number_of_Ok _ _ _ Hpulse1),
      (number_of_Ok _ _ _ Hman1), (number_of_Ok _ _ _ Hbottle1),
      (number_of_Ok _ _ _ Hpulse2), (number_of_Ok _ _ _ Hman2).
    split; [reflexivity|]. split; reflexivity.
Qed.

End VapourMappers.

(** ** [map_solutions]: the entries and their order *)









Section SolutionFacts.
Context {RT : Runtime}.



End SolutionFacts.

(** ** The batch refers to sample files that exist *)

Lemma row_typed_nth (ds : list dtype) (vs : list value) (n : nat) (d0 : dtype) :
  row_typed ds vs = true -> (n < List.length ds)%nat ->
  cell_typed (nth n ds d0) (nth n vs VNone) = true.
Proof.
  revert vs n; induction ds as [|d ds IH]; intros vs n H L; simpl in L; [lia|].
  destruct vs as [|v vs]; simpl in H; [discriminate|].
  apply andb_true_iff in H. destruct H as [H1 H2].
  destruct n as [|n]; simpl; [exact H1|]. apply IH; [exact H2 | lia].
Qed.

Lemma positions_lt {K : Type} (p : K -> bool) (cols : list (K * dtype)) (k : nat) :
  Forall (fun n => (n < k + List.length cols)%nat) (positions p cols k).
Proof.
  revert k; induction cols as [|c cols IH]; intros k; simpl; [constructor|].
  assert (F : Forall (fun n => (n < k + S (List.length cols))%nat)
                     (positions p cols (S k))).
  { eapply Forall_impl; [|apply IH]. intros n Hn. simpl in Hn. lia. }
  destruct (p (fst c)); [constructor; [lia | exact F] | exact F].
Qed.

Lemma row_typed_pick (cols : list (string * string * dtype)) (vs : list value)
    (ns : list nat) :
  row_typed (map snd cols) vs = true ->
  Forall (fun n => (n < List.length cols)%nat) ns ->
  row_typed (map snd (map (fun c : string * string * dtype => (snd (fst c), snd c))
                          (pick pair_column ns cols)))
            (pick VNone ns vs) = true.
Proof.
  intros T. induction 1 as [|n ns L _ IH]; simpl; [reflexivity|].
  rewrite IH, andb_true_r.
  rewrite <- (map_nth snd cols pair_column n).
  apply row_typed_nth; [exact T | rewrite length_map; exact L].
Qed.

(** A top-level group of a well-typed table is well typed. *)
Lemma getitem_level0_well_typed (df : DataFrame) (col : string) (f : Frame string) :
  well_typed df = true -> getitem_level0 df col = Ok f -> well_typed f = true.
Proof.
  unfold getitem_level0, well_typed. intros T.
  pose proof (positions_lt (fun k : string * string => String.eqb (fst k) col)
                (f_columns df) 0) as P.
  destruct (positions _ (f_columns df) 0) as [|n ns]; [discriminate|].
  intros H. injection H as <-. cbn [f_columns f_rows].
  rewrite forallb_forall in *. intros r Hr.
  apply in_map_iff in Hr. destruct Hr as [r0 [<- Hr0]]. cbn [snd].
  exact (row_typed_pick (f_columns df) (snd r0) (n :: ns) (T _ Hr0) P).
Qed.

Lemma column_position_bounds (cols : list (string * dtype)) (name : string)
    (k n : nat) :
  column_position cols name k = Some n -> (k <= n < k + List.length cols)%nat.
Proof.
  revert k; induction cols as [|c cols IH]; intros k; simpl; [discriminate|].
  destruct (String.eqb (fst c) name).
  - intros H. injection H as <-. lia.
  - intros H. apply IH in H. lia.
Qed.

(** Reading a cell of a row by the name of its column gives the cell at
    the position of the first column of that name. *)
Lemma lookup_column_position (cols : list (string * dtype)) (vs : list value)
    (name : string) (k n : nat) :
  column_position cols name k = Some n ->
  lookup (map fst cols) vs name = nth_error vs (n - k).
Proof.
  revert vs k; induction cols as [|c cols IH]; intros vs k; simpl; [discriminate|].
  destruct vs as [|v vs].
  - intros _. destruct (n - k)%nat; reflexivity.
  - destruct (String.eqb (fst c) name).
    + intros H. injection H as <-. rewrite Nat.sub_diag. reflexivity.
    + intros H. pose proof (column_position_bounds _ _ _ _ H) as B.
      rewrite (IH vs _ H).
      replace (n - k)%nat with (S (n - S k)) by lia. reflexivity.
Qed.

Lemma nth_not_default (l : list value) (n : nat) (v : value) :
  nth n l VNone = v -> isna v = false -> nth_error l n = Some v.
Proof.
  intros E N. destruct (nth_error l n) as [w|] eqn:X.
  - rewrite (nth_error_nth _ _ VNone X) in E. congruence.
  - apply nth_error_None in X. rewrite nth_overflow in E by exact X.
    subst v. discriminate N.
Qed.

Lemma forallb_false_In {A : Type} (p : A -> bool) (l : list A) (x : A) :
  In x l -> p x = false -> forallb p l = false.
Proof.
  intros Hin Hp. destruct (forallb p l) eqn:F; [|reflexivity].
  rewrite forallb_forall in F. rewrite (F _ Hin) in Hp. discriminate.
Qed.

Lemma Forall2_In_l {A B : Type} (R : A -> B -> Prop) (l : list A) (l' : list B)
    (x : A) :
  Forall2 R l l' -> In x l -> exists y, In y l' /\ R x y.
Proof.
  induction 1 as [|a b l l' Hab _ IH]; intros Hin; [destruct Hin|].
  destruct Hin as [->|Hin].
  - exists b. split; [left; reflexivity | exact Hab].
  - destruct (IH Hin) as [y [Hy Hxy]]. exists y. split; [right; exact Hy | exact Hxy].
Qed.

Section BatchFiles.
Context {RT : Runtime}.

(** A column that holds a text has the dtype object, and then the rows
    of [iterrows] keep their cells as they are. *)
Lemma text_cell_object (info : Frame string) (n : nat) (r : nat * list value)
    (s : string) :
  well_typed info = true ->
  (n < List.length (f_columns info))%nat ->
  In r (f_rows info) ->
  nth n (snd r) VNone = VStr s ->
  common_dtype (map snd (f_columns info)) = object.
Proof.
  unfold well_typed. intros T L Hr E.
  rewrite forallb_forall in T. specialize (T _ Hr).
  pose proof (row_typed_nth _ _ n object T) as C.
  rewrite length_map in C. specialize (C L). rewrite E in C.
  assert (O : nth n (map snd (f_columns info)) object = object).
  { destruct (nth n (map snd (f_columns info)) object); try discriminate C.
    reflexivity. }
  unfold common_dtype.
  assert (X : existsb (dtype_eqb object) (map snd (f_columns info)) = true).
  { apply existsb_exists. exists object. split; [|reflexivity].
    rewrite <- O. apply nth_In. rewrite length_map. exact L. }
  rewrite X. reflexivity.
Qed.

(** X14. In the outcome of a successful [parse] of a well-typed table,
    every reference of the batch record is the reference of a sample file
    that [parse] has created, and that sample has the lab id of the
    reference: the batch never refers to a sample without a file. *)
Theorem batch_entities_have_files (upload_id : string) (df : DataFrame)
    (out : parsed) :
  well_typed df = true ->
  parse upload_id df = Ok out ->
  exists f b,
    In (f, EBatch b) (created out)
    /\ Forall (fun ref =>
                 exists file s,
                   In (file, ESample s) (created out)
                   /\ CompositeSystemReference.reference ref
                      = get_reference upload_id file
                   /\ peroTF_Sample.lab_id s = CompositeSystemReference.lab_id ref)
              (peroTF_Batch.entities b).
Proof.
  intros T H.
  destruct (parse_Ok_shape _ _ _ H)
    as (info & ids & batch_id & sub_frame & substrates & samples & groups
        & Hinfo & Hids & Hb & _ & _ & Hsam & _ & Hc).
  pose proof (getitem_level0_well_typed _ _ _ T Hinfo) as Ti.
  exists (archive_file (VStr batch_id)),
         {| peroTF_Batch.name := batch_id;
            peroTF_Batch.lab_id := batch_id;
            peroTF_Batch.entities := sample_refs upload_id (dropna ids) |}.
  split.
  { rewrite Hc. apply in_or_app. right. left. reflexivity. }
  cbn [peroTF_Batch.entities]. unfold sample_refs.
  apply Forall_map_iff. apply Forall_forall. intros id Hid.
  cbn [CompositeSystemReference.reference CompositeSystemReference.lab_id].
  (* the column of the ids *)
  unfold getitem_column in Hids.
  destruct (column_position (f_columns info) "Nomad ID" 0) as [n|] eqn:P;
    [|discriminate].
  injection Hids as <-.
  pose proof (column_position_bounds _ _ _ _ P) as B.
  (* the first id is a text, so the rows keep their cells *)
  assert (D : common_dtype (map snd (f_columns info)) = object).
  { unfold batch_id_of in Hb.
    destruct (dropna (map (fun r => nth n (snd r) VNone) (f_rows info)))
      as [|v rest] eqn:E; [discriminate|].
    destruct v as [|z|x|s]; try discriminate.
    assert (Hin : In (VStr s) (dropna (map (fun r => nth n (snd r) VNone)
                                          (f_rows info))))
      by (rewrite E; left; reflexivity).
    apply filter_In in Hin. destruct Hin as [Hin _].
    apply in_map_iff in Hin. destruct Hin as [r0 [E0 Hr0]].
    apply (text_cell_object info n r0 s Ti); [lia | exact Hr0 | exact E0]. }
  (* the row of the id *)
  apply filter_In in Hid. destruct Hid as [Hid Hna].
  apply negb_true_iff in Hna.
  apply in_map_iff in Hid. destruct Hid as [r [E Hr]].
  pose proof (nth_not_default _ _ _ E Hna) as Hn.
  set (row := {| s_dtype := common_dtype (map snd (f_columns info));
                 s_index := map fst (f_columns info);
                 s_values := map (cast (common_dtype (map snd (f_columns info))))
                                 (snd r) |}).
  assert (Hrow : In (fst r, row) (not_blank (iterrows info))).
  { apply filter_In. split.
    - unfold iterrows. apply in_map_iff. exists r. split; [reflexivity | exact Hr].
    - cbn [snd]. apply negb_true_iff. unfold isna_all, row. cbn [s_values].
      rewrite D. apply (forallb_false_In _ _ id); [|exact Hna].
      apply in_map_iff. exists id. split; [destruct id; reflexivity|].
      eapply nth_error_In. exact Hn. }
  assert (G : series_getitem row "Nomad ID" = Ok id).
  { unfold series_getitem, series_get, row. cbn [s_index s_values].
    rewrite (lookup_column_position _ _ _ _ _ P), Nat.sub_0_r.
    rewrite nth_error_map, Hn, D. destruct id; reflexivity. }
  destruct (Forall2_In_l _ _ _ _ Hsam Hrow) as [a [Ha La]].
  destruct La as (d & name & sub & rec & id0 & descr & _ & _ & _ & G0 & ->).
  cbn [snd] in G0. rewrite G in G0. injection G0 as <-.
  eexists. eexists. split; [|split].
  - rewrite Hc. apply in_or_app. right. right. apply in_or_app. left.
    apply in_map_iff. eexists. split; [|exact Ha]. reflexivity.
  - reflexivity.
  - reflexivity.
Qed.

End BatchFiles.

(** ** Which reads of [get_value] raise *)

Section GetValueErrors.
Context {RT : Runtime}.

(** X15. [get_value] raises only when it reads a number from a cell that
    is present and not missing: ValueError for a text that [float()]
    rejects and OverflowError for an int too large for a float. A read
    of text ([number=False]) never raises, and neither does the read of
    an absent or missing cell, whatever the default. *)
Theorem get_value_raises (data : Series) (key : string) (default : value)
    (number : bool) (e : exn) :
  get_value data key default number = Raise e ->
  number = true
  /\ exists v,
       series_get data key = Some v
       /\ isna v = false
       /\ ((exists s, v = VStr s /\ float_of_str s = None /\ e = ValueError)
           \/ (exists z, v = VInt z /\ float_of_Z z = Raise OverflowError
                         /\ e = OverflowError)).
Proof.
  unfold get_value.
  destruct (series_get data key) as [v|]; [|discriminate].
  destruct (isna v) eqn:N; [discriminate|].
  destruct number; [|discriminate].
  intros H. split; [reflexivity|]. exists v. split; [reflexivity|].
  split; [exact N|].
  destruct v as [|z|f|s]; cbn [py_float bind] in H.
  - discriminate N.
  - right. exists z. unfold float_of_Z in *.
    destruct (is_infinity _); [|discriminate H].
    injection H as <-. auto.
  - discriminate H.
  - left. exists s. destruct (float_of_str s); [discriminate H|].
    injection H as <-. auto.
Qed.

End GetValueErrors.

(** ** Runs *)

Lemma map_sdc_outcome_witness :
  exists key a,
    map_sdc (RT := Demo.runtime) 1 0 [] MoreExamples.row_sdc "up" = Ok (key, a)
    /\ key = process_key 1 0 "slot_die_coating_"
             +++ str_of (RT := Demo.runtime) MoreExamples.row_sdc "Material name"
    /\ SlotDieCoatingProperties.flow_rate (peroTF_SlotDieCoating.properties a)
       = match series_get MoreExamples.row_sdc "Flow rate [ul/min]" with
         | Some v =>
             match py_float (RT := Demo.runtime) v with
             | Ok f => VFloat (f * milli)%float
             | Raise _ => VNone
             end
         | None => VNone
         end
    /\ AirKnifeGasQuenching.air_knife_distance_to_thin_film
         (peroTF_SlotDieCoating.quenching a)
       = match series_get MoreExamples.row_sdc "Air knife gap [cm]" with
         | Some v =>
             match py_float (RT := Demo.runtime) v with
             | Ok f => VFloat (f * f10000)%float
             | Raise _ => VNone
             end
         | None => VNone
         end
    /\ Annealing.time (peroTF_SlotDieCoating.annealing a)
       = convert_quantity (RT := Demo.runtime)
           (number_of (RT := Demo.runtime) MoreExamples.row_sdc
              "Annealing time [min]") f60
    /\ Annealing.atmosphere (peroTF_SlotDieCoating.annealing a) = VNone.
Proof.
  destruct (map_sdc_outcome (RT := Demo.runtime) 1 0 [] MoreExamples.row_sdc "up")
    as [_ A].
  eexists. eexists. split; [vm_compute; reflexivity|].
  eapply A. vm_compute. reflexivity.
Defined.

(** The text 'fast' in the flow rate is stored as None, and the gap of 2 cm
    as 20000. *)
Example row_sdc_raw_cells :
  match map_sdc (RT := Demo.runtime) 1 0 [] MoreExamples.row_sdc "up" with
  | Ok (key, a) =>
      key = "1_0_slot_die_coating_PVK"
      /\ SlotDieCoatingProperties.flow_rate (peroTF_SlotDieCoating.properties a)
         = VNone
      /\ AirKnifeGasQuenching.air_knife_distance_to_thin_film
           (peroTF_SlotDieCoating.quenching a)
         = VFloat 20000
  | Raise _ => False
  end.
Proof. vm_compute. split; [|split]; reflexivity. Qed.

Lemma map_dip_coating_outcome_witness :
  exists key a,
    map_dip_coating (RT := Demo.runtime) 1 0 [] MoreExamples.row_dip "up"
    = Ok (key, a)
    /\ key = process_key 1 0 "dip_coating_"
             +++ str_of (RT := Demo.runtime) MoreExamples.row_dip "Material name"
    /\ peroTF_DipCoating.name a
       = "dip coating "
         +++ str_of (RT := Demo.runtime) MoreExamples.row_dip "Material name"
    /\ stored_quantity (RT := Demo.runtime) MoreExamples.row_dip
         "Dipping duration [s]" per_sixty
         (DipCoatingProperties.time (peroTF_DipCoating.properties a))
    /\ stored_quantity (RT := Demo.runtime) MoreExamples.row_dip
         "Annealing time [min]" f60
         (Annealing.time (peroTF_DipCoating.annealing a))
    /\ exists d v,
         map_solutions (RT := Demo.runtime) MoreExamples.row_dip = Ok d
         /\ peroTF_DipCoating.solution a
            = [ {| PrecursorSolution.solution_details := d;
                   PrecursorSolution.solution_volume := v |} ]
         /\ stored_quantity (RT := Demo.runtime) MoreExamples.row_dip
              "Solution volume [um]" milli v.
Proof.
  destruct (map_dip_coating_outcome (RT := Demo.runtime) 1 0 []
              MoreExamples.row_dip "up") as [_ A].
  eexists. eexists. split; [vm_compute; reflexivity|].
  eapply A. vm_compute. reflexivity.
Defined.

(** Ninety seconds of dipping are stored as 90 * (1 / 60), five minutes of
    annealing as 300. *)
Example row_dip_conversions :
  match map_dip_coating (RT := Demo.runtime) 1 0 [] MoreExamples.row_dip "up" with
  | Ok (_, a) =>
      DipCoatingProperties.time (peroTF_DipCoating.properties a)
      = VFloat (90 * (1 / 60))%float
      /\ Annealing.time (peroTF_DipCoating.annealing a) = VFloat 300
  | Raise _ => False
  end.
Proof. vm_compute. split; reflexivity. Qed.

Lemma map_inkjet_printing_outcome_witness :
  exists key a,
    map_inkjet_printing (RT := Demo.runtime) 1 0 [] MoreExamples.row_inkjet "up"
    = Ok (key, a)
    /\ key = process_key 1 0 "inkjet_printing_"
             +++ str_of (RT := Demo.runtime) MoreExamples.row_inkjet
                   "Material name"
    /\ peroTF_InkjetPrinting.print_head_path a
       = {| PrintHeadPath.quality_factor :=
              text_of (RT := Demo.runtime) MoreExamples.row_inkjet
                "Quality factor" VNone |}
    /\ stored_quantity (RT := Demo.runtime) MoreExamples.row_inkjet
         "Annealing time [min]" f60
         (Annealing.time (peroTF_InkjetPrinting.annealing a)).
Proof.
  destruct (map_inkjet_printing_outcome (RT := Demo.runtime) 1 0 []
              MoreExamples.row_inkjet "up") as [_ A].
  eexists. eexists. split; [vm_compute; reflexivity|].
  destruct (A _ _ ltac:(vm_compute; reflexivity)) as (K & _ & _ & Q & _ & T).
  split; [exact K|]. split; [exact Q | exact T].
Defined.

(** The quality factor 3 is stored as the text '3', the nozzles as 128.0. *)
Example row_inkjet_fields :
  match map_inkjet_printing (RT := Demo.runtime) 1 0 []
          MoreExamples.row_inkjet "up" with
  | Ok (_, a) =>
      PrintHeadPath.quality_factor (peroTF_InkjetPrinting.print_head_path a)
      = VStr "3"
      /\ PrintHeadProperties.number_of_active_print_nozzles
           (InkjetPrintingProperties.print_head_properties
              (peroTF_InkjetPrinting.properties a))
         = VFloat 128
  | Raise _ => False
  end.
Proof. vm_compute. split; reflexivity. Qed.

Lemma map_sputtering_outcome_witness :
  exists key a,
    map_sputtering (RT := Demo.runtime) 1 0 [] MoreExamples.row_sputtering "up"
    = Ok (key, a)
    /\ key = process_key 1 0 "sputtering_"
             +++ str_of (RT := Demo.runtime) MoreExamples.row_sputtering
                   "Material name"
    /\ peroTF_Sputtering.name a
       = "sputtering "
         +++ str_of (RT := Demo.runtime) MoreExamples.row_sputtering
               "Material name"
    /\ List.length (peroTF_Sputtering.processes a) = 1%nat.
Proof.
  destruct (map_sputtering_outcome (RT := Demo.runtime) 1 0 []
              MoreExamples.row_sputtering "up") as [_ A].
  eexists. eexists. split; [vm_compute; reflexivity|].
  destruct (A _ _ ltac:(vm_compute; reflexivity)) as (K & N & P).
  split; [exact K|]. split; [exact N|].
  exact (f_equal (@List.length _) P).
Defined.

Lemma map_atomic_layer_deposition_outcome_witness :
  exists key a,
    map_atomic_layer_deposition (RT := Demo.runtime) 1 0 []
      MoreExamples.row_ald "up" = Ok (key, a)
    /\ key = process_key 1 0 "ALD_"
             +++ str_of (RT := Demo.runtime) MoreExamples.row_ald "Material name"
    /\ peroTF_ALD.name a
       = "atomic layer deposition "
         +++ str_of (RT := Demo.runtime) MoreExamples.row_ald "Material name"
    /\ ALDMaterial.bottle_temperature
         (ALDPropertiesIris.oxidizer_reducer (peroTF_ALD.properties a))
       = VNone.
Proof.
  destruct (map_atomic_layer_deposition_outcome (RT := Demo.runtime) 1 0 []
              MoreExamples.row_ald "up") as [_ A].
  eexists. eexists. split; [vm_compute; reflexivity|].
  destruct (A _ _ ltac:(vm_compute; reflexivity)) as (K & N & P).
  split; [exact K|]. split; [exact N|].
  exact (f_equal (fun p => ALDMaterial.bottle_temperature
                             (ALDPropertiesIris.oxidizer_reducer p)) P).
Defined.


(** The solvents come out as 'Solvent 1', 'Solvent 2', in that order;
    'Solvent 3' has neither name nor volume. *)
Example row_solvents_entries :
  match map_solutions (RT := Demo.runtime) MoreExamples.row_solvents with
  | Ok sol =>
      map (fun c => (PubChemPureSubstanceSectionCustom.name
                       (SolutionChemical.chemical_2 c),
                     SolutionChemical.chemical_volume c))
          (Solution.solvent sol)
      = [(VStr "DMF", VFloat (800 * (1 / 1000))%float); (VStr "DMSO", VNone)]
      /\ List.length (Solution.solute sol) = 1%nat
  | Raise _ => False
  end.
Proof. vm_compute. split; reflexivity. Qed.

Lemma batch_entities_have_files_witness :
  exists out f b,
    parse (RT := Demo.runtime) "up" Examples.df_demo = Ok out
    /\ In (f, EBatch b) (created out)
    /\ Forall (fun ref =>
                 exists file s,
                   In (file, ESample s) (created out)
                   /\ CompositeSystemReference.reference ref
                      = get_reference (RT := Demo.runtime) "up" file
                   /\ peroTF_Sample.lab_id s = CompositeSystemReference.lab_id ref)
              (peroTF_Batch.entities b).
Proof.
  destruct (batch_entities_have_files (RT := Demo.runtime) "up" Examples.df_demo _
              ltac:(vm_compute; reflexivity) ltac:(vm_compute; reflexivity))
    as (f & b & A & B).
  eexists. exists f, b. split; [vm_compute; reflexivity|]. auto.
Defined.

Lemma get_value_raises_witness :
  get_value (RT := Demo.runtime) Examples.row_text_time "Annealing time [min]"
    VNone true = Raise ValueError
  /\ exists v,
       series_get Examples.row_text_time "Annealing time [min]" = Some v
       /\ isna v = false
       /\ ((exists s, v = VStr s
                      /\ float_of_str (Runtime := Demo.runtime) s = None
                      /\ ValueError = ValueError)
           \/ (exists z, v = VInt z /\ float_of_Z z = Raise OverflowError
                         /\ ValueError = OverflowError)).
Proof.
  split; [vm_compute; reflexivity|].
  apply (get_value_raises (RT := Demo.runtime) Examples.row_text_time
           "Annealing time [min]" VNone true ValueError).
  vm_compute. reflexivity.
Defined.

(** ** A sample row needs a substrate *)

Lemma SFeqb_refl (x : spec_float) :
  SFeqb x x = match x with S754_nan => false | _ => true end.
Proof.
  unfold SFeqb, SFcompare. destruct x as [s| s | |s m e]; try reflexivity.
  - destruct s; reflexivity.
  - destruct s; rewrite Z.compare_refl, Pos.compare_cont_refl; reflexivity.
Qed.

(** A cell is missing exactly when its key is the key of missing values. *)
Lemma isna_key (v : value) : isna v = key_eqb (value_key v) KNa.
Proof.
  destruct v as [|z|f|s]; simpl; try reflexivity.
  - destruct z as [|p|p]; [reflexivity| |];
      unfold num_key; destruct (odd_part p 0); reflexivity.
  - unfold is_nan. rewrite eqb_spec, SFeqb_refl.
    destruct (Prim2SF f) as [s0| s0 | |s0 m e]; try reflexivity.
    unfold num_key. destruct (odd_part m e). reflexivity.
Qed.

Lemma values_eqb_isna (a b : list value) :
  values_eqb a b = true -> forallb isna a = forallb isna b.
Proof.
  revert b; induction a as [|x a IH]; intros [|y b]; simpl; intros H;
    try discriminate; [reflexivity|].
  apply andb_true_iff in H. destruct H as [H1 H2].
  apply key_eqb_eq in H1. rewrite !isna_key, H1, (IH _ H2). reflexivity.
Qed.

Section SampleSubstrates.
Context {RT : Runtime}.

(** X16. [parse] returns only if every row of 'Experiment Info' that is
    not entirely missing has, among its four substrate cells, one that is
    not missing: a sample row whose substrate cells are all missing finds
    no substrate record, and [parse] raises. *)
Theorem sample_rows_have_substrate (upload_id : string) (df : DataFrame)
    (out : parsed) :
  parse upload_id df = Ok out ->
  exists info,
    getitem_level0 df "Experiment Info" = Ok info
    /\ Forall (fun r =>
                 exists d,
                   series_select (snd r) substrates_col = Ok d
                   /\ isna_all d = false)
              (not_blank (iterrows info)).
Proof.
  intros H.
  destruct (parse_Ok_shape _ _ _ H)
    as (info & ids & batch_id & sub_frame & substrates & samples & groups
        & Hinfo & _ & _ & _ & Hsub & Hsam & _ & _).
  exists info. split; [exact Hinfo|].
  apply Forall_forall. intros r Hr.
  destruct (Forall2_In_l _ _ _ _ Hsam Hr) as [a [_ La]].
  destruct La as (d & name & sub & rec & id & descr & Hd & Hin & He & _ & _).
  exists d. split; [exact Hd|].
  destruct (Forall2_In_r _ _ _ _ Hsub Hin) as [r' [Hr' [a' [_ Es]]]].
  injection Es as _ -> _.
  apply filter_In in Hr'. destruct Hr' as [_ Nb].
  apply negb_true_iff in Nb.
  unfold equals in He. apply andb_true_iff in He. destruct He as [_ He].
  unfold isna_all in *. rewrite (values_eqb_isna _ _ He). exact Nb.
Qed.

(** X17. In the outcome of a successful [parse] the files are created in
    this order: the substrate files, then the one batch file, then the
    sample and process files; and the list [processed_archive] of the
    entry holds the reference of every created file, in that order. *)
Theorem parse_references_every_file (upload_id : string) (df : DataFrame)
    (out : parsed) :
  parse upload_id df = Ok out ->
  processed_archive out
  = map (fun f => get_reference upload_id (fst f)) (created out)
  /\ exists subs file b rest,
       created out = subs ++ (file, EBatch b) :: rest
       /\ Forall (fun f => is_substrate (snd f) = true) subs
       /\ Forall (fun f => is_sample (snd f) || is_process (snd f) = true) rest.
Proof.
  intros H.
  destruct (parse_Ok_inv _ _ _ H)
    as (info0 & ids0 & batch_id0 & substrates0 & samples0 & groups0
        & _ & _ & _ & _ & _ & _ & _ & Hp).
  split; [exact Hp|].
  destruct (parse_Ok_shape _ _ _ H)
    as (info & ids & batch_id & sub_frame & substrates & samples & groups
        & _ & _ & _ & _ & _ & Hsam & Hg & Hc).
  eexists. eexists. eexists. eexists. split; [exact Hc|]. split.
  - apply Forall_map_iff. apply Forall_forall. intros s _. reflexivity.
  - apply Forall_app. split; apply Forall_map_iff.
    + apply linked_samples_are_samples in Hsam.
      eapply Forall_impl; [|exact Hsam]. intros a Ha. cbn [snd]. rewrite Ha.
      reflexivity.
    + apply groups_are_processes in Hg.
      eapply Forall_impl; [|exact Hg]. intros a Ha. cbn [snd]. rewrite Ha.
      apply orb_true_r.
Qed.

End SampleSubstrates.

Lemma sample_rows_have_substrate_witness :
  exists out info,
    parse (RT := Demo.runtime) "up" Examples.df_demo = Ok out
    /\ getitem_level0 Examples.df_demo "Experiment Info" = Ok info
    /\ Forall (fun r =>
                 exists d,
                   series_select (snd r) substrates_col = Ok d
                   /\ isna_all d = false)
              (not_blank (iterrows info)).
Proof.
  destruct (sample_rows_have_substrate (RT := Demo.runtime) "up" Examples.df_demo _
              ltac:(vm_compute; reflexivity)) as (info & A & B).
  eexists. exists info. split; [vm_compute; reflexivity|]. auto.
Defined.

Lemma parse_references_every_file_witness :
  exists out,
    parse (RT := Demo.runtime) "up" Examples.df_demo = Ok out
    /\ processed_archive out
       = map (fun f => get_reference (RT := Demo.runtime) "up" (fst f))
             (created out)
    /\ List.length (processed_archive out) = 9%nat.
Proof.
  destruct (parse_references_every_file (RT := Demo.runtime) "up" Examples.df_demo
              _ ltac:(vm_compute; reflexivity)) as [A _].
  eexists. split; [vm_compute; reflexivity|].
  split; [exact A | vm_compute; reflexivity].
Defined.

(** ** The keys of the process records *)

Lemma string_of_uint_free (d : Decimal.uint) :
  free_of "_"%char (NilEmpty.string_of_uint d) = true.
Proof. induction d; simpl; auto. Qed.

(** [str(n)] of a natural number has no underscore. *)
Lemma str_of_nat_free (n : nat) : free_of "_"%char (str_of_nat n) = true.
Proof.
  unfold str_of_nat, str_of_Z.
  destruct (Z.of_nat n) as [|p|p] eqn:E; [reflexivity| |lia].
  cbn [Z.to_int NilZero.string_of_int]. unfold NilZero.string_of_uint.
  destruct (Pos.to_uint p); try reflexivity; apply string_of_uint_free.
Qed.

Lemma str_of_nat_inj (n m : nat) : str_of_nat n = str_of_nat m -> n = m.
Proof.
  unfold str_of_nat, str_of_Z. intros H.
  assert (N : forall z, (0 <= z)%Z ->
                Z.to_int z <> Decimal.Pos Decimal.Nil
                /\ Z.to_int z <> Decimal.Neg Decimal.Nil).
  { intros [|p|p] Hz; [split; discriminate| |lia].
    cbn [Z.to_int]. split; [|discriminate].
    intros C. injection C as C. apply (Unsigned.to_uint_nonnil p). exact C. }
  destruct (N (Z.of_nat n) (Nat2Z.is_nonneg n)) as [N1 N2].
  destruct (N (Z.of_nat m) (Nat2Z.is_nonneg m)) as [M1 M2].
  pose proof (NilZero.isi _ N1 N2) as In.
  pose proof (NilZero.isi _ M1 M2) as Im.
  rewrite H, Im in In. injection In as In.
  apply to_int_inj in In. lia.
Qed.

(** Two texts that agree after a separator that their heads do not contain
    have the same heads and the same tails. *)
Lemma append_sep_inj (c : ascii) (a b x y : string) :
  free_of c a = true -> free_of c b = true ->
  a +++ String c x = b +++ String c y -> a = b /\ x = y.
Proof.
  revert b; induction a as [|h a IH]; intros [|h' b]; simpl; intros Fa Fb H.
  - injection H as ->. auto.
  - injection H as <- _. rewrite Ascii.eqb_refl in Fb. discriminate.
  - injection H as -> _. rewrite Ascii.eqb_refl in Fa. discriminate.
  - injection H as -> H.
    apply andb_true_iff in Fa. apply andb_true_iff in Fb.
    destruct (IH b (proj2 Fa) (proj2 Fb) H) as [-> ->]. auto.
Qed.

(** X18. The key of a process record determines the position [i] of its
    column group and the label [j] of its row, and the rest of the key (the
    process word, followed by the material where the mapper appends it):
    two process records made for different groups or for different rows
    never get the same key, and so never the same file. *)
Theorem process_key_injective (i j i' j' : nat)
    (kind kind' material material' : string) :
  (process_key i j kind = process_key i' j' kind' ->
   i = i' /\ j = j' /\ kind = kind')
  /\ (process_key i j kind +++ material = process_key i' j' kind' +++ material' ->
      i = i' /\ j = j' /\ kind +++ material = kind' +++ material').
Proof.
  assert (K : forall k k',
             process_key i j k = process_key i' j' k' ->
             i = i' /\ j = j' /\ k = k').
  { unfold process_key. intros k k' H.
    apply (append_sep_inj "_"%char) in H; try apply str_of_nat_free.
    destruct H as [Hi H].
    apply (append_sep_inj "_"%char) in H; try apply str_of_nat_free.
    destruct H as [Hj H].
    apply str_of_nat_inj in Hi. apply str_of_nat_inj in Hj. auto. }
  split; [apply K|].
  intros H. apply K. unfold process_key in *.
  rewrite !append_assoc in H. exact H.
Qed.

Lemma process_key_injective_witness :
  process_key 1 0 "cleaning" = "1_0_cleaning"
  /\ (1 = 1 /\ 0 = 0 /\ "cleaning" = "cleaning")%nat
  /\ (2 = 2 /\ 1 = 1 /\ "sputtering_" +++ "ITO" = "sputtering_" +++ "ITO")%nat.
Proof.
  split; [reflexivity|]. split.
  - apply (process_key_injective 1 0 1 0 "cleaning" "cleaning" "" "").
    reflexivity.
  - apply (process_key_injective 2 1 2 1 "sputtering_" "sputtering_" "ITO" "ITO").
    reflexivity.
Defined.

(** * The records of a table, told by its cells *)

(** *** Keys and equal cells *)

Lemma odd_part_spec (m : positive) (e : Z) :
  exists k : Z,
    (0 <= k)%Z
    /\ snd (odd_part m e) = (e + k)%Z
    /\ (Z.pos m = Z.pos (fst (odd_part m e)) * 2 ^ k)%Z
    /\ Z.odd (Z.pos (fst (odd_part m e))) = true.
Proof.
  revert e; induction m as [m IH|m IH|]; intros e; cbn [odd_part].
  - exists 0%Z. cbn [fst snd]. rewrite Z.pow_0_r.
    split; [lia|]. split; [lia|]. split; [lia | reflexivity].
  - destruct (IH (e + 1)%Z) as (k & Hk & He & Hm & Ho).
    exists (k + 1)%Z. rewrite He, Z.pow_add_r by lia.
    change (2 ^ 1)%Z with 2%Z.
    split; [lia|]. split; [lia|]. split; [|exact Ho].
    rewrite Pos2Z.inj_xO, Hm at 1. lia.
  - exists 0%Z. cbn [fst snd]. rewrite Z.pow_0_r.
    split; [lia|]. split; [lia|]. split; [lia | reflexivity].
Qed.

Lemma odd_times_pow (o o' a b : Z) :
  Z.odd o = true -> Z.odd o' = true -> (0 <= a)%Z -> (0 <= b)%Z ->
  (o * 2 ^ a = o' * 2 ^ b)%Z -> a = b /\ o = o'.
Proof.
  intros Ho Ho' Ha Hb H.
  assert (P : forall x y c d, Z.odd x = true -> (0 <= c)%Z -> (c < d)%Z ->
                (x * 2 ^ c = y * 2 ^ d)%Z -> False).
  { intros x y c d Hx Hc Hd E.
    replace d with (c + (d - c))%Z in E by lia.
    rewrite Z.pow_add_r in E by lia.
    assert (x = y * 2 ^ (d - c))%Z.
    { apply (Z.mul_cancel_r _ _ (2 ^ c)%Z); [apply Z.pow_nonzero; lia|]. lia. }
    subst x. replace (d - c)%Z with (1 + (d - c - 1))%Z in Hx by lia.
    rewrite Z.pow_add_r in Hx by lia.
    replace (y * (2 ^ 1 * 2 ^ (d - c - 1)))%Z
      with (2 * (y * 2 ^ (d - c - 1)))%Z in Hx by (simpl Z.pow; lia).
    rewrite Z.odd_mul in Hx. discriminate Hx. }
  destruct (Z.lt_trichotomy a b) as [L|[E|L]].
  - exfalso. eapply (P o o' a b); eauto.
  - subst b. split; [reflexivity|].
    apply (Z.mul_cancel_r _ _ (2 ^ a)%Z); [apply Z.pow_nonzero; lia | exact H].
  - exfalso. eapply (P o' o b a); eauto.
Qed.

(** Two normalised keys are equal exactly for numbers of the same value. *)
Lemma num_key_same (s s' : bool) (m m' : positive) (e e' : Z) :
  num_key s m e = num_key s' m' e'
  <-> s = s' /\ same_number (Z.pos m, e) (Z.pos m', e').
Proof.
  unfold num_key, same_number. cbn [fst snd].
  destruct (odd_part_spec m e) as (k & Hk & He & Hm & Ho).
  destruct (odd_part_spec m' e') as (k' & Hk' & He' & Hm' & Ho').
  destruct (odd_part m e) as [o x]. destruct (odd_part m' e') as [o' x'].
  cbn [fst snd] in *. subst x x'.
  set (mn := Z.min e e').
  assert (A : (0 <= e - mn)%Z) by (unfold mn; lia).
  assert (A' : (0 <= e' - mn)%Z) by (unfold mn; lia).
  assert (V : (Z.pos m * 2 ^ (e - mn) = Z.pos o * 2 ^ (k + (e - mn)))%Z).
  { rewrite Hm, Z.pow_add_r by lia. lia. }
  assert (V' : (Z.pos m' * 2 ^ (e' - mn) = Z.pos o' * 2 ^ (k' + (e' - mn)))%Z).
  { rewrite Hm', Z.pow_add_r by lia. lia. }
  split.
  - intros H. injection H as -> -> E. split; [reflexivity|].
    rewrite V, V'. f_equal. f_equal. lia.
  - intros [-> H]. rewrite V, V' in H.
    apply odd_times_pow in H; try assumption; try lia.
    destruct H as [E1 E2]. injection E2 as ->. f_equal. lia.
Qed.

Lemma same_number_signs (s s' : bool) (m m' : positive) (e e' : Z) :
  same_number (if s then Z.neg m else Z.pos m, e)
              (if s' then Z.neg m' else Z.pos m', e')
  <-> s = s' /\ same_number (Z.pos m, e) (Z.pos m', e').
Proof.
  unfold same_number. cbn [fst snd]. set (mn := Z.min e e').
  assert (P : (0 < 2 ^ (e - mn))%Z) by (apply Z.pow_pos_nonneg; unfold mn; lia).
  assert (P' : (0 < 2 ^ (e' - mn))%Z) by (apply Z.pow_pos_nonneg; unfold mn; lia).
  destruct s, s'; split.
  - intros H. split; [reflexivity|]. rewrite <- !Pos2Z.opp_pos in H. lia.
  - intros [_ H]. rewrite <- !Pos2Z.opp_pos. lia.
  - intros H. exfalso. pose proof (Pos2Z.neg_is_neg m). pose proof (Pos2Z.is_pos m').
    nia.
  - intros [H _]. discriminate H.
  - intros H. exfalso. pose proof (Pos2Z.neg_is_neg m'). pose proof (Pos2Z.is_pos m).
    nia.
  - intros [H _]. discriminate H.
  - intros H. split; [reflexivity | exact H].
  - intros [_ H]. exact H.
Qed.

Lemma num_key_zero (s : bool) (m : positive) (e e0 : Z) :
  ~ same_number (if s then Z.neg m else Z.pos m, e) (0%Z, e0).
Proof.
  unfold same_number. cbn [fst snd]. set (mn := Z.min e e0).
  assert (P : (0 < 2 ^ (e - mn))%Z) by (apply Z.pow_pos_nonneg; unfold mn; lia).
  destruct s.
  - pose proof (Pos2Z.neg_is_neg m). nia.
  - pose proof (Pos2Z.is_pos m). nia.
Qed.

Lemma num_key_shape (s : bool) (m : positive) (e : Z) :
  exists o x, num_key s m e = KNum s o x.
Proof. unfold num_key. destruct (odd_part m e) as [o x]. eauto. Qed.

Lemma isna_float (f : float) :
  is_nan f = match Prim2SF f with S754_nan => true | _ => false end.
Proof.
  unfold is_nan. rewrite eqb_spec, SFeqb_refl. destruct (Prim2SF f); reflexivity.
Qed.

Lemma view_isna (v : value) :
  isna v = match view v with CNa => true | _ => false end.
Proof.
  destruct v as [|z|f|s]; simpl; try reflexivity.
  - destruct z; reflexivity.
  - rewrite isna_float. destruct (Prim2SF f); reflexivity.
Qed.

Lemma view_text (v : value) :
  text_in v = match view v with CText s => Some s | _ => None end.
Proof.
  destruct v as [|z|f|s]; simpl; try reflexivity.
  - destruct z; reflexivity.
  - destruct (Prim2SF f); reflexivity.
Qed.

Lemma view_dyadic (v : value) :
  match view v with
  | CZero => exists e, dyadic v = Some (0%Z, e)
  | CNum s m e => dyadic v = Some (if s then Z.neg m else Z.pos m, e)
  | _ => dyadic v = None
  end.
Proof.
  destruct v as [|z|f|s]; simpl; try reflexivity.
  - destruct z; simpl; eauto.
  - destruct (Prim2SF f); simpl; eauto.
Qed.

Lemma view_infinity (v : value) :
  infinity_of v = match view v with CInf s => Some s | _ => None end.
Proof.
  destruct v as [|z|f|s]; simpl; try reflexivity.
  - destruct z; reflexivity.
  - destruct (Prim2SF f); reflexivity.
Qed.

Lemma view_key (v : value) :
  value_key v
  = match view v with
    | CNa => KNa
    | CText s => KStr s
    | CInf s => KInf s
    | CZero => KZero
    | CNum s m e => num_key s m e
    end.
Proof.
  destruct v as [|z|f|s]; simpl; try reflexivity.
  - destruct z; reflexivity.
  - destruct (Prim2SF f); reflexivity.
Qed.

Lemma same_number_zero (e e' : Z) : same_number (0%Z, e) (0%Z, e').
Proof. unfold same_number. cbn [fst snd]. lia. Qed.

Lemma same_number_sym (a b : Z * Z) : same_number a b -> same_number b a.
Proof. unfold same_number. rewrite (Z.min_comm (snd b)). intros H. symmetry. exact H. Qed.

(** Two cells have the same key exactly when they match. *)
Lemma value_key_spec (a b : value) : value_key a = value_key b <-> cells_match a b.
Proof.
  unfold cells_match, py_equal.
  rewrite !view_key, !view_isna, !view_text, !view_infinity.
  pose proof (view_dyadic a) as Da. pose proof (view_dyadic b) as Db.
  destruct (view a) as [|s|s| |s m e]; destruct (view b) as [|s'|s'| |s' m' e'];
    repeat match goal with
           | H : exists _, dyadic _ = _ |- _ => destruct H as [? H]
           end;
    rewrite ?Da, ?Db;
    try (destruct (num_key_shape s m e) as (o & xo & K));
    try (destruct (num_key_shape s' m' e') as (o' & xo' & K'));
    try (split; [intros H; rewrite ?K, ?K' in H; discriminate H
                | intros [[H1 H2]|(H1 & H2 & H3)];
                  first [discriminate H1 | discriminate H2 | contradiction H3]]).
  - split; auto.
  - split.
    + intros H. injection H as ->. right. auto.
    + intros [[H _]|(_ & _ & H)]; [discriminate H | congruence].
  - split.
    + intros H. injection H as ->. right. auto.
    + intros [[H _]|(_ & _ & H)]; [discriminate H | congruence].
  - split.
    + intros _. right. split; [reflexivity|]. split; [reflexivity|].
      apply same_number_zero.
    + reflexivity.
  - split.
    + intros H. rewrite K' in H. discriminate H.
    + intros [[H _]|(_ & _ & H)]; [discriminate H|].
      exfalso. apply same_number_sym in H. eapply num_key_zero. exact H.
  - split.
    + intros H. rewrite K in H. discriminate H.
    + intros [[H _]|(_ & _ & H)]; [discriminate H|].
      exfalso. eapply num_key_zero. exact H.
  - rewrite num_key_same. split.
    + intros H. right. split; [reflexivity|]. split; [reflexivity|].
      apply same_number_signs. exact H.
    + intros [[H _]|(_ & _ & H)]; [discriminate H|].
      apply same_number_signs. exact H.
Qed.

Lemma contents_match_keys (a b : list value) :
  contents_match a b <-> map value_key a = map value_key b.
Proof.
  unfold contents_match. split.
  - induction 1 as [|x y a b H _ IH]; simpl; [reflexivity|].
    apply value_key_spec in H. congruence.
  - revert b; induction a as [|x a IH]; intros [|y b] H; try discriminate H.
    + constructor.
    + injection H as H1 H2. constructor; [apply value_key_spec; exact H1 | auto].
Qed.

(** [values_eqb], the test of [drop_duplicates] and [Series.equals], holds
    exactly for rows of cells that match. *)
Lemma values_eqb_spec (a b : list value) :
  values_eqb a b = true <-> contents_match a b.
Proof. rewrite values_eqb_keys, contents_match_keys. reflexivity. Qed.

Lemma contents_match_refl (a : list value) : contents_match a a.
Proof. apply contents_match_keys. reflexivity. Qed.

Lemma contents_match_sym (a b : list value) :
  contents_match a b -> contents_match b a.
Proof. rewrite !contents_match_keys. auto. Qed.

Lemma contents_match_trans (a b c : list value) :
  contents_match a b -> contents_match b c -> contents_match a c.
Proof. rewrite !contents_match_keys. congruence. Qed.

(** *** Lists *)

Lemma those_filter {A : Type} (P : A -> Prop) (p : A -> bool) (l : list A) :
  (forall x, In x l -> (p x = true <-> P x)) -> those P l (filter p l).
Proof.
  induction l as [|x l IH]; intros H; simpl; [constructor|].
  assert (Hl : forall y, In y l -> (p y = true <-> P y))
    by (intros y Hy; apply H; right; exact Hy).
  destruct (p x) eqn:E.
  - apply those_keep; [apply H; [left; reflexivity | exact E] | auto].
  - apply those_skip; [|auto].
    intros C. apply H in C; [congruence | left; reflexivity].
Qed.

Lemma those_In {A : Type} (P : A -> Prop) (l chosen : list A) (x : A) :
  those P l chosen -> (In x chosen <-> In x l /\ P x).
Proof.
  induction 1 as [|y l chosen Py _ IH|y l chosen Py _ IH]; simpl.
  - tauto.
  - rewrite IH. split.
    + intros [->|[H1 H2]]; auto.
    + intros [[->|H1] H2]; auto.
  - rewrite IH. split.
    + intros [H1 H2]; auto.
    + intros [[->|H1] H2]; [contradiction | auto].
Qed.

(** The first elements of an image are the images of the first elements. *)
Lemma firsts_map {A B : Type} (g : A -> B) (same : B -> B -> Prop)
    (earlier l : list A) (kept' : list B) :
  firsts same (map g earlier) (map g l) kept' ->
  exists kept,
    kept' = map g kept /\ firsts (fun a b => same (g a) (g b)) earlier l kept.
Proof.
  revert earlier kept'; induction l as [|x l IH]; intros earlier kept' H.
  - inversion H; subst. exists []. split; [reflexivity | constructor].
  - simpl in H. inversion H as [|e y l' k F H'|e y l' k F H']; subst.
    + replace (map g earlier ++ [g x]) with (map g (earlier ++ [x])) in H'
        by (rewrite map_app; reflexivity).
      destruct (IH _ _ H') as (kept & -> & Hk).
      exists (x :: kept). split; [reflexivity|].
      apply firsts_keep; [|exact Hk].
      apply (Forall_map_iff g (fun b => ~ same b (g x))) in F. exact F.
    + replace (map g earlier ++ [g x]) with (map g (earlier ++ [x])) in H'
        by (rewrite map_app; reflexivity).
      destruct (IH _ _ H') as (kept & -> & Hk).
      exists kept. split; [reflexivity|].
      apply firsts_drop; [|exact Hk].
      apply Exists_exists in F. destruct F as (b & Hb & Sb).
      apply in_map_iff in Hb. destruct Hb as (a & <- & Ha).
      apply Exists_exists. exists a. auto.
Qed.

(** A first element has no earlier element that is the same. *)
Lemma firsts_In {A : Type} (same : A -> A -> Prop) (earlier l kept : list A)
    (x : A) :
  firsts same earlier l kept -> In x kept ->
  exists before after,
    l = before ++ x :: after
    /\ Forall (fun b => ~ same b x) (earlier ++ before).
Proof.
  induction 1 as [|earlier y l kept F _ IH|earlier y l kept F _ IH]; intros Hin.
  - destruct Hin.
  - destruct Hin as [->|Hin].
    + exists [], l. split; [reflexivity|]. rewrite app_nil_r. exact F.
    + destruct (IH Hin) as (before & after & -> & Fb).
      exists (y :: before), after. split; [reflexivity|].
      rewrite <- app_assoc in Fb. exact Fb.
  - destruct (IH Hin) as (before & after & -> & Fb).
    exists (y :: before), after. split; [reflexivity|].
    rewrite <- app_assoc in Fb. exact Fb.
Qed.

(** An element with no earlier same element is a first element. *)
Lemma firsts_first {A : Type} (same : A -> A -> Prop) (earlier l kept : list A)
    (before after : list A) (x : A) :
  firsts same earlier l kept ->
  l = before ++ x :: after ->
  Forall (fun b => ~ same b x) (earlier ++ before) ->
  In x kept.
Proof.
  intros H. revert before.
  induction H as [|earlier y l kept F _ IH|earlier y l kept F _ IH];
    intros before E Fb.
  - destruct before; discriminate E.
  - destruct before as [|z before]; simpl in E; injection E as -> ->.
    + left. reflexivity.
    + right. apply (IH before); [reflexivity|].
      rewrite <- app_assoc. exact Fb.
  - destruct before as [|z before]; simpl in E; injection E as -> ->.
    + exfalso. rewrite app_nil_r in Fb.
      apply Exists_exists in F. destruct F as (b & Hb & Sb).
      rewrite Forall_forall in Fb. exact (Fb _ Hb Sb).
    + apply (IH before); [reflexivity|].
      rewrite <- app_assoc. exact Fb.
Qed.

(** Every element is the same as a first element, when [same] is an
    equivalence. *)
Lemma firsts_cover {A : Type} (same : A -> A -> Prop) (l kept : list A) (x : A) :
  (forall a, same a a) ->
  (forall a b, same a b -> same b a) ->
  (forall a b c, same a b -> same b c -> same a c) ->
  (forall a b, same a b \/ ~ same a b) ->
  firsts same [] l kept -> In x l ->
  exists before after y,
    l = before ++ y :: after /\ In y kept /\ same y x
    /\ Forall (fun b => ~ same b x) before.
Proof.
  intros R S T D H Hin.
  (* the first element of [l] that is the same as [x] *)
  assert (Hex : exists before after y,
             l = before ++ y :: after /\ same y x
             /\ Forall (fun b => ~ same b x) before).
  { clear H. induction l as [|z l IH]; [destruct Hin|].
    destruct (D z x) as [Sz|Nz].
    - exists [], l, z. split; [reflexivity|]. split; [exact Sz | constructor].
    - destruct Hin as [->|Hin]; [exfalso; apply Nz, R|].
      destruct (IH Hin) as (before & after & y & -> & Sy & Fb).
      exists (z :: before), after, y. split; [reflexivity|].
      split; [exact Sy|]. constructor; assumption. }
  destruct Hex as (before & after & y & E & Sy & Fb).
  exists before, after, y. split; [exact E|]. split; [|split; assumption].
  eapply (firsts_first same [] l kept before after y H E).
  simpl. eapply Forall_impl; [|exact Fb].
  intros b Hb C. apply Hb. eapply T; eassumption.
Qed.

(** *** [drop_duplicates] and [unique] keep the first occurrences *)

Lemma drop_duplicates_rows_firsts (seen : list (list value))
    (earlier rows : list (nat * list value)) :
  (forall k, In k (map (map value_key) seen)
             <-> In k (map (fun r => map value_key (snd r)) earlier)) ->
  firsts (fun a b => contents_match (snd a) (snd b)) earlier rows
         (drop_duplicates_rows seen rows).
Proof.
  revert seen earlier; induction rows as [|r rows IH]; intros seen earlier I;
    simpl; [constructor|].
  assert (X : existsb (values_eqb (snd r)) seen = true
              <-> Exists (fun b => contents_match (snd b) (snd r)) earlier).
  { rewrite existsb_values_eqb, I, in_map_iff, Exists_exists.
    split; intros (b & H1 & H2).
    - exists b. split; [exact H2|]. apply contents_match_keys. exact H1.
    - exists b. split; [|exact H1]. apply contents_match_keys. exact H2. }
  destruct (existsb (values_eqb (snd r)) seen) eqn:E.
  - apply firsts_drop; [apply X; reflexivity|].
    apply IH. intros k. rewrite I, map_app, in_app_iff. simpl.
    split; [auto|]. intros [H|[<-|[]]]; [exact H|].
    apply I. apply existsb_values_eqb. exact E.
  - apply firsts_keep.
    + apply Forall_forall. intros b Hb C.
      assert (Y : Exists (fun b => contents_match (snd b) (snd r)) earlier)
        by (apply Exists_exists; eauto).
      apply X in Y. discriminate Y.
    + apply IH. intros k. simpl. rewrite I, map_app, in_app_iff. simpl. tauto.
Qed.

(** The rows [drop_duplicates] keeps are the rows that no earlier row
    matches. *)
Lemma drop_duplicates_firsts {K : Type} (f : Frame K) :
  firsts (fun a b => contents_match (snd a) (snd b)) [] (f_rows f)
         (f_rows (drop_duplicates f)).
Proof.
  unfold drop_duplicates. cbn [f_rows].
  apply drop_duplicates_rows_firsts. intros k. simpl. tauto.
Qed.

Lemma filter_not_earlier (earlier u : list string) (x : string) :
  filter (fun y => negb (existsb (String.eqb y) earlier))
         (filter (fun y => negb (String.eqb x y)) u)
  = filter (fun y => negb (existsb (String.eqb y) (earlier ++ [x]))) u.
Proof.
  induction u as [|y u IHu]; simpl; [reflexivity|].
  rewrite existsb_app. simpl. rewrite orb_false_r, (String.eqb_sym y x).
  destruct (String.eqb x y); simpl.
  - rewrite orb_true_r. simpl. exact IHu.
  - rewrite orb_false_r. destruct (existsb (String.eqb y) earlier); simpl;
      rewrite IHu; reflexivity.
Qed.

Lemma unique_firsts_from (earlier l : list string) :
  firsts eq earlier l
         (filter (fun y => negb (existsb (String.eqb y) earlier)) (unique l)).
Proof.
  revert earlier; induction l as [|x l IH]; intros earlier; simpl; [constructor|].
  destruct (existsb (String.eqb x) earlier) eqn:E; simpl.
  - rewrite filter_not_earlier. apply firsts_drop; [|apply IH].
    apply existsb_exists in E. destruct E as (b & Hb & Eb).
    apply Exists_exists. exists b. split; [exact Hb|].
    apply String.eqb_eq in Eb. congruence.
  - rewrite filter_not_earlier. apply firsts_keep; [|apply IH].
    apply Forall_forall. intros b Hb ->.
    assert (C : existsb (String.eqb x) earlier = true).
    { apply existsb_exists. exists x. split; [exact Hb | apply String.eqb_refl]. }
    congruence.
Qed.

(** [unique] keeps the names in the order of their first occurrence. *)
Lemma unique_firsts (l : list string) : firsts eq [] l (unique l).
Proof.
  pose proof (unique_firsts_from [] l) as H. simpl in H.
  rewrite filter_all in H; [exact H|]. apply Forall_forall. reflexivity.
Qed.

Lemma Forall2_enumerate_from {A B : Type} (P : A -> B -> Prop) (l : list A)
    (ys : list B) (n : nat) :
  Forall2 (fun ic y => P (snd ic) y) (combine (seq n (List.length l)) l) ys ->
  Forall2 P l ys.
Proof.
  revert ys n; induction l as [|x l IH]; intros ys n H; simpl in H.
  - inversion H. constructor.
  - inversion H as [|ic y l' ys' Hx Hl]; subst. constructor; [exact Hx|].
    eapply IH. exact Hl.
Qed.

(** *** The groups of a table *)

Lemma row_typed_length (ds : list dtype) (vs : list value) :
  row_typed ds vs = true -> List.length vs = List.length ds.
Proof.
  revert vs; induction ds as [|d ds IH]; intros [|v vs] H; simpl in *;
    try discriminate; [reflexivity|].
  apply andb_true_iff in H. f_equal. apply IH, H.
Qed.

Lemma well_typed_length {K : Type} (f : Frame K) (r : nat * list value) :
  well_typed f = true -> In r (f_rows f) ->
  List.length (snd r) = List.length (f_columns f).
Proof.
  unfold well_typed. intros T Hr. rewrite forallb_forall in T.
  rewrite (row_typed_length _ _ (T _ Hr)). apply length_map.
Qed.

Lemma pick_cells_under (cols : list (string * string * dtype)) (vs pre : list value)
    (top : string) :
  List.length vs = List.length cols ->
  pick VNone (positions (fun k : string * string => String.eqb (fst k) top) cols
                        (List.length pre))
       (pre ++ vs)
  = map snd (cells_under cols vs top).
Proof.
  revert vs pre; induction cols as [|c cols IH]; intros [|v vs] pre L;
    simpl in *; try discriminate; [reflexivity|].
  injection L as L.
  assert (E : pre ++ v :: vs = (pre ++ [v]) ++ vs)
    by (rewrite <- app_assoc; reflexivity).
  assert (N : S (List.length pre) = List.length (pre ++ [v]))
    by (rewrite length_app; simpl; lia).
  destruct (String.eqb (fst (fst c)) top); simpl.
  - f_equal.
    + rewrite app_nth2 by lia. rewrite Nat.sub_diag. reflexivity.
    + rewrite E, N. apply IH. exact L.
  - rewrite E, N. apply IH. exact L.
Qed.

Lemma names_cells_under (cols : list (string * string * dtype)) (vs : list value)
    (top : string) :
  List.length vs = List.length cols ->
  map fst (cells_under cols vs top)
  = map (fun c => snd (fst c))
        (filter (fun c => String.eqb (fst (fst c)) top) cols).
Proof.
  revert vs; induction cols as [|c cols IH]; intros [|v vs] L; simpl in *;
    try discriminate; [reflexivity|].
  injection L as L. destruct (String.eqb (fst (fst c)) top); simpl; rewrite IH;
    auto.
Qed.

(** The rows of [df[top]]: the cells of each row under [top]. *)
Lemma getitem_level0_rows (df : DataFrame) (top : string) (g : Frame string) :
  well_typed df = true -> getitem_level0 df top = Ok g ->
  f_rows g = map (fun r => (fst r, map snd (group_cells df top r))) (f_rows df).
Proof.
  intros T. unfold getitem_level0.
  destruct (positions _ (f_columns df) 0) as [|n ns] eqn:E; [discriminate|].
  intros H. injection H as <-. cbn [f_rows]. apply map_ext_in. intros r Hr.
  pose proof (pick_cells_under (f_columns df) (snd r) [] top
                (well_typed_length _ _ T Hr)) as P.
  simpl in P. rewrite E in P. unfold group_cells. rewrite <- P. reflexivity.
Qed.

Lemma getitem_level0_names (df : DataFrame) (top : string) (g : Frame string)
    (r : nat * list value) :
  well_typed df = true -> getitem_level0 df top = Ok g -> In r (f_rows df) ->
  map fst (f_columns g) = map fst (group_cells df top r).
Proof.
  intros T H Hr. rewrite (getitem_level0_columns _ _ _ H), map_map. cbn [fst].
  unfold group_cells. rewrite names_cells_under; [reflexivity|].
  apply well_typed_length; assumption.
Qed.

Lemma getitem_level0_dtypes (df : DataFrame) (top : string) (g : Frame string) :
  getitem_level0 df top = Ok g -> map snd (f_columns g) = group_dtypes df top.
Proof.
  intros H. rewrite (getitem_level0_columns _ _ _ H), map_map. reflexivity.
Qed.

Lemma lookup_cells (cells : list (string * value)) (g : value -> value)
    (name : string) :
  lookup (map fst cells) (map g (map snd cells)) name
  = option_map g (cell_of cells name).
Proof.
  induction cells as [|c cells IH]; simpl; [reflexivity|].
  destruct (String.eqb (fst c) name); [reflexivity | exact IH].
Qed.

Lemma map_cast_object (vs : list value) : map (cast object) vs = vs.
Proof. apply map_id. Qed.

(** The cast of [iterrows] is the upcast of ints to floats. *)
Lemma cast_upcast (ds : list dtype) (v : value) :
  cast (common_dtype ds) v = if upcast ds then as_float v else v.
Proof.
  unfold common_dtype, upcast.
  destruct (existsb (dtype_eqb object) ds); [reflexivity|].
  destruct (existsb (dtype_eqb float64) ds); simpl.
  - destruct v; reflexivity.
  - destruct ds; destruct v; reflexivity.
Qed.

Lemma iterated_cells_cast (df : DataFrame) (top : string) (r : nat * list value) :
  map snd (iterated_cells df top r)
  = map (cast (common_dtype (group_dtypes df top)))
        (map snd (group_cells df top r)).
Proof.
  unfold iterated_cells. rewrite map_map.
  destruct (upcast (group_dtypes df top)) eqn:U.
  - rewrite map_map. apply map_ext. intros c. cbn [fst snd].
    rewrite cast_upcast, U. reflexivity.
  - apply map_ext. intros c. rewrite cast_upcast, U. reflexivity.
Qed.

Lemma iterated_cells_names (df : DataFrame) (top : string) (r : nat * list value) :
  map fst (iterated_cells df top r) = map fst (group_cells df top r).
Proof.
  unfold iterated_cells. destruct (upcast (group_dtypes df top)); [|reflexivity].
  rewrite map_map. reflexivity.
Qed.

Lemma cells_split (cells : list (string * value)) :
  cells = combine (map fst cells) (map snd cells).
Proof.
  induction cells as [|[n v] cells IH]; simpl; [reflexivity|]. f_equal. exact IH.
Qed.

Lemma index_eqb_refl (l : list string) : index_eqb l l = true.
Proof.
  induction l as [|x l IH]; simpl; [reflexivity|].
  rewrite String.eqb_refl. exact IH.
Qed.

Lemma Forall2_map_l {A B C : Type} (g : A -> B) (R : B -> C -> Prop)
    (l : list A) (l' : list C) :
  Forall2 R (map g l) l' <-> Forall2 (fun x y => R (g x) y) l l'.
Proof.
  revert l'; induction l as [|x l IH]; intros l'; simpl.
  - split; intros H; inversion H; constructor.
  - split; intros H; inversion H; subst; constructor; auto; apply IH; auto.
Qed.

Lemma Forall2_map_r {A B C : Type} (g : B -> C) (R : A -> C -> Prop)
    (l : list A) (l' : list B) :
  Forall2 R l (map g l') <-> Forall2 (fun x y => R x (g y)) l l'.
Proof.
  revert l'; induction l as [|x l IH]; intros [|y l']; simpl;
    split; intros H; inversion H; subst; constructor; auto; apply IH; auto.
Qed.

Lemma Forall2_impl_In {A B : Type} (R R' : A -> B -> Prop) (l : list A)
    (l' : list B) :
  (forall x y, In x l -> R x y -> R' x y) -> Forall2 R l l' -> Forall2 R' l l'.
Proof.
  intros H F. induction F as [|x y l l' Hxy _ IH]; constructor.
  - apply H; [left; reflexivity | exact Hxy].
  - apply IH. intros a b Ha. apply H. right. exact Ha.
Qed.

Lemma filter_map_comm {A B : Type} (g : A -> B) (p : B -> bool) (l : list A) :
  filter p (map g l) = map g (filter (fun x => p (g x)) l).
Proof.
  induction l as [|x l IH]; simpl; [reflexivity|].
  destruct (p (g x)); simpl; rewrite IH; reflexivity.
Qed.

Lemma combine_map_same {A B C : Type} (g : A -> B) (h : A -> C) (l : list A) :
  combine (map g l) (map h l) = map (fun x => (g x, h x)) l.
Proof. induction l as [|x l IH]; simpl; [reflexivity|]. rewrite IH. reflexivity. Qed.

Lemma Forall2_eq_map {A B : Type} (f : A -> B) (l : list A) (l' : list B) :
  Forall2 (fun x y => f x = y) l l' -> l' = map f l.
Proof. induction 1 as [|x y l l' H _ IH]; simpl; congruence. Qed.

Lemma common_dtype_object (ds : list dtype) :
  existsb (dtype_eqb object) ds = true -> common_dtype ds = object.
Proof. unfold common_dtype. intros ->. reflexivity. Qed.

Section ProcessSpec.
Context {RT : Runtime}.

(** A table whose first 'Nomad ID' is a text has a column of dtype object
    under 'Experiment Info'. *)
Lemma info_has_object (df : DataFrame) (info : Frame string) (ids : list value)
    (batch_id : string) :
  well_typed df = true ->
  getitem_level0 df "Experiment Info" = Ok info ->
  getitem_column info "Nomad ID" = Ok ids ->
  batch_id_of (dropna ids) = Ok batch_id ->
  existsb (dtype_eqb object) (map snd (f_columns info)) = true.
Proof.
  intros T Hinfo Hids Hb.
  pose proof (getitem_level0_well_typed _ _ _ T Hinfo) as Ti.
  unfold getitem_column in Hids.
  destruct (column_position (f_columns info) "Nomad ID" 0) as [n|] eqn:P;
    [|discriminate].
  injection Hids as <-.
  pose proof (column_position_bounds _ _ _ _ P) as B.
  unfold batch_id_of in Hb.
  destruct (dropna (map (fun r => nth n (snd r) VNone) (f_rows info)))
    as [|v rest] eqn:E; [discriminate|].
  destruct v as [|z|x|s]; try discriminate.
  assert (Hin : In (VStr s) (dropna (map (fun r => nth n (snd r) VNone)
                                        (f_rows info))))
    by (rewrite E; left; reflexivity).
  apply filter_In in Hin. destruct Hin as [Hin _].
  apply in_map_iff in Hin. destruct Hin as [r0 [E0 Hr0]].
  unfold well_typed in Ti. rewrite forallb_forall in Ti. specialize (Ti _ Hr0).
  pose proof (row_typed_nth _ _ n object Ti) as C.
  rewrite length_map in C. assert (L : (n < List.length (f_columns info))%nat) by lia.
  specialize (C L). rewrite E0 in C.
  apply existsb_exists. exists (nth n (map snd (f_columns info)) object). split.
  - apply nth_In. rewrite length_map. exact L.
  - destruct (nth n (map snd (f_columns info)) object); try discriminate C.
    reflexivity.
Qed.

(** Reading a cell of a row of [iterrows] by its name. *)
Lemma series_get_cells (df : DataFrame) (top : string) (g : Frame string)
    (r : nat * list value) (d : dtype) (c : value -> value) (name : string) :
  well_typed df = true -> getitem_level0 df top = Ok g -> In r (f_rows df) ->
  series_get {| s_dtype := d; s_index := map fst (f_columns g);
                s_values := map c (map snd (group_cells df top r)) |} name
  = option_map c (cell_of (group_cells df top r) name).
Proof.
  intros T H Hr. unfold series_get. cbn [s_index s_values].
  rewrite (getitem_level0_names _ _ _ _ T H Hr). apply lookup_cells.
Qed.

Lemma cell_of_iterated (df : DataFrame) (top : string) (r : nat * list value)
    (name : string) :
  cell_of (iterated_cells df top r) name
  = option_map (cast (common_dtype (group_dtypes df top)))
               (cell_of (group_cells df top r) name).
Proof.
  rewrite (cells_split (iterated_cells df top r)).
  rewrite iterated_cells_names, iterated_cells_cast.
  rewrite <- lookup_cells.
  generalize (map (cast (common_dtype (group_dtypes df top)))
                  (map snd (group_cells df top r))).
  generalize (map fst (group_cells df top r)).
  intros ks. induction ks as [|k ks IH]; intros [|v vs]; simpl; try reflexivity.
  destruct (String.eqb k name); [reflexivity | apply IH].
Qed.

(** The lab ids the code gathers for a row of distinct content are the
    'Nomad ID' cells of the rows that share its process. *)
Lemma shared_lab_ids_spec (df : DataFrame) (col : string)
    (info group : Frame string) (r : nat * list value) (lab_ids : list value) :
  well_typed df = true ->
  getitem_level0 df "Experiment Info" = Ok info ->
  existsb (dtype_eqb object) (map snd (f_columns info)) = true ->
  getitem_level0 df col = Ok group ->
  shared_lab_ids df col
    {| s_dtype := common_dtype (map snd (f_columns group));
       s_index := map fst (f_columns group);
       s_values := map (cast (common_dtype (map snd (f_columns group))))
                       (map snd (group_cells df col r)) |}
    lab_ids ->
  exists sharing,
    those (shares_process df col r) (f_rows df) sharing
    /\ lab_ids = map (cell df "Experiment Info" "Nomad ID") sharing.
Proof.
  intros T Hinfo Hobj Hgroup (xs & Hxs & F).
  unfold iterrows_pair in Hxs. rewrite Hinfo, Hgroup in Hxs.
  cbn [bind] in Hxs. injection Hxs as <-.
  assert (D : common_dtype (map snd (f_columns info) ++ map snd (f_columns group))
              = object).
  { apply common_dtype_object. rewrite existsb_app, Hobj. reflexivity. }
  rewrite D in F.
  rewrite (getitem_level0_rows _ _ _ T Hinfo), (getitem_level0_rows _ _ _ T Hgroup),
    combine_map_same in F.
  rewrite !filter_map_comm in F.
  apply (proj1 (Forall2_map_l _ _ _ _)) in F. apply (proj1 (Forall2_map_l _ _ _ _)) in F. cbn [fst snd] in F.
  match type of F with
  | Forall2 _ (filter ?q _) _ => set (keep := q) in *
  end.
  exists (filter keep (f_rows df)). split.
  - apply those_filter. intros k Hk.
    unfold keep, equals, astype_object, shares_process.
    cbn [s_index s_dtype s_values dtype_eqb].
    rewrite index_eqb_refl. cbn [andb]. rewrite values_eqb_spec, map_cast_object.
    rewrite iterated_cells_cast, (getitem_level0_dtypes _ _ _ Hgroup). reflexivity.
  - apply Forall2_eq_map. eapply Forall2_impl_In; [|exact F].
    intros k id Hk H. cbv beta in H. apply filter_In in Hk. destruct Hk as [Hk _].
    unfold series_getitem in H.
    rewrite (series_get_cells df "Experiment Info" info k object (cast object)
               "Nomad ID" T Hinfo Hk) in H.
    unfold cell. destruct (cell_of (group_cells df "Experiment Info" k) "Nomad ID");
      simpl in H; [|discriminate H].
    injection H as <-. reflexivity.
Qed.

Lemma keyword_count_spec (df : DataFrame) (col : string) (group : Frame string)
    (r : nat * list value) :
  well_typed df = true -> getitem_level0 df col = Ok group -> In r (f_rows df) ->
  keyword_count col
    {| s_dtype := common_dtype (map snd (f_columns group));
       s_index := map fst (f_columns group);
       s_values := map (cast (common_dtype (map snd (f_columns group))))
                       (map snd (group_cells df col r)) |}
  = word_count col (material_missing_in (iterated_cells df col r)).
Proof.
  intros T H Hr. unfold keyword_count, word_count, material_missing,
    material_missing_in.
  rewrite (series_get_cells df col group r _ _ "Material name" T H Hr).
  rewrite cell_of_iterated, (getitem_level0_dtypes _ _ _ H). reflexivity.
Qed.

Lemma sample_refs_refer (df : DataFrame) (upload_id : string)
    (sharing : list (nat * list value)) :
  Forall2 (refers_to df upload_id) sharing
    (sample_refs upload_id (map (cell df "Experiment Info" "Nomad ID") sharing)).
Proof.
  unfold sample_refs. rewrite map_map.
  induction sharing as [|k l IH]; simpl; constructor; [reflexivity | exact IH].
Qed.

(** The process records of a group, told by the cells of the table. *)
Lemma records_of_group_spec (df : DataFrame) (upload_id : string)
    (info : Frame string) (ic : nat * string) (recs : list (value * entry)) :
  well_typed df = true ->
  getitem_level0 df "Experiment Info" = Ok info ->
  existsb (dtype_eqb object) (map snd (f_columns info)) = true ->
  records_of_group df upload_id ic recs ->
  spec_group_records df upload_id (snd ic) recs.
Proof.
  intros T Hinfo Hobj. unfold records_of_group, spec_group_records.
  destruct (String.eqb (snd ic) "Experiment Info"); [auto|].
  intros (group & per_row & Hgroup & _ & -> & F).
  pose proof (drop_duplicates_firsts group) as D.
  rewrite (getitem_level0_rows _ _ _ T Hgroup) in D.
  apply (firsts_map (fun r => (fst r, map snd (group_cells df (snd ic) r)))
           (fun a b => contents_match (snd a) (snd b)) [] (f_rows df)) in D.
  destruct D as (distinct & Ek & D).
  exists distinct, per_row. split; [exact D|]. split; [reflexivity|].
  unfold iterrows in F. rewrite Ek in F.
  apply (proj1 (Forall2_map_l _ _ _ _)) in F. cbn [fst snd drop_duplicates f_columns] in F.
  apply (proj1 (Forall2_map_l _ _ _ _)) in F. cbn [fst snd] in F.
  eapply Forall2_impl_In; [|exact F].
  intros r new Hr (lab_ids & Hs & Hl & Hf). cbn [snd] in Hs, Hl.
  assert (Hin : In r (f_rows df)).
  { destruct (firsts_In _ _ _ _ r D Hr) as (before & after & E & _).
    rewrite E. apply in_or_app. right. left. reflexivity. }
  apply (shared_lab_ids_spec df (snd ic) info group r lab_ids T Hinfo Hobj Hgroup)
    in Hs.
  destruct Hs as (sharing & Hsh & ->).
  exists sharing. split; [exact Hsh|]. split.
  - rewrite Hl. apply keyword_count_spec; assumption.
  - eapply Forall_impl; [|exact Hf]. intros e He.
    exists (sample_refs upload_id
              (map (cell df "Experiment Info" "Nomad ID") sharing)).
    split; [exact He | apply sample_refs_refer].
Qed.

End ProcessSpec.

(** *** Substrates and samples *)

Lemma nth_nth_error {A : Type} (l : list A) (n : nat) (d : A) :
  nth n l d = match nth_error l n with Some v => v | None => d end.
Proof.
  revert n; induction l as [|x l IH]; intros [|n]; simpl; try reflexivity.
  apply IH.
Qed.

Lemma column_position_name (cols : list (string * dtype)) (name : string)
    (k n : nat) (d : string * dtype) :
  column_position cols name k = Some n -> fst (nth (n - k) cols d) = name.
Proof.
  revert k; induction cols as [|c cols IH]; intros k; simpl; [discriminate|].
  destruct (String.eqb (fst c) name) eqn:E.
  - intros H. injection H as <-. rewrite Nat.sub_diag.
    apply String.eqb_eq. exact E.
  - intros H. pose proof (column_position_bounds _ _ _ _ H) as B.
    replace (n - k)%nat with (S (n - S k)) by lia. apply (IH _ H).
Qed.

Lemma column_positions_Forall2 (cols : list (string * dtype)) (names : list string)
    (ns : list nat) :
  column_positions cols names = Ok ns ->
  Forall2 (fun name n => column_position cols name 0 = Some n) names ns.
Proof.
  unfold column_positions. intros H. apply mapM_Ok_Forall2 in H.
  eapply Forall2_impl; [|exact H]. intros name n Hn. cbv beta in Hn.
  destruct (column_position cols name 0); [|discriminate Hn].
  injection Hn as ->. reflexivity.
Qed.

Section SubstrateSpec.
Context {RT : Runtime}.

(** The cell of a row of 'Experiment Info' at the position of a column. *)
Lemma cell_at_position (df : DataFrame) (info : Frame string)
    (r : nat * list value) (name : string) (n : nat) :
  well_typed df = true ->
  getitem_level0 df "Experiment Info" = Ok info -> In r (f_rows df) ->
  column_position (f_columns info) name 0 = Some n ->
  nth n (map snd (group_cells df "Experiment Info" r)) VNone
  = cell df "Experiment Info" name r.
Proof.
  intros T Hinfo Hr P. unfold cell.
  pose proof (lookup_column_position (f_columns info)
                (map snd (group_cells df "Experiment Info" r)) name 0 n P) as L.
  rewrite (getitem_level0_names _ _ _ _ T Hinfo Hr), Nat.sub_0_r in L.
  pose proof (lookup_cells (group_cells df "Experiment Info" r) (fun v => v) name)
    as C.
  rewrite map_id in C. rewrite C in L.
  destruct (cell_of (group_cells df "Experiment Info" r) name) as [v|];
    simpl in L; rewrite nth_nth_error, <- L; reflexivity.
Qed.

(** The rows of the frame of the four substrate columns. *)
Lemma substrate_frame (df : DataFrame) (info sf : Frame string) :
  well_typed df = true ->
  getitem_level0 df "Experiment Info" = Ok info ->
  getitem_columns info substrates_col = Ok sf ->
  f_rows sf = map (fun r => (fst r, substrate_cells df r)) (f_rows df)
  /\ map fst (f_columns sf) = substrates_col.
Proof.
  intros T Hinfo H. unfold getitem_columns in H.
  apply bind_Ok in H. destruct H as [ns [Hns H]]. injection H as <-.
  apply column_positions_Forall2 in Hns. cbn [f_rows f_columns]. split.
  - rewrite (getitem_level0_rows _ _ _ T Hinfo), map_map. cbn [fst snd].
    apply map_ext_in. intros r Hr. f_equal. unfold substrate_cells, pick.
    induction Hns as [|name n names ns P _ IH]; simpl; [reflexivity|].
    rewrite IH. f_equal. apply (cell_at_position df info r name n T Hinfo Hr P).
  - unfold pick. rewrite map_map.
    induction Hns as [|name n names ns P _ IH]; simpl; [reflexivity|].
    rewrite IH. f_equal.
    pose proof (column_position_name _ _ _ _ ("", object) P) as N.
    rewrite Nat.sub_0_r in N. exact N.
Qed.

End SubstrateSpec.

Lemma dtype_eqb_eq (a b : dtype) : dtype_eqb a b = true -> a = b.
Proof. destruct a, b; simpl; intros H; try discriminate; reflexivity. Qed.

Lemma filter_head_split {A : Type} (p : A -> bool) (l : list A) (x : A)
    (rest : list A) :
  filter p l = x :: rest ->
  exists before after,
    l = before ++ x :: after
    /\ Forall (fun y => p y = false) before
    /\ p x = true /\ filter p after = rest.
Proof.
  induction l as [|y l IH]; simpl; [discriminate|].
  destruct (p y) eqn:E.
  - intros H. injection H as -> <-. exists [], l. repeat split; auto.
  - intros H. destruct (IH H) as (before & after & -> & F & Px & R).
    exists (y :: before), after. repeat split; auto.
Qed.

Section TableSpec.
Context {RT : Runtime}.

(** The 'Nomad ID' column holds the 'Nomad ID' cells of the rows. *)
Lemma ids_cells (df : DataFrame) (info : Frame string) (ids : list value) :
  well_typed df = true ->
  getitem_level0 df "Experiment Info" = Ok info ->
  getitem_column info "Nomad ID" = Ok ids ->
  ids = map (cell df "Experiment Info" "Nomad ID") (f_rows df).
Proof.
  intros T Hinfo H. unfold getitem_column in H.
  destruct (column_position (f_columns info) "Nomad ID" 0) as [n|] eqn:P;
    [|discriminate].
  injection H as <-.
  rewrite (getitem_level0_rows _ _ _ T Hinfo), map_map. cbn [snd].
  apply map_ext_in. intros r Hr.
  apply (cell_at_position df info r "Nomad ID" n T Hinfo Hr P).
Qed.

(** The rows of [df['Experiment Info'].iterrows()] when a column of the
    group holds text. *)
Lemma iterrows_info (df : DataFrame) (info : Frame string) :
  well_typed df = true ->
  getitem_level0 df "Experiment Info" = Ok info ->
  existsb (dtype_eqb object) (map snd (f_columns info)) = true ->
  iterrows info
  = map (fun r => (fst r,
                   {| s_dtype := object;
                      s_index := map fst (f_columns info);
                      s_values := map snd (group_cells df "Experiment Info" r) |}))
        (f_rows df).
Proof.
  intros T Hinfo Hobj. unfold iterrows.
  rewrite (common_dtype_object _ Hobj), (getitem_level0_rows _ _ _ T Hinfo), map_map.
  cbn [fst snd]. apply map_ext. intros r. rewrite map_cast_object. reflexivity.
Qed.

(** The four substrate cells of a row of [iterrows]. *)
Lemma select_substrate_cells (df : DataFrame) (info sf : Frame string)
    (r : nat * list value) (d : Series) :
  well_typed df = true ->
  getitem_level0 df "Experiment Info" = Ok info ->
  getitem_columns info substrates_col = Ok sf ->
  In r (f_rows df) ->
  series_select
    {| s_dtype := object;
       s_index := map fst (f_columns info);
       s_values := map snd (group_cells df "Experiment Info" r) |}
    substrates_col = Ok d ->
  d = substrate_row df r.
Proof.
  intros T Hinfo Hsf Hr H. unfold series_select in H.
  apply bind_Ok in H. destruct H as [vs [Hvs H]]. injection H as <-.
  cbn [s_dtype]. unfold substrate_row. f_equal.
  apply mapM_Ok_Forall2 in Hvs. unfold substrate_cells.
  apply Forall2_eq_map. eapply Forall2_impl; [|exact Hvs].
  intros name v Hv. cbv beta in Hv. unfold series_getitem in Hv.
  pose proof (series_get_cells df "Experiment Info" info r object (fun v => v)
                name T Hinfo Hr) as G.
  rewrite map_id in G. rewrite G in Hv. unfold cell.
  destruct (cell_of (group_cells df "Experiment Info" r) name); simpl in Hv;
    [|discriminate Hv].
  injection Hv as <-. reflexivity.
Qed.

(** The rows [drop_duplicates] keeps of the four substrate columns. *)
Lemma substrate_rows (df : DataFrame) (info sf : Frame string) :
  well_typed df = true ->
  getitem_level0 df "Experiment Info" = Ok info ->
  getitem_columns info substrates_col = Ok sf ->
  exists distinct,
    firsts (same_substrate df) [] (f_rows df) distinct
    /\ iterrows (drop_duplicates sf)
       = map (fun r =>
                (fst r,
                 {| s_dtype := common_dtype (map snd (f_columns sf));
                    s_index := substrates_col;
                    s_values := map (cast (common_dtype (map snd (f_columns sf))))
                                    (substrate_cells df r) |}))
             distinct.
Proof.
  intros T Hinfo Hsf.
  destruct (substrate_frame _ _ _ T Hinfo Hsf) as [Er En].
  pose proof (drop_duplicates_firsts sf) as D. rewrite Er in D.
  apply (firsts_map (fun r => (fst r, substrate_cells df r))
           (fun a b => contents_match (snd a) (snd b)) [] (f_rows df)) in D.
  destruct D as (distinct & Ek & D). exists distinct. split; [exact D|].
  unfold iterrows. rewrite Ek. cbn [drop_duplicates f_columns].
  rewrite En, map_map. reflexivity.
Qed.

(** A cell that is not missing: the row is not blank. *)
Lemma cell_not_missing (df : DataFrame) (top name : string)
    (r : nat * list value) :
  isna (cell df top name r) = false ->
  forallb isna (map snd (group_cells df top r)) = false.
Proof.
  unfold cell. intros H.
  destruct (cell_of (group_cells df top r) name) as [v|] eqn:C;
    [|discriminate H].
  apply (forallb_false_In isna _ v); [|exact H].
  revert C. generalize (group_cells df top r). intros cells.
  induction cells as [|c cells IH]; simpl; [discriminate|].
  destruct (String.eqb (fst c) name).
  - intros E. injection E as <-. left. reflexivity.
  - intros E. right. apply IH, E.
Qed.

(** The substrate and sample files of a successful run, told by the cells
    of the table. *)
Lemma fixed_records (df : DataFrame) (upload_id : string)
    (info : Frame string) (ids : list value) (batch_id : string)
    (sf : Frame string)
    (substrates : list (string * Series * peroTF_Substrate.t))
    (samples : list (value * entry)) :
  well_typed df = true ->
  getitem_level0 df "Experiment Info" = Ok info ->
  getitem_column info "Nomad ID" = Ok ids ->
  batch_id_of (dropna ids) = Ok batch_id ->
  getitem_columns info substrates_col = Ok sf ->
  Forall2 substrate_of (not_blank (iterrows (drop_duplicates sf))) substrates ->
  Forall2 (linked_sample upload_id substrates) (not_blank (iterrows info))
    samples ->
  exists distinct,
    firsts (same_substrate df) [] (f_rows df) distinct
    /\ Forall2 (spec_substrate_file df) (filter (has_substrate df) distinct)
         (map (fun s => (archive_file (VStr (fst (fst s))), ESubstrate (snd s)))
              substrates)
    /\ Forall2 (spec_sample_file df upload_id)
         (filter (is_sample_row df) (f_rows df))
         (map (fun a => (archive_file (fst a), snd a)) samples).
Proof.
  intros T Hinfo Hids Hb Hsf Hsub Hsam.
  pose proof (info_has_object _ _ _ _ T Hinfo Hids Hb) as Hobj.
  destruct (substrate_rows _ _ _ T Hinfo Hsf) as (distinct & D & Eit).
  rewrite Eit in Hsub. rewrite (iterrows_info _ _ T Hinfo Hobj) in Hsam.
  unfold not_blank in Hsub, Hsam. rewrite filter_map_comm in Hsub, Hsam.
  apply (proj1 (Forall2_map_l _ _ _ _)) in Hsub.
  apply (proj1 (Forall2_map_l _ _ _ _)) in Hsam.
  cbn [snd isna_all s_values] in Hsub, Hsam.
  (* the substrate rows hold text: a sample was matched with one *)
  assert (Hd : common_dtype (map snd (f_columns sf)) = object).
  { rewrite (ids_cells _ _ _ T Hinfo Hids) in Hb. unfold batch_id_of in Hb.
    destruct (dropna (map (cell df "Experiment Info" "Nomad ID") (f_rows df)))
      as [|v rest] eqn:E; [discriminate Hb|].
    destruct v as [|z|x|s]; try discriminate Hb.
    assert (Hin : In (VStr s)
                     (dropna (map (cell df "Experiment Info" "Nomad ID")
                                  (f_rows df))))
      by (rewrite E; left; reflexivity).
    apply filter_In in Hin. destruct Hin as [Hin _].
    apply in_map_iff in Hin. destruct Hin as (r0 & E0 & Hr0).
    assert (S0 : In r0 (filter
                          (fun x => negb (forallb isna
                                            (map snd (group_cells df
                                                        "Experiment Info" x))))
                          (f_rows df))).
    { apply filter_In. split; [exact Hr0|].
      rewrite (cell_not_missing df "Experiment Info" "Nomad ID" r0);
        [reflexivity|]. rewrite E0. reflexivity. }
    destruct (Forall2_In_l _ _ _ _ Hsam S0) as (a & _ & L).
    destruct L as (d & name & sub & rec & id & descr & Hsel & Hin & He & _).
    cbn [snd] in Hsel.
    apply (select_substrate_cells df info sf r0 d T Hinfo Hsf Hr0) in Hsel.
    subst d.
    destruct (Forall2_In_r _ _ _ _ Hsub Hin) as (r' & _ & a' & _ & Es).
    cbn [fst snd] in Es. injection Es as _ Es _. subst sub.
    unfold equals in He. cbn [s_dtype substrate_row] in He.
    apply andb_true_iff in He. destruct He as [He _].
    apply andb_true_iff in He. destruct He as [_ He].
    symmetry. apply dtype_eqb_eq. exact He. }
  rewrite Hd in Hsub.
  assert (Hsub' : Forall2
                    (fun r s =>
                       exists a, map_substrate (substrate_row df r) = Ok a
                                 /\ s = (str_of_nat (fst r) +++ "_substrate",
                                         substrate_row df r, a))
                    (filter (has_substrate df) distinct) substrates).
  { erewrite filter_ext; [eapply Forall2_impl; [|exact Hsub]|].
    - intros r s (a & Ha & Es). cbn [fst snd] in Ha, Es.
      rewrite map_cast_object in Ha, Es. exists a. split; [exact Ha | exact Es].
    - intros r. unfold has_substrate. rewrite map_cast_object. reflexivity. }
  clear Hsub. exists distinct. split; [exact D|]. split.
  - apply Forall2_map_r. eapply Forall2_impl; [|exact Hsub'].
    intros r s (a & Ha & ->). exists a. split; [exact Ha | reflexivity].
  - apply Forall2_map_r. eapply Forall2_impl_In; [|exact Hsam].
    intros r a Hr L. apply filter_In in Hr. destruct Hr as [Hr _].
    destruct L as (d & name & sub & rec & id & descr & Hsel & Hin & He & Hid & ->).
    cbn [snd] in Hsel, Hid.
    apply (select_substrate_cells df info sf r d T Hinfo Hsf Hr) in Hsel.
    subst d.
    destruct (Forall2_In_r _ _ _ _ Hsub' Hin) as (r' & Hr' & a' & _ & Es).
    injection Es as -> -> _.
    apply filter_In in Hr'. destruct Hr' as [Hr' Hs'].
    unfold equals in He. apply andb_true_iff in He. destruct He as [_ He].
    cbn [s_values substrate_row] in He. apply values_eqb_spec in He.
    destruct (firsts_In _ _ _ _ r' D Hr') as (before & after & E & Fb).
    simpl in Fb.
    assert (Eid : id = cell df "Experiment Info" "Nomad ID" r).
    { unfold series_getitem in Hid.
      pose proof (series_get_cells df "Experiment Info" info r object
                    (fun v => v) "Nomad ID" T Hinfo Hr) as G.
      rewrite map_id in G. rewrite G in Hid. unfold cell.
      destruct (cell_of (group_cells df "Experiment Info" r) "Nomad ID");
        simpl in Hid; [|discriminate Hid].
      injection Hid as <-. reflexivity. }
    subst id. exists r', descr. split; [|split; [exact Hs' | reflexivity]].
    exists before, after. split; [exact E|]. split.
    + apply contents_match_sym. exact He.
    + eapply Forall_impl; [|exact Fb]. intros b Nb C. apply Nb.
      unfold same_substrate in *. eapply contents_match_trans; [exact C|].
      exact He.
Qed.

End TableSpec.

(** A text up to its last underscore. *)
Lemma split_last_segment (first : string) :
  exists last,
    free_of "_"%char last = true
    /\ (first = join "_" (removelast (str_split "_"%char first)) +++ "_" +++ last
        \/ (first = last
            /\ join "_" (removelast (str_split "_"%char first)) = "")).
Proof.
  destruct (removelast_last_split _ (str_split_not_nil "_"%char first))
    as [last E].
  pose proof (split_parts_free "_"%char first) as F.
  pose proof (join_split "_"%char first) as J.
  rewrite E in F, J. apply Forall_app in F. destruct F as [_ F].
  inversion F as [|? ? Hlast _]; subst.
  exists last. split; [exact Hlast|].
  destruct (removelast (str_split "_"%char first)) as [|x init] eqn:R.
  - right. simpl in J. auto.
  - left. unfold join in *. rewrite concat_app_last in J by discriminate.
    symmetry. exact J.
Qed.

Lemma positions_nil_In {K : Type} (p : K -> bool) (cols : list (K * dtype))
    (n : nat) (c : K * dtype) :
  positions p cols n = [] -> In c cols -> p (fst c) = false.
Proof.
  revert n; induction cols as [|c' cols IH]; intros n; simpl; [tauto|].
  destruct (p (fst c')) eqn:E; [discriminate|].
  intros H [<-|Hin]; [exact E | exact (IH _ H Hin)].
Qed.

Lemma column_position_None_In (cols : list (string * dtype)) (name : string)
    (n : nat) :
  column_position cols name n = None -> ~ In name (map fst cols).
Proof.
  revert n; induction cols as [|c cols IH]; intros n; simpl; [tauto|].
  destruct (String.eqb (fst c) name) eqn:E; [discriminate|].
  intros H [Hc|Hin]; [|exact (IH _ H Hin)].
  rewrite Hc, String.eqb_refl in E. discriminate.
Qed.

Section ParseSpec.
Context {RT : Runtime}.

(** The batch id of a successful run, told by the cells of the table. *)
Lemma batch_id_cells (df : DataFrame) (info : Frame string) (ids : list value)
    (batch_id : string) :
  well_typed df = true ->
  getitem_level0 df "Experiment Info" = Ok info ->
  getitem_column info "Nomad ID" = Ok ids ->
  batch_id_of (dropna ids) = Ok batch_id ->
  batch_id_in df batch_id.
Proof.
  intros T Hinfo Hids Hb.
  rewrite (ids_cells _ _ _ T Hinfo Hids) in Hb. unfold batch_id_of, dropna in Hb.
  rewrite filter_map_comm in Hb.
  destruct (filter (fun x => negb (isna (cell df "Experiment Info" "Nomad ID" x)))
                   (f_rows df)) as [|r rest] eqn:E; [discriminate Hb|].
  cbn [map first_item bind] in Hb.
  destruct (filter_head_split _ _ _ _ E) as (before & after & El & Fb & Pr & _).
  destruct (cell df "Experiment Info" "Nomad ID" r) as [|z|x|first] eqn:C;
    try discriminate Hb.
  cbn [py_split bind] in Hb. injection Hb as <-.
  destruct (split_last_segment first) as (last & Hl & Hs).
  exists before, r, after, last. split; [exact El|]. split; [|split].
  - eapply Forall_impl; [|exact Fb]. intros b Hb.
    apply negb_false_iff. exact Hb.
  - exact Hl.
  - destruct Hs as [Hs|[Hs Hj]].
    + left. rewrite C. f_equal. exact Hs.
    + right. split; [rewrite C; f_equal; exact Hs | exact Hj].
Qed.

(** The references of the batch: one per row with a 'Nomad ID'. *)
Lemma batch_refs_cells (df : DataFrame) (upload_id : string)
    (info : Frame string) (ids : list value) :
  well_typed df = true ->
  getitem_level0 df "Experiment Info" = Ok info ->
  getitem_column info "Nomad ID" = Ok ids ->
  exists with_id,
    those (has_id df) (f_rows df) with_id
    /\ Forall2 (refers_to df upload_id) with_id
         (sample_refs upload_id (dropna ids)).
Proof.
  intros T Hinfo Hids.
  rewrite (ids_cells _ _ _ T Hinfo Hids). unfold dropna.
  rewrite filter_map_comm.
  exists (filter (fun x => negb (isna (cell df "Experiment Info" "Nomad ID" x)))
                 (f_rows df)).
  split; [|apply sample_refs_refer].
  apply those_filter. intros r _. unfold has_id. apply negb_true_iff.
Qed.

Lemma spec_row_records_are_processes (df : DataFrame) (upload_id col : string)
    (r : nat * list value) (new : list (value * entry)) :
  spec_row_records df upload_id col r new ->
  Forall (fun a => is_process (snd a) = true) new.
Proof.
  intros (sharing & _ & _ & F). eapply Forall_impl; [|exact F].
  intros a (refs & Ha & _). unfold is_process. rewrite Ha. reflexivity.
Qed.

Lemma spec_groups_are_processes (df : DataFrame) (upload_id : string)
    (names : list string) (groups : list (list (value * entry))) :
  Forall2 (spec_group_records df upload_id) names groups ->
  Forall (fun a => is_process (snd a) = true) (List.concat groups).
Proof.
  induction 1 as [|col recs names groups Hg _ IH]; simpl; [constructor|].
  apply Forall_app. split; [|exact IH].
  unfold spec_group_records in Hg.
  destruct (String.eqb col "Experiment Info"); [subst recs; constructor|].
  destruct Hg as (distinct & per_row & _ & -> & F).
  induction F as [|r new rows news Hr _ IHF]; simpl; [constructor|].
  apply Forall_app. split; [|exact IHF].
  eapply spec_row_records_are_processes. exact Hr.
Qed.

(** The outcome of a successful [parse], told by the cells of the table:
    the substrate files, the batch file, the sample files and the process
    files, in this order. *)
Lemma parse_Ok_cells (upload_id : string) (df : DataFrame) (out : parsed) :
  well_typed df = true ->
  parse upload_id df = Ok out ->
  exists distinct substrates batch_id with_id refs samples names groups,
    firsts (same_substrate df) [] (f_rows df) distinct
    /\ Forall2 (spec_substrate_file df) (filter (has_substrate df) distinct)
         substrates
    /\ batch_id_in df batch_id
    /\ those (has_id df) (f_rows df) with_id
    /\ Forall2 (refers_to df upload_id) with_id refs
    /\ Forall2 (spec_sample_file df upload_id)
         (filter (is_sample_row df) (f_rows df)) samples
    /\ firsts eq [] (map (fun c => fst (fst c)) (f_columns df)) names
    /\ Forall2 (spec_group_records df upload_id) names groups
    /\ created out
       = substrates
         ++ (batch_id +++ ".archive.json",
             EBatch {| peroTF_Batch.name := batch_id;
                       peroTF_Batch.lab_id := batch_id;
                       peroTF_Batch.entities := refs |})
            :: samples
            ++ map (fun a => (archive_file (fst a), snd a)) (List.concat groups).
Proof.
  intros T H.
  destruct (parse_Ok_shape _ _ _ H)
    as (info & ids & batch_id & sf & substrates & samples & groups
        & Hinfo & Hids & Hb & Hsf & Hsub & Hsam & Hg & Hc).
  destruct (fixed_records df upload_id info ids batch_id sf substrates samples
              T Hinfo Hids Hb Hsf Hsub Hsam) as (distinct & D & Fsub & Fsam).
  destruct (batch_refs_cells df upload_id info ids T Hinfo Hids)
    as (with_id & W & R).
  exists distinct,
    (map (fun s => (archive_file (VStr (fst (fst s))), ESubstrate (snd s)))
         substrates),
    batch_id, with_id, (sample_refs upload_id (dropna ids)),
    (map (fun a => (archive_file (fst a), snd a)) samples),
    (level0_names df), groups.
  split; [exact D|]. split; [exact Fsub|].
  split; [exact (batch_id_cells _ _ _ _ T Hinfo Hids Hb)|].
  split; [exact W|]. split; [exact R|]. split; [exact Fsam|].
  split; [apply unique_firsts|]. split; [|exact Hc].
  apply (Forall2_enumerate_from _ _ _ 0).
  eapply Forall2_impl; [|exact Hg].
  intros ic recs Hr.
  apply (records_of_group_spec df upload_id info ic recs T Hinfo
           (info_has_object _ _ _ _ T Hinfo Hids Hb) Hr).
Qed.

End ParseSpec.

Lemma Forall2_Forall_r {A B : Type} (R : A -> B -> Prop) (P : B -> Prop)
    (l : list A) (l' : list B) :
  (forall x y, R x y -> P y) -> Forall2 R l l' -> Forall P l'.
Proof.
  intros H. induction 1 as [|x y l l' Hxy _ IH]; constructor; eauto.
Qed.

Section CellClaims.
Context {RT : Runtime}.

Lemma substrate_files_kind (df : DataFrame) (rows : list (nat * list value))
    (files : list (string * entry)) :
  Forall2 (spec_substrate_file df) rows files ->
  Forall (fun f => is_substrate (snd f) = true /\ is_sample (snd f) = false
                   /\ is_process (snd f) = false) files.
Proof.
  apply Forall2_Forall_r. intros r f (a & _ & ->). auto.
Qed.

Lemma sample_files_kind (df : DataFrame) (upload_id : string)
    (rows : list (nat * list value)) (files : list (string * entry)) :
  Forall2 (spec_sample_file df upload_id) rows files ->
  Forall (fun f => is_substrate (snd f) = false /\ is_sample (snd f) = true
                   /\ is_process (snd f) = false) files.
Proof.
  apply Forall2_Forall_r. intros r f (r' & descr & _ & _ & ->). auto.
Qed.

Lemma process_files_kind (recs : list (value * entry)) :
  Forall (fun a => is_process (snd a) = true) recs ->
  Forall (fun f => is_substrate (snd f) = false /\ is_sample (snd f) = false
                   /\ is_process (snd f) = true)
         (map (fun a => (archive_file (fst a), snd a)) recs).
Proof.
  intros F. apply Forall_map_iff. eapply Forall_impl; [|exact F].
  intros a Ha. cbn [snd]. destruct (process_is_not_fixed _ Ha). auto.
Qed.

(** C1 (as amended). In the outcome of a successful [parse] on a table
    whose rows have one cell per column, of the dtype of the column, the
    process records come last and follow the table: one list per top-level
    column name, in the order of the first occurrences of the names (the
    name 'Experiment Info' gives none) and, within a group, one list per
    row whose cells in the group match those of no earlier row (cells
    match when they are equal as Python values or both missing). For such
    a row [parse] creates one process record per process word in the name
    of the group, the six deposition words counting only when the row has
    a 'Material name'; the samples of each record are the references to
    the 'Nomad ID' cells of exactly the rows of the table whose cells in
    the group match the cells of the row as [iterrows] yields them (ints
    turned into floats when the group has a float column and no text
    column), in the order of the table. *)
Theorem process_records_per_distinct_row (upload_id : string)
    (df : DataFrame) (out : parsed) :
  well_typed df = true ->
  parse upload_id df = Ok out ->
  exists fixed names groups,
    firsts eq [] (map (fun c => fst (fst c)) (f_columns df)) names
    /\ Forall2 (spec_group_records df upload_id) names groups
    /\ Forall (fun f => is_process (snd f) = false) fixed
    /\ created out
       = fixed ++ map (fun a => (archive_file (fst a), snd a)) (List.concat groups).
Proof.
  intros T H.
  destruct (parse_Ok_cells _ _ _ T H)
    as (distinct & substrates & batch_id & with_id & refs & samples & names
        & groups & _ & Fsub & _ & _ & _ & Fsam & N & G & Hc).
  exists (substrates
          ++ (batch_id +++ ".archive.json",
              EBatch {| peroTF_Batch.name := batch_id;
                        peroTF_Batch.lab_id := batch_id;
                        peroTF_Batch.entities := refs |})
             :: samples), names, groups.
  split; [exact N|]. split; [exact G|]. split.
  - apply Forall_app. split.
    + eapply Forall_impl; [|exact (substrate_files_kind _ _ _ Fsub)].
      intros f Hf. apply Hf.
    + constructor; [reflexivity|].
      eapply Forall_impl; [|exact (sample_files_kind _ _ _ _ Fsam)].
      intros f Hf. apply Hf.
  - rewrite Hc, <- app_assoc. reflexivity.
Qed.

(** C2 (as amended). In the outcome of a successful [parse] on a table
    whose rows have one cell per column, of the dtype of the column, the
    substrate records are, in order, one per row whose four substrate
    cells match those of no earlier row and are not all missing: the
    record [map_substrate] makes of the four cells, filed as
    '<row label>_substrate.archive.json'. The sample records are, in
    order, one per row whose cells under 'Experiment Info' are not all
    missing: the record is named by the 'Nomad ID' of the row and refers
    to the substrate file of the first row of the table whose four
    substrate cells match those of the row. *)
Theorem substrates_per_combination (upload_id : string) (df : DataFrame)
    (out : parsed) :
  well_typed df = true ->
  parse upload_id df = Ok out ->
  exists distinct,
    firsts (same_substrate df) [] (f_rows df) distinct
    /\ Forall2 (spec_substrate_file df) (filter (has_substrate df) distinct)
         (filter (fun f => is_substrate (snd f)) (created out))
    /\ Forall2 (spec_sample_file df upload_id)
         (filter (is_sample_row df) (f_rows df))
         (filter (fun f => is_sample (snd f)) (created out)).
Proof.
  intros T H.
  destruct (parse_Ok_cells _ _ _ T H)
    as (distinct & substrates & batch_id & with_id & refs & samples & names
        & groups & D & Fsub & _ & _ & _ & Fsam & _ & G & Hc).
  pose proof (substrate_files_kind _ _ _ Fsub) as Ksub.
  pose proof (sample_files_kind _ _ _ _ Fsam) as Ksam.
  pose proof (process_files_kind _ (spec_groups_are_processes _ _ _ _ G)) as Kg.
  exists distinct. split; [exact D|]. split.
  - replace (filter (fun f => is_substrate (snd f)) (created out))
      with substrates; [exact Fsub|].
    rewrite Hc, filter_app. cbn [filter snd is_substrate]. rewrite filter_app.
    rewrite (filter_all _ substrates), (filter_none _ samples), filter_none.
    + rewrite app_nil_r. reflexivity.
    + eapply Forall_impl; [|exact Kg]. intros f Hf. apply Hf.
    + eapply Forall_impl; [|exact Ksam]. intros f Hf. apply Hf.
    + eapply Forall_impl; [|exact Ksub]. intros f Hf. apply Hf.
  - replace (filter (fun f => is_sample (snd f)) (created out))
      with samples; [exact Fsam|].
    rewrite Hc, filter_app. cbn [filter snd is_sample]. rewrite filter_app.
    rewrite (filter_none _ substrates), (filter_all _ samples), filter_none.
    + rewrite app_nil_r. reflexivity.
    + eapply Forall_impl; [|exact Kg]. intros f Hf. apply Hf.
    + eapply Forall_impl; [|exact Ksam]. intros f Hf. apply Hf.
    + eapply Forall_impl; [|exact Ksub]. intros f Hf. apply Hf.
Qed.


(** C9. When [parse] succeeds on a table whose rows have one cell per
    column, of the dtype of the column, the first 'Nomad ID' cell of the
    table that is not missing is a text, and the batch id is that text up
    to its last underscore: the text is the batch id, an underscore and a
    last segment without underscore, and a text without underscore has the
    empty batch id. There is a batch record, and every batch record is
    filed under, named and labelled with the batch id. When every
    'Nomad ID' cell of the table is missing, [parse] raises: IndexError
    when the table has the column. *)
Theorem parse_batch_id (upload_id : string) (df : DataFrame) :
  well_typed df = true ->
  (forall out,
     parse upload_id df = Ok out ->
     exists batch_id,
       batch_id_in df batch_id
       /\ (exists f b, In (f, EBatch b) (created out))
       /\ forall f b,
            In (f, EBatch b) (created out) ->
            f = batch_id +++ ".archive.json"
            /\ peroTF_Batch.name b = batch_id
            /\ peroTF_Batch.lab_id b = batch_id)
  /\ (Forall (fun r => isna (cell df "Experiment Info" "Nomad ID" r) = true)
             (f_rows df) ->
      exists e,
        parse upload_id df = Raise e
        /\ (In ("Experiment Info", "Nomad ID") (map fst (f_columns df)) ->
            e = IndexError)).
Proof.
  intros T. split.
  - intros out H.
    destruct (parse_Ok_cells _ _ _ T H)
      as (distinct & substrates & batch_id & with_id & refs & samples & names
          & groups & _ & Fsub & B & _ & _ & Fsam & _ & G & Hc).
    pose proof (substrate_files_kind _ _ _ Fsub) as Ksub.
    pose proof (sample_files_kind _ _ _ _ Fsam) as Ksam.
    pose proof (process_files_kind _ (spec_groups_are_processes _ _ _ _ G)) as Kg.
    rewrite Forall_forall in Ksub, Ksam, Kg.
    exists batch_id. split; [exact B|]. split.
    + eexists. eexists. rewrite Hc. apply in_or_app. right. left. reflexivity.
    + intros f b Hin. rewrite Hc in Hin.
      apply in_app_or in Hin. destruct Hin as [Hin|[Hin|Hin]].
      * destruct (Ksub _ Hin) as (K & _). discriminate K.
      * injection Hin as <- <-. auto.
      * apply in_app_or in Hin. destruct Hin as [Hin|Hin].
        -- destruct (Ksam _ Hin) as (_ & K & _). discriminate K.
        -- destruct (Kg _ Hin) as (_ & _ & K). discriminate K.
  - intros F. unfold parse.
    destruct (getitem_level0 df "Experiment Info") as [info|e] eqn:Hinfo.
    + cbn [bind].
      destruct (getitem_column info "Nomad ID") as [ids|e] eqn:Hids.
      * cbn [bind]. exists IndexError. split; [|reflexivity].
        rewrite (ids_cells _ _ _ T Hinfo Hids). unfold dropna.
        rewrite filter_map_comm, filter_none; [reflexivity|].
        eapply Forall_impl; [|exact F]. intros r Hr. cbv beta.
        rewrite Hr. reflexivity.
      * exists e. split; [reflexivity|]. intros Hin. exfalso.
        unfold getitem_column in Hids.
        destruct (column_position (f_columns info) "Nomad ID" 0) eqn:P;
          [discriminate Hids|].
        apply (column_position_None_In _ _ _ P).
        rewrite (getitem_level0_columns _ _ _ Hinfo), map_map. cbn [fst].
        apply in_map_iff in Hin. destruct Hin as (c & Ec & Hc).
        apply in_map_iff. exists c. split; [rewrite Ec; reflexivity|].
        apply filter_In. split; [exact Hc|]. rewrite Ec. reflexivity.
    + exists e. split; [reflexivity|]. intros Hin. exfalso.
      unfold getitem_level0 in Hinfo.
      destruct (positions (fun k : string * string =>
                             String.eqb (fst k) "Experiment Info")
                          (f_columns df) 0) as [|n ns] eqn:P;
        [|discriminate Hinfo].
      apply in_map_iff in Hin. destruct Hin as (c & Ec & Hc).
      pose proof (positions_nil_In _ _ _ c P Hc) as N. cbv beta in N.
      rewrite Ec in N. discriminate N.
Qed.

End CellClaims.

(** *** The table claims on the example tables *)

Section CellRuns.
Existing Instance Demo.runtime.

Lemma process_records_per_distinct_row_witness :
  well_typed Examples.df_demo = true
  /\ exists out,
       parse "up" Examples.df_demo = Ok out
       /\ exists fixed names groups,
            firsts eq [] (map (fun c => fst (fst c)) (f_columns Examples.df_demo))
                   names
            /\ Forall2 (spec_group_records Examples.df_demo "up") names groups
            /\ Forall (fun f => is_process (snd f) = false) fixed
            /\ created out
               = fixed ++ map (fun a => (archive_file (fst a), snd a))
                              (List.concat groups).
Proof.
  split; [vm_compute; reflexivity|].
  eexists. split; [vm_compute; reflexivity|].
  apply (process_records_per_distinct_row "up" Examples.df_demo);
    vm_compute; reflexivity.
Defined.

Lemma substrates_per_combination_witness :
  well_typed Examples.df_demo = true
  /\ exists out,
       parse "up" Examples.df_demo = Ok out
       /\ exists distinct,
            firsts (same_substrate Examples.df_demo) []
                   (f_rows Examples.df_demo) distinct
            /\ Forall2 (spec_substrate_file Examples.df_demo)
                 (filter (has_substrate Examples.df_demo) distinct)
                 (filter (fun f => is_substrate (snd f)) (created out))
            /\ Forall2 (spec_sample_file Examples.df_demo "up")
                 (filter (is_sample_row Examples.df_demo)
                         (f_rows Examples.df_demo))
                 (filter (fun f => is_sample (snd f)) (created out)).
Proof.
  split; [vm_compute; reflexivity|].
  eexists. split; [vm_compute; reflexivity|].
  apply (substrates_per_combination "up" Examples.df_demo);
    vm_compute; reflexivity.
Defined.


Lemma parse_batch_id_witness :
  well_typed Examples.df_demo = true
  /\ (exists out,
        parse "up" Examples.df_demo = Ok out
        /\ exists batch_id,
             batch_id_in Examples.df_demo batch_id
             /\ (exists f b, In (f, EBatch b) (created out))
             /\ forall f b,
                  In (f, EBatch b) (created out) ->
                  f = batch_id +++ ".archive.json"
                  /\ peroTF_Batch.name b = batch_id
                  /\ peroTF_Batch.lab_id b = batch_id)
  /\ well_typed Examples.df_no_id = true
  /\ Forall (fun r => isna (cell Examples.df_no_id "Experiment Info" "Nomad ID" r)
                      = true)
            (f_rows Examples.df_no_id)
  /\ exists e,
       parse "up" Examples.df_no_id = Raise e
       /\ (In ("Experiment Info", "Nomad ID")
              (map fst (f_columns Examples.df_no_id)) ->
           e = IndexError).
Proof.
  split; [vm_compute; reflexivity|]. split; [|split; [vm_compute; reflexivity|]].
  - destruct (parse_batch_id "up" Examples.df_demo) as [A _];
      [vm_compute; reflexivity|].
    eexists. split; [vm_compute; reflexivity|].
    apply A. vm_compute. reflexivity.
  - assert (F : Forall (fun r => isna (cell Examples.df_no_id "Experiment Info"
                                          "Nomad ID" r) = true)
                       (f_rows Examples.df_no_id))
      by (repeat constructor).
    split; [exact F|].
    destruct (parse_batch_id "up" Examples.df_no_id) as [_ B];
      [vm_compute; reflexivity|].
    exact (B F).
Defined.

(** In the demo table the batch id 'KIT_ab_1' is the first 'Nomad ID',
    'KIT_ab_1_0', up to its last underscore. *)
Example df_demo_batch_id : batch_id_in Examples.df_demo "KIT_ab_1".
Proof.
  exists [], (0, snd (hd (0, []) (f_rows Examples.df_demo))),
    (tl (f_rows Examples.df_demo)), "0".
  split; [reflexivity|]. split; [constructor|]. split; [reflexivity|].
  left. vm_compute. reflexivity.
Qed.

(** C8, counterexample. The 'Organic' cell of the row is ' Yes': it starts
    with a blank, so that its lower-case form starts with none of 'y', 'n',
    '0', '1', and [map_evaporation] returns: the test is made on the text
    stripped of the blanks around it. *)
Lemma blank_before_yes_returns :
  series_get Examples.row_blank_yes "Organic" = Some (VStr " Yes")
  /\ existsb (startswith (lower " Yes")) ["y"; "n"; "0"; "1"] = false
  /\ is_ok (map_evaporation 1 0 [] Examples.row_blank_yes "up") = true.
Proof. vm_compute. repeat split; reflexivity. Qed.

(** [strip] removes the blanks of Unicode at both ends, a no-break space
    (U+00A0), a line separator (U+2028) and an ideographic space (U+3000)
    among them, and nothing else: the letter whose second byte is that of
    the no-break space stays, and so does a blank inside the text. *)
Example strip_blanks :
  strip (bytes [194; 160] +++ " Yes" +++ bytes [226; 128; 168; 9]) = "Yes"
  /\ strip (bytes [227; 128; 128]) = ""
  /\ strip (bytes [195; 160]) = bytes [195; 160]
  /\ strip ("a" +++ bytes [194; 160] +++ "b") = "a" +++ bytes [194; 160] +++ "b".
Proof. vm_compute. repeat split; reflexivity. Qed.

(** A cell that holds a no-break space only has no text: the 'Gas' cell of
    such a row attaches no section, and an 'Organic' cell with the space
    before 'Yes' is read as 'yes'. *)
Example no_break_space_is_blank :
  has_text {| s_dtype := object; s_index := ["Gas"];
              s_values := [VStr (bytes [194; 160])] |} "Gas" = false
  /\ organic_form {| s_dtype := object; s_index := ["Organic"];
                     s_values := [VStr (bytes [194; 160] +++ "Yes")] |} = "yes".
Proof. vm_compute. split; reflexivity. Qed.

End CellRuns.
